(** * Budget prototype: validation, persistence and monthly totals

    A shallow embedding of [prototype/app.py] (classes [Transaction],
    [TransactionRepository], [ReportService], [ExpenseService], and the loop
    of [main]) and of the unit tests of [prototype/test_app.py], together
    with the parts of the Python run time the code relies on: [str.strip],
    [str.upper], [decimal.Decimal] under the default context, [datetime.date]
    and the documents produced by [json.loads].

    Conventions.
    - A Python [str] is a Rocq [string], one character per code point, so the
      model covers text in the range U+0000..U+00FF.
    - A raised exception is a value [Raise e]; code that reads or writes the
      data file runs in a state-and-exception monad over the file's content.
    - [date.today()] and the wall clock are explicit parameters, and so
      are the version of [date.fromisoformat] and what [sys.stdout] can
      encode. *)

From Stdlib Require Import Bool Ascii String List ZArith NArith Lia.
From Stdlib Require Import SpecFloat.
Import ListNotations.

Open Scope string_scope.
Open Scope Z_scope.

(** ** Exceptions and results *)

Inductive exn : Type :=
| ValueError (msg : string)   (* raised by the application or by [Decimal(seq)] *)
| IsoFormatError              (* the [ValueError] of [date.fromisoformat] *)
| JSONDecodeError             (* [json.JSONDecodeError], a [ValueError] *)
| InvalidOperation            (* [decimal.InvalidOperation], an [ArithmeticError] *)
| Overflow                    (* [decimal.Overflow], an [ArithmeticError] *)
| KeyError (key : string)
| TypeError
| AttributeError.

(** [except ValueError] catches exactly these. *)
Definition is_ValueError (e : exn) : bool :=
  match e with
  | ValueError _ | IsoFormatError | JSONDecodeError => true
  | _ => false
  end.

Inductive result (A : Type) : Type :=
| Ok (a : A)
| Raise (e : exn).
Arguments Ok {A} a.
Arguments Raise {A} e.

Definition bind {A B : Type} (m : result A) (k : A -> result B) : result B :=
  match m with
  | Ok a => k a
  | Raise e => Raise e
  end.

Declare Scope result_scope.
Delimit Scope result_scope with result.
Notation "x <- m ;; k" := (bind m (fun x => k))
  (at level 61, m at next level, right associativity) : result_scope.
Notation "' pat <- m ;; k" := (bind m (fun x => match x with pat => k end))
  (at level 61, pat pattern, m at next level, right associativity) : result_scope.

(** A list comprehension whose element expression may raise: elements are
    evaluated left to right and the first exception propagates. *)
Fixpoint mapM {A B : Type} (f : A -> result B) (l : list A) : result (list B) :=
  match l with
  | [] => Ok []
  | x :: l' =>
      match f x with
      | Raise e => Raise e
      | Ok y =>
          match mapM f l' with
          | Raise e => Raise e
          | Ok ys => Ok (y :: ys)
          end
      end
  end.

(** ** Text *)

Module Str.

Definition code (c : ascii) : N := N_of_ascii c.

(** [str.isspace] on one character: the white space of U+0000..U+00FF. *)
Definition isspace (c : ascii) : bool :=
  let n := code c in
  ((9 <=? n) && (n <=? 13) || (28 <=? n) && (n <=? 32)
   || (n =? 133) || (n =? 160))%N.

Fixpoint lstrip (s : string) : string :=
  match s with
  | EmptyString => EmptyString
  | String c s' => if isspace c then lstrip s' else s
  end.

Fixpoint rstrip (s : string) : string :=
  match s with
  | EmptyString => EmptyString
  | String c s' =>
      match rstrip s' with
      | EmptyString => if isspace c then EmptyString else String c EmptyString
      | r => String c r
      end
  end.

(** [s.strip()] *)
Definition strip (s : string) : string := rstrip (lstrip s).

Fixpoint map (f : ascii -> ascii) (s : string) : string :=
  match s with
  | EmptyString => EmptyString
  | String c s' => String (f c) (map f s')
  end.

(** Upper-casing of a character whose capital is one character: besides
    a-z, the letters U+00E0..U+00FE (without the division sign U+00F7) have
    their capital 32 places lower. *)
Definition upper_char (c : ascii) : ascii :=
  let n := code c in
  if ((97 <=? n) && (n <=? 122)
      || (224 <=? n) && (n <=? 254) && negb (n =? 247))%N
  then ascii_of_N (n - 32) else c.

Definition lower_char (c : ascii) : ascii :=
  let n := code c in
  if ((65 <=? n) && (n <=? 90)
      || (192 <=? n) && (n <=? 222) && negb (n =? 215))%N
  then ascii_of_N (n + 32) else c.

(** [s.upper()].  The capital of U+00DF is the two letters [SS].  The
    capitals of U+00B5 and U+00FF lie outside U+0000..U+00FF (they are U+039C
    and U+0178); these two characters are left as they are: like their
    capitals they are no ASCII letters, so that a comparison with a word of
    ASCII letters comes out as in Python. *)
Fixpoint upper (s : string) : string :=
  match s with
  | EmptyString => EmptyString
  | String c s' =>
      if (code c =? 223)%N then String "S" (String "S" (upper s'))
      else String (upper_char c) (upper s')
  end.

(** [s.lower()] *)
Definition lower (s : string) : string := map lower_char s.

(** [s.replace(c, "")] for a single character [c]. *)
Fixpoint remove (c : ascii) (s : string) : string :=
  match s with
  | EmptyString => EmptyString
  | String a s' => if Ascii.eqb a c then remove c s' else String a (remove c s')
  end.

(** [c * n] *)
Fixpoint repeat (c : ascii) (n : nat) : string :=
  match n with
  | O => EmptyString
  | S n' => String c (repeat c n')
  end.

Fixpoint take (n : nat) (s : string) : string :=
  match n, s with
  | S n', String c s' => String c (take n' s')
  | _, _ => EmptyString
  end.

Fixpoint drop (n : nat) (s : string) : string :=
  match n, s with
  | S n', String _ s' => drop n' s'
  | _, _ => s
  end.

Definition is_empty (s : string) : bool :=
  match s with EmptyString => true | _ => false end.

(** *** Decimal digits *)

Definition is_digit (c : ascii) : bool :=
  ((48 <=? code c) && (code c <=? 57))%N.

Definition digit_value (c : ascii) : N := (code c - 48)%N.

Definition digit_char (d : N) : ascii := ascii_of_N (48 + d).

(** The longest prefix of digits, and what follows it. *)
Fixpoint span_digits (s : string) : string * string :=
  match s with
  | EmptyString => (EmptyString, EmptyString)
  | String c s' =>
      if is_digit c
      then let (ds, r) := span_digits s' in (String c ds, r)
      else (EmptyString, s)
  end.

Fixpoint all_digits (s : string) : bool :=
  match s with
  | EmptyString => true
  | String c s' => is_digit c && all_digits s'
  end.

(** [int(s)] for a string of digits, most significant first. *)
Fixpoint value_from (acc : N) (s : string) : N :=
  match s with
  | EmptyString => acc
  | String c s' => value_from (acc * 10 + digit_value c)%N s'
  end.

Definition digits_value (s : string) : N := value_from 0%N s.

(** [str(n)] for a natural number: digits are produced from the least
    significant one; the number of binary digits bounds the recursion. *)
Fixpoint digits_onto (fuel : nat) (n : N) (acc : string) : string :=
  let acc' := String (digit_char (n mod 10)) acc in
  match fuel with
  | O => acc'
  | S fuel' => if (n <? 10)%N then acc' else digits_onto fuel' (n / 10) acc'
  end.

Definition of_N (n : N) : string := digits_onto (N.size_nat n) n EmptyString.

(** [str(z)] for an integer. *)
Definition of_Z (z : Z) : string :=
  if z <? 0 then String "-" (of_N (Z.abs_N z)) else of_N (Z.abs_N z).

(** ["%+d" % z] *)
Definition of_Z_signed (z : Z) : string :=
  String (if z <? 0 then "-"%char else "+"%char) (of_N (Z.abs_N z)).

(** ["%0<w>d" % z] for [z >= 0]: zero padding on the left up to width [w]. *)
Definition zero_padded (w : nat) (z : Z) : string :=
  let s := of_N (Z.abs_N z) in
  repeat "0" (w - String.length s) ++ s.

End Str.

(** ** [decimal.Decimal] under the default context

    The default context has 28 digits of precision, rounds half to even,
    bounds exponents by [Emax = 999999] and [Emin = -999999], and traps
    [InvalidOperation] and [Overflow] (the operation raises).  Arithmetic
    follows the General Decimal Arithmetic specification that the module
    implements: the exact result at the ideal exponent, then [_fix].
    Exponents are unbounded integers, as in the module written in Python;
    the C implementation refuses, when a number is built, exponents beyond
    about 10^18 in absolute value.  [in_C_range], further down, is that
    limit; a statement that would not hold without it carries it as a
    condition. *)

Module Dec.

Inductive Decimal : Type :=
| Finite (sign : bool) (coeff : N) (exp : Z)    (* (-1)^sign * coeff * 10^exp *)
| Infinite (sign : bool)
| NaN (sign : bool) (signaling : bool) (payload : N).

Definition prec : Z := 28.
Definition Emax : Z := 999999.
Definition Emin : Z := -999999.
Definition Etiny : Z := Emin - prec + 1.
Definition Etop : Z := Emax - prec + 1.

(** [len(self._int)] *)
Definition ndigits (c : N) : Z := Z.of_nat (String.length (Str.of_N c)).

(** *** [Decimal(str)] *)

Definition split_sign (s : string) : bool * string :=
  match s with
  | String c r =>
      if Ascii.eqb c "-" then (true, r)
      else if Ascii.eqb c "+" then (false, r)
      else (false, s)
  | EmptyString => (false, s)
  end.

(** The exponent part: nothing, or [E], an optional sign and digits. *)
Definition parse_exponent (s : string) : option Z :=
  match s with
  | EmptyString => Some 0
  | String c r =>
      if Ascii.eqb c "e" || Ascii.eqb c "E" then
        let (neg, ds) := split_sign r in
        if Str.all_digits ds && negb (Str.is_empty ds)
        then Some (if neg then - Z.of_N (Str.digits_value ds)
                   else Z.of_N (Str.digits_value ds))
        else None
      else None
  end.

(** Digits with an optional fractional part, at least one digit in all,
    and an optional exponent. *)
Definition parse_number (sign : bool) (s : string) : option Decimal :=
  let (ip, r1) := Str.span_digits s in
  let (fp, r2) :=
    match r1 with
    | String c r => if Ascii.eqb c "." then Str.span_digits r
                    else (EmptyString, r1)
    | EmptyString => (EmptyString, r1)
    end in
  if Str.is_empty ip && Str.is_empty fp then None
  else
    match parse_exponent r2 with
    | Some e => Some (Finite sign (Str.digits_value (ip ++ fp))
                             (e - Z.of_nat (String.length fp)))
    | None => None
    end.

(** [Inf], [Infinity], [NaN] and [sNaN] with optional payload digits, in
    any mixture of cases. *)
Definition parse_special (sign : bool) (s : string) : option Decimal :=
  let l := Str.lower s in
  if String.eqb l "inf" || String.eqb l "infinity" then Some (Infinite sign)
  else if String.eqb (Str.take 3 l) "nan" && Str.all_digits (Str.drop 3 l)
  then Some (NaN sign false (Str.digits_value (Str.drop 3 l)))
  else if String.eqb (Str.take 4 l) "snan" && Str.all_digits (Str.drop 4 l)
  then Some (NaN sign true (Str.digits_value (Str.drop 4 l)))
  else None.

(** [Decimal(s)]: surrounding white space and all underscores are dropped
    first; [None] stands for [InvalidOperation] (conversion syntax). *)
Definition of_string (s : string) : option Decimal :=
  let (sign, r) := split_sign (Str.remove "_" (Str.strip s)) in
  match parse_number sign r with
  | Some d => Some d
  | None => parse_special sign r
  end.

(** [Decimal(n)] for an [int]. *)
Definition of_int (z : Z) : Decimal := Finite (z <? 0) (Z.abs_N z) 0.

Fixpoint trailing_twos (p : positive) : nat :=
  match p with
  | xO p' => S (trailing_twos p')
  | _ => O
  end.

(** [Decimal(x)] for a [float] [m * 2^e]: the exact value, written with the
    denominator of the reduced fraction turned into a power of ten. *)
Definition of_float (f : spec_float) : Decimal :=
  match f with
  | S754_zero s => Finite s 0 0
  | S754_infinity s => Infinite s
  | S754_nan => NaN false false 0
  | S754_finite s m e =>
      if 0 <=? e then Finite s (Npos m * 2 ^ Z.to_N e) 0
      else
        let t := Nat.min (trailing_twos m) (Z.to_nat (- e)) in
        let k := (Z.to_nat (- e) - t)%nat in
        Finite s (Npos m / 2 ^ N.of_nat t * 5 ^ N.of_nat k) (- Z.of_nat k)
  end.

(** *** [str(d)] *)

Definition sign_string (s : bool) : string := if s then "-" else "".

(** The digits of a finite number: plain notation when the exponent is at
    most zero and the number not too small, scientific notation otherwise. *)
Definition finite_to_string (c : N) (e : Z) : string :=
  let ds := Str.of_N c in
  let len := Z.of_nat (String.length ds) in
  let leftdigits := e + len in
  let dotplace :=
    if (e <=? 0) && (-6 <? leftdigits) then leftdigits else 1 in
  let intpart :=
    if dotplace <=? 0 then "0"
    else if len <=? dotplace
         then ds ++ Str.repeat "0" (Z.to_nat (dotplace - len))
         else Str.take (Z.to_nat dotplace) ds in
  let fracpart :=
    if dotplace <=? 0
    then String "." (Str.repeat "0" (Z.to_nat (- dotplace)) ++ ds)
    else if len <=? dotplace then ""
         else String "." (Str.drop (Z.to_nat dotplace) ds) in
  let exp :=
    if leftdigits =? dotplace then ""
    else String "E" (Str.of_Z_signed (leftdigits - dotplace)) in
  intpart ++ fracpart ++ exp.

Definition to_string (d : Decimal) : string :=
  match d with
  | Infinite s => sign_string s ++ "Infinity"
  | NaN s g p =>
      sign_string s ++ (if g then "sNaN" else "NaN")
      ++ (if (p =? 0)%N then "" else Str.of_N p)
  | Finite s c e => sign_string s ++ finite_to_string c e
  end.

(** *** Rounding to the context *)

(** [c / 10^k] rounded half to even, for [k > 0]. *)
Definition round_half_even (c : N) (k : Z) : N :=
  let p := (10 ^ Z.to_N k)%N in
  let q := (c / p)%N in
  let r := (c mod p)%N in
  if ((p <? 2 * r) || ((2 * r =? p) && N.odd q))%N then (q + 1)%N else q.

(** The coefficient of [c * 10^e] rewritten at exponent [target]. *)
Definition rescale (c : N) (e target : Z) : N :=
  if target <=? e then (c * 10 ^ Z.to_N (e - target))%N
  else round_half_even c (target - e).

(** A NaN keeps the low 28 digits of its payload and becomes quiet. *)
Definition fix_nan (s : bool) (p : N) : Decimal :=
  NaN s false (p mod 10 ^ Z.to_N prec).

(** [_fix]: round a result to 28 digits and check the exponent range. *)
Definition _fix (d : Decimal) : result Decimal :=
  match d with
  | Finite s c e =>
      if (c =? 0)%N then Ok (Finite s 0 (Z.min (Z.max e Etiny) Emax))
      else
        let exp_min := ndigits c + e - prec in
        if Etop <? exp_min then Raise Overflow
        else
          let exp_min := Z.max exp_min Etiny in
          if e <? exp_min then
            let coeff := round_half_even c (exp_min - e) in
            let coeff' := if prec <? ndigits coeff then (coeff / 10)%N else coeff in
            let exp_min' := if prec <? ndigits coeff then exp_min + 1 else exp_min in
            if Etop <? exp_min' then Raise Overflow
            else Ok (Finite s coeff' exp_min')
          else Ok d
  | Infinite _ => Ok d
  | NaN s _ p => Ok (fix_nan s p)
  end.

(** [_check_nans]: a signalling NaN raises, a quiet one is the result;
    the left operand is looked at first. *)
Definition check_nans (a b : Decimal) : option (result Decimal) :=
  match a, b with
  | NaN _ true _, _ => Some (Raise InvalidOperation)
  | _, NaN _ true _ => Some (Raise InvalidOperation)
  | NaN s false p, _ => Some (Ok (fix_nan s p))
  | _, NaN s false p => Some (Ok (fix_nan s p))
  | _, _ => None
  end.

Definition signed (s : bool) (c : N) : Z :=
  if s then - Z.of_N c else Z.of_N c.

(** [a + b] *)
Definition add (a b : Decimal) : result Decimal :=
  match check_nans a b with
  | Some r => r
  | None =>
      match a, b with
      | Finite s1 c1 e1, Finite s2 c2 e2 =>
          let e := Z.min e1 e2 in
          let z := signed s1 c1 * 10 ^ (e1 - e) + signed s2 c2 * 10 ^ (e2 - e) in
          let sign :=
            if z =? 0 then (c1 =? 0)%N && (c2 =? 0)%N && s1 && s2
            else z <? 0 in
          _fix (Finite sign (Z.abs_N z) e)
      | Infinite s1, Infinite s2 =>
          if Bool.eqb s1 s2 then Ok a else Raise InvalidOperation
      | Infinite _, _ => Ok a
      | _, _ => Ok b
      end
  end.

Definition negate (d : Decimal) : Decimal :=
  match d with
  | Finite s c e => Finite (negb s) c e
  | Infinite s => Infinite (negb s)
  | NaN s g p => NaN (negb s) g p
  end.

(** [a - b] *)
Definition sub (a b : Decimal) : result Decimal :=
  match check_nans a b with
  | Some r => r
  | None => add a (negate b)
  end.

(** [d <= 0]: an ordering comparison with a NaN raises. *)
Definition le_zero (d : Decimal) : result bool :=
  match d with
  | NaN _ _ _ => Raise InvalidOperation
  | Infinite s => Ok s
  | Finite s c _ => Ok (s || (c =? 0)%N)
  end.

(** [a.quantize(q)] *)
Definition quantize (a q : Decimal) : result Decimal :=
  match check_nans a q with
  | Some r => r
  | None =>
      match a, q with
      | Finite s c e, Finite _ _ qe =>
          if negb ((Etiny <=? qe) && (qe <=? Emax)) then Raise InvalidOperation
          else if (c =? 0)%N then _fix (Finite s 0 qe)
          else
            let adjusted := e + ndigits c - 1 in
            if Emax <? adjusted then Raise InvalidOperation
            else if prec <? adjusted - qe + 1 then Raise InvalidOperation
            else
              let coeff := rescale c e qe in
              if Emax <? qe + ndigits coeff - 1 then Raise InvalidOperation
              else if prec <? ndigits coeff then Raise InvalidOperation
              else _fix (Finite s coeff qe)
      | Infinite _, Infinite _ => Ok a
      | _, _ => Raise InvalidOperation
      end
  end.

(** [Decimal("0")] and [Decimal("0.01")] *)
Definition zero : Decimal := Finite false 0 0.
Definition cent : Decimal := Finite false 1 (-2).

End Dec.

(** ** [datetime.date] *)

Module Date.

Record date : Type := mk { year : Z; month : Z; day : Z }.

Definition is_leap (y : Z) : bool :=
  (y mod 4 =? 0) && (negb (y mod 100 =? 0) || (y mod 400 =? 0)).

Definition days_in_month (y m : Z) : Z :=
  if m =? 2 then (if is_leap y then 29 else 28)
  else if (m =? 4) || (m =? 6) || (m =? 9) || (m =? 11) then 30
  else 31.

(** The values the constructor [date(y, m, d)] accepts; every [date]
    object of a running program satisfies it. *)
Definition valid (d : date) : bool :=
  (1 <=? year d) && (year d <=? 9999)
  && (1 <=? month d) && (month d <=? 12)
  && (1 <=? day d) && (day d <=? days_in_month (year d) (month d)).

(** [a > b] *)
Definition gt (a b : date) : bool :=
  (year b <? year a)
  || ((year a =? year b)
      && ((month b <? month a)
          || ((month a =? month b) && (day b <? day a)))).

(** [d.isoformat()], that is ["%04d-%02d-%02d"]. *)
Definition isoformat (d : date) : string :=
  Str.zero_padded 4 (year d)
  ++ String "-" (Str.zero_padded 2 (month d)
  ++ String "-" (Str.zero_padded 2 (day d))).

Definition two_digits (a b : ascii) : option Z :=
  if Str.is_digit a && Str.is_digit b
  then Some (Z.of_N (Str.digit_value a * 10 + Str.digit_value b))
  else None.

(** The form [YYYY-MM-DD] read strictly: ten characters, digits and two
    dashes, naming a date the constructor accepts. *)
Definition parse_ymd (s : string) : option date :=
  match s with
  | String y1 (String y2 (String y3 (String y4 (String s1
    (String m1 (String m2 (String s2 (String d1 (String d2 EmptyString))))))))) =>
      if Ascii.eqb s1 "-" && Ascii.eqb s2 "-" then
        match two_digits y1 y2, two_digits y3 y4, two_digits m1 m2, two_digits d1 d2 with
        | Some yh, Some yl, Some m, Some d =>
            let r := mk (yh * 100 + yl) m d in
            if valid r then Some r else None
        | _, _, _, _ => None
        end
      else None
  | _ => None
  end.

(** A wall-clock time, for [strftime("%H%M%S")]. *)
Record time : Type := mk_time { hour : Z; minute : Z; second : Z }.

Definition strftime_HMS (t : time) : string :=
  Str.zero_padded 2 (hour t) ++ Str.zero_padded 2 (minute t)
  ++ Str.zero_padded 2 (second t).

End Date.

(** ** Python values that [json.loads] produces *)

#[local] Unset Elimination Schemes.
Inductive value : Type :=
| VNone
| VBool (b : bool)
| VInt (z : Z)
| VFloat (f : spec_float)
| VStr (s : string)
| VList (l : list value)
| VDict (kv : list (string * value)).   (* in insertion order *)
#[local] Set Elimination Schemes.

(** [d[key]] and [d.get(key, default)] on the items of a [dict]. *)
Fixpoint dict_lookup (kv : list (string * value)) (key : string) : option value :=
  match kv with
  | [] => None
  | (k, v) :: kv' => if String.eqb k key then Some v else dict_lookup kv' key
  end.

Definition getitem (kv : list (string * value)) (key : string) : result value :=
  match dict_lookup kv key with
  | Some v => Ok v
  | None => Raise (KeyError key)
  end.

Definition get_default (kv : list (string * value)) (key : string) (default : value) : value :=
  match dict_lookup kv key with
  | Some v => v
  | None => default
  end.

Fixpoint chars (s : string) : list value :=
  match s with
  | EmptyString => []
  | String c s' => VStr (String c EmptyString) :: chars s'
  end.

(** [for x in v]: the elements of a list, the keys of a dict, the characters
    of a string; anything else is not iterable. *)
Definition iterate (v : value) : result (list value) :=
  match v with
  | VList l => Ok l
  | VDict kv => Ok (List.map (fun p => VStr (fst p)) kv)
  | VStr s => Ok (chars s)
  | _ => Raise TypeError
  end.

(** [v != s] for a [str] [s]: only an equal string is equal to it. *)
Definition differs_from_str (v : value) (s : string) : bool :=
  match v with
  | VStr s' => negb (String.eqb s' s)
  | _ => true
  end.

(** ** The parts of the run time that are left open

    [date.fromisoformat] accepts exactly [YYYY-MM-DD] up to CPython 3.10 and
    further ISO 8601 forms from 3.11 on.  The development uses two facts that
    hold in every version: a parsed date is a valid date, and the output of
    [isoformat] parses back.  [Decimal(seq)] for a list (sign, digits,
    exponent) depends on the platform's word size in its error cases; no fact
    about it is used. *)

Class Runtime : Type := {
  date_fromisoformat : string -> option Date.date;
  fromisoformat_valid :
    forall s d, date_fromisoformat s = Some d -> Date.valid d = true;
  fromisoformat_isoformat :
    forall d, Date.valid d = true -> date_fromisoformat (Date.isoformat d) = Some d;
  Decimal_of_sequence : list value -> result Dec.Decimal
}.

(** ** The application: [class Transaction] *)

Module Transaction.

(** The field annotations [str] are not enforced when the program runs:
    a field holds the string the caller passed or whatever value the
    document on disk has under that key.  [amount] and [occurred_on] are
    always built by [Decimal(...)] and [date.fromisoformat(...)]. *)
Record t : Type := {
  transaction_id : value;
  user_id : value;
  amount : Dec.Decimal;
  category : value;
  occurred_on : Date.date;
  note : value;
  tx_type : value
}.

(** [asdict(self)] with the amount and the date replaced by their strings;
    the keys come in field order. *)
Definition to_json (t : t) : value :=
  VDict [ ("transaction_id", transaction_id t);
          ("user_id", user_id t);
          ("amount", VStr (Dec.to_string (amount t)));
          ("category", category t);
          ("occurred_on", VStr (Date.isoformat (occurred_on t)));
          ("note", note t);
          ("tx_type", tx_type t) ].

Section Deserialization.
Context {rt : Runtime}.

(** [Decimal(v)] *)
Definition Decimal_of (v : value) : result Dec.Decimal :=
  match v with
  | VStr s =>
      match Dec.of_string s with
      | Some d => Ok d
      | None => Raise InvalidOperation
      end
  | VInt z => Ok (Dec.of_int z)
  | VBool b => Ok (Dec.of_int (if b then 1 else 0))
  | VFloat f => Ok (Dec.of_float f)
  | VList l => Decimal_of_sequence l
  | VNone | VDict _ => Raise TypeError
  end.

(** [date.fromisoformat(v)] *)
Definition fromisoformat (v : value) : result Date.date :=
  match v with
  | VStr s =>
      match date_fromisoformat s with
      | Some d => Ok d
      | None => Raise IsoFormatError
      end
  | _ => Raise TypeError
  end.

(** [Transaction.from_json(d)]: the keyword arguments are evaluated in the
    order they are written. *)
Definition from_json (d : value) : result t :=
  match d with
  | VDict kv =>
      (tid <- getitem kv "transaction_id" ;;
       uid <- getitem kv "user_id" ;;
       a <- getitem kv "amount" ;;
       amt <- Decimal_of a ;;
       cat <- getitem kv "category" ;;
       o <- getitem kv "occurred_on" ;;
       occ <- fromisoformat o ;;
       Ok {| transaction_id := tid;
             user_id := uid;
             amount := amt;
             category := cat;
             occurred_on := occ;
             note := get_default kv "note" (VStr "");
             tx_type := get_default kv "tx_type" (VStr "EXPENSE") |})%result
  | _ => Raise TypeError   (* [d["transaction_id"]] on a value that is not a dict *)
  end.

End Deserialization.

End Transaction.

(** ** The data file

    The file at [self.path] is absent, or holds text that [json.loads]
    rejects, or holds the text of a document.  Writing [json.dumps(payload)]
    and reading it back with [json.loads] gives the payload again; the file
    is modelled by the document it decodes to. *)

Inductive file : Type :=
| Undecodable
| Document (doc : value).

Definition store : Type := option file.

Definition IO (A : Type) : Type := store -> result A * store.

Definition ret {A : Type} (a : A) : IO A := fun st => (Ok a, st).

Definition lift {A : Type} (r : result A) : IO A := fun st => (r, st).

Definition bindIO {A B : Type} (m : IO A) (k : A -> IO B) : IO B :=
  fun st =>
    match m st with
    | (Ok a, st') => k a st'
    | (Raise e, st') => (Raise e, st')
    end.

Declare Scope io_scope.
Delimit Scope io_scope with io.
Notation "x <- m ;; k" := (bindIO m (fun x => k))
  (at level 61, m at next level, right associativity) : io_scope.

Module TransactionRepository.
Section Repository.
Context {rt : Runtime}.

Definition load_all : IO (list Transaction.t) :=
  fun st =>
    match st with
    | None => (Ok [], st)
    | Some Undecodable => (Raise JSONDecodeError, st)
    | Some (Document raw) =>
        (match raw with
         | VDict kv =>
             (items <- iterate (get_default kv "transactions" (VList [])) ;;
              mapM Transaction.from_json items)%result
         | _ => Raise AttributeError   (* [raw.get] on a value that is not a dict *)
         end, st)
    end.

Definition save_all (transactions : list Transaction.t) : IO unit :=
  fun _ =>
    (Ok tt, Some (Document (VDict [("transactions", VList (List.map Transaction.to_json transactions))]))).

Definition append (transaction : Transaction.t) : IO unit :=
  (txs <- load_all ;;
   save_all (txs ++ [transaction]))%io.

End Repository.
End TransactionRepository.

Module ReportService.
Section Report.
Context {rt : Runtime}.

Record Totals : Type := { income : Dec.Decimal; expense : Dec.Decimal; net : Dec.Decimal }.

(** [v.upper()] *)
Definition upper_of (v : value) : result string :=
  match v with
  | VStr s => Ok (Str.upper s)
  | _ => Raise AttributeError
  end.

(** The [for t in txs] loop with its two accumulators. *)
Fixpoint totals_loop (txs : list Transaction.t) (user_id : string) (year month : Z)
    (income expense : Dec.Decimal) : result (Dec.Decimal * Dec.Decimal) :=
  match txs with
  | [] => Ok (income, expense)
  | t :: rest =>
      if differs_from_str (Transaction.user_id t) user_id then
        totals_loop rest user_id year month income expense
      else if (Date.year (Transaction.occurred_on t) =? year) && (Date.month (Transaction.occurred_on t) =? month) then
        (ty <- upper_of (Transaction.tx_type t) ;;
         if String.eqb ty "INCOME" then
           income' <- Dec.add income (Transaction.amount t) ;;
           totals_loop rest user_id year month income' expense
         else
           expense' <- Dec.add expense (Transaction.amount t) ;;
           totals_loop rest user_id year month income expense')%result
      else totals_loop rest user_id year month income expense
  end.

Definition monthly_totals (user_id : string) (year month : Z) : IO Totals :=
  (txs <- TransactionRepository.load_all ;;
   lift ('(income, expense) <- totals_loop txs user_id year month Dec.zero Dec.zero ;;
         net <- Dec.sub income expense ;;
         Ok {| income := income; expense := expense; net := net |})%result)%io.

End Report.
End ReportService.

Module ExpenseService.
Section Expense.
Context {rt : Runtime}.

(** What the method reads from its surroundings: [date.today()] and
    [datetime.now()]. *)
Record Env : Type := { today : Date.date; now : Date.time }.

(** The dict the method returns. *)
Record Summary : Type := {
  summary_transaction_id : string;
  summary_month : string;
  summary_income : string;
  summary_expense : string;
  summary_net : string
}.

Definition _new_tx_id (env : Env) : string :=
  "TX-" ++ Date.strftime_HMS (now env).

Definition _validate_amount (amount_str : string) : result Dec.Decimal :=
  match Dec.of_string (Str.strip amount_str) with
  | None => Raise (ValueError "Amount must be a valid number (e.g., 12.50).")
  | Some amount =>
      (nonpositive <- Dec.le_zero amount ;;
       if nonpositive : bool then Raise (ValueError "Amount must be greater than 0.")
       else Dec.quantize amount Dec.cent)%result
  end.

Definition _validate_category (category : string) : result string :=
  if Str.is_empty category || Str.is_empty (Str.strip category) then
    Raise (ValueError "Category is required.")
  else if (30 <? String.length (Str.strip category))%nat then
    Raise (ValueError "Category must be 30 characters or less.")
  else Ok (Str.strip category).

Definition _validate_date (today : Date.date) (date_str : string) : result Date.date :=
  match date_fromisoformat (Str.strip date_str) with
  | None => Raise (ValueError "Date must be in ISO format YYYY-MM-DD.")
  | Some d =>
      if Date.gt d today then
        Raise (ValueError "Date cannot be in the future for an expense entry.")
      else Ok d
  end.

Definition add_expense (env : Env) (user_id amount_str category date_str note : string)
    (transaction_id : option string) : IO Summary :=
  (amount <- lift (_validate_amount amount_str) ;;
   category_clean <- lift (_validate_category category) ;;
   occurred_on <- lift (_validate_date (today env) date_str) ;;
   let tx_id :=
     match transaction_id with
     | Some s => if Str.is_empty s then _new_tx_id env else s
     | None => _new_tx_id env
     end in
   let tx :=
     {| Transaction.transaction_id := VStr tx_id;
        Transaction.user_id := VStr user_id;
        Transaction.amount := amount;
        Transaction.category := VStr category_clean;
        Transaction.occurred_on := occurred_on;
        Transaction.note := VStr (Str.strip note);
        Transaction.tx_type := VStr "EXPENSE" |} in
   _ <- TransactionRepository.append tx ;;
   totals <- ReportService.monthly_totals user_id (Date.year occurred_on) (Date.month occurred_on) ;;
   ret {| summary_transaction_id := tx_id;
          summary_month := Str.of_Z (Date.year occurred_on) ++ "-"
                           ++ Str.zero_padded 2 (Date.month occurred_on);
          summary_income := Dec.to_string (ReportService.income totals);
          summary_expense := Dec.to_string (ReportService.expense totals);
          summary_net := Dec.to_string (ReportService.net totals) |})%io.

End Expense.
End ExpenseService.

(** * Facts about text *)

Module StrFacts.
Import Str.

Lemma append_nil_r (s : string) : s ++ "" = s.
Proof. induction s; simpl; congruence. Qed.

Lemma append_assoc (a b c : string) : (a ++ b) ++ c = a ++ (b ++ c).
Proof. induction a; simpl; congruence. Qed.

Lemma length_append (a b : string) :
  String.length (a ++ b) = (String.length a + String.length b)%nat.
Proof. induction a; simpl; congruence. Qed.

Lemma length_repeat (c : ascii) (n : nat) : String.length (repeat c n) = n.
Proof. induction n; simpl; congruence. Qed.

Lemma take_drop (n : nat) (s : string) : take n s ++ drop n s = s.
Proof.
  revert s; induction n as [|n IH]; intros [|c s]; simpl; try reflexivity.
  now rewrite IH.
Qed.

Lemma length_take (n : nat) (s : string) :
  (n <= String.length s)%nat -> String.length (take n s) = n.
Proof.
  revert s; induction n as [|n IH]; intros [|c s]; simpl; intros H; try lia.
  rewrite IH; lia.
Qed.

Lemma length_drop (n : nat) (s : string) :
  String.length (drop n s) = (String.length s - n)%nat.
Proof.
  revert s; induction n as [|n IH]; intros [|c s]; simpl; try lia.
  apply IH.
Qed.

(** [every p s]: all characters of [s] satisfy [p]. *)
Fixpoint every (p : ascii -> bool) (s : string) : bool :=
  match s with
  | EmptyString => true
  | String c s' => p c && every p s'
  end.

Lemma every_append p a b : every p (a ++ b) = every p a && every p b.
Proof. induction a; simpl; [reflexivity|]. now rewrite IHa, andb_assoc. Qed.

Lemma every_repeat p c n : p c = true -> every p (repeat c n) = true.
Proof. intros H; induction n; simpl; [reflexivity|]. now rewrite H. Qed.

Lemma every_take p n s : every p s = true -> every p (take n s) = true.
Proof.
  revert s; induction n as [|n IH]; intros [|c s]; simpl; try reflexivity.
  intros H; apply andb_true_iff in H as [-> H]. now apply IH.
Qed.

Lemma every_drop p n s : every p s = true -> every p (drop n s) = true.
Proof.
  revert s; induction n as [|n IH]; intros [|c s]; simpl; try reflexivity; try easy.
  intros H; apply andb_true_iff in H as [_ H]. now apply IH.
Qed.

Lemma every_weaken (p q : ascii -> bool) s :
  (forall c, p c = true -> q c = true) -> every p s = true -> every q s = true.
Proof.
  intros Hpq; induction s; simpl; [reflexivity|].
  intros H; apply andb_true_iff in H as [H1 H2].
  now rewrite (Hpq _ H1), IHs.
Qed.

Lemma all_digits_every s : all_digits s = every is_digit s.
Proof. induction s; simpl; congruence. Qed.

(** A character that is neither white space nor an underscore. *)
Definition solid (c : ascii) : bool := negb (isspace c) && negb (Ascii.eqb c "_").

Lemma rstrip_solid s : every solid s = true -> rstrip s = s.
Proof.
  induction s as [|c s IH]; simpl; [reflexivity|].
  intros H; apply andb_true_iff in H as [Hc Hs].
  rewrite (IH Hs). unfold solid in Hc. apply andb_true_iff in Hc as [Hc _].
  apply negb_true_iff in Hc. rewrite Hc. now destruct s.
Qed.

Lemma lstrip_solid s : every solid s = true -> lstrip s = s.
Proof.
  destruct s as [|c s]; simpl; [reflexivity|].
  intros H; apply andb_true_iff in H as [Hc _].
  unfold solid in Hc. apply andb_true_iff in Hc as [Hc _].
  apply negb_true_iff in Hc. now rewrite Hc.
Qed.

Lemma strip_solid s : every solid s = true -> strip s = s.
Proof. intros H. unfold strip. now rewrite (lstrip_solid _ H), (rstrip_solid _ H). Qed.

Lemma remove_underscore_solid s : every solid s = true -> remove "_" s = s.
Proof.
  induction s as [|c s IH]; simpl; [reflexivity|].
  intros H; apply andb_true_iff in H as [Hc Hs].
  unfold solid in Hc. apply andb_true_iff in Hc as [_ Hc].
  apply negb_true_iff in Hc. now rewrite Hc, (IH Hs).
Qed.

(** Stripping is idempotent: the result has no white space at either end. *)
Lemma lstrip_head_not_space s c r :
  lstrip s = String c r -> isspace c = false.
Proof.
  induction s as [|a s IH]; simpl; [discriminate|].
  destruct (isspace a) eqn:Ha; [exact IH|].
  intros [= <- _]. exact Ha.
Qed.

Lemma rstrip_idem s : rstrip (rstrip s) = rstrip s.
Proof.
  induction s as [|c s IH]; simpl; [reflexivity|].
  destruct (rstrip s) as [|a r] eqn:E.
  - destruct (isspace c) eqn:Hc; simpl; [reflexivity|]. now rewrite Hc.
  - simpl in *. now rewrite IH.
Qed.

Lemma rstrip_head s c r : s = String c r -> isspace c = false ->
  exists r', rstrip s = String c r'.
Proof.
  intros -> Hc. simpl. destruct (rstrip r); [rewrite Hc|]; eauto.
Qed.

Lemma strip_idem s : strip (strip s) = strip s.
Proof.
  unfold strip.
  destruct (lstrip s) as [|c r] eqn:E; [reflexivity|].
  pose proof (lstrip_head_not_space _ _ _ E) as Hc.
  destruct (rstrip_head _ c r eq_refl Hc) as [r' Hr].
  rewrite Hr. simpl lstrip. rewrite Hc. rewrite <- Hr. apply rstrip_idem.
Qed.

(** *** Digits *)

Lemma digit_char_value (d : N) : (d < 10)%N -> digit_value (digit_char d) = d.
Proof.
  intros H.
  assert (E : (d = 0 \/ d = 1 \/ d = 2 \/ d = 3 \/ d = 4 \/ d = 5 \/ d = 6
              \/ d = 7 \/ d = 8 \/ d = 9)%N) by lia.
  repeat (destruct E as [-> | E]; [reflexivity|]). now subst.
Qed.

Lemma digit_char_is_digit (d : N) : (d < 10)%N -> is_digit (digit_char d) = true.
Proof.
  intros H.
  assert (E : (d = 0 \/ d = 1 \/ d = 2 \/ d = 3 \/ d = 4 \/ d = 5 \/ d = 6
              \/ d = 7 \/ d = 8 \/ d = 9)%N) by lia.
  repeat (destruct E as [-> | E]; [reflexivity|]). now subst.
Qed.

Lemma is_digit_solid c : is_digit c = true -> solid c = true.
Proof.
  destruct c as [[] [] [] [] [] [] [] []]; vm_compute; intros H;
    (reflexivity || discriminate H).
Qed.

Lemma value_from_append a s1 s2 :
  value_from a (s1 ++ s2) = value_from (value_from a s1) s2.
Proof. revert a; induction s1; simpl; intros; [reflexivity|]. apply IHs1. Qed.

Lemma value_from_zeros a n s :
  value_from a (repeat "0" n ++ s) = value_from (a * 10 ^ N.of_nat n)%N s.
Proof.
  revert a; induction n as [|n IH]; intros a.
  - simpl. now rewrite N.mul_1_r.
  - cbn [repeat append value_from]. rewrite IH.
    f_equal. change (digit_value "0") with 0%N.
    rewrite Nat2N.inj_succ, N.pow_succ_r'. lia.
Qed.

Lemma digits_onto_append fuel n acc :
  digits_onto fuel n acc = digits_onto fuel n "" ++ acc.
Proof.
  revert n acc; induction fuel as [|f IH]; intros n acc; simpl; [reflexivity|].
  destruct (n <? 10)%N; [reflexivity|].
  rewrite (IH _ (String _ acc)), (IH _ (String _ "")).
  now rewrite append_assoc.
Qed.

Lemma digits_onto_step f n :
  digits_onto (S f) n "" =
  if (n <? 10)%N then String (digit_char (n mod 10)) ""
  else digits_onto f (n / 10) "" ++ String (digit_char (n mod 10)) "".
Proof. simpl. destruct (n <? 10)%N; [reflexivity|]. apply digits_onto_append. Qed.

Lemma size_nat_bound (n : N) : (n < 2 ^ N.of_nat (N.size_nat n))%N.
Proof.
  destruct n as [|p]; [reflexivity|]. simpl.
  induction p as [p IH|p IH|]; simpl Pos.size_nat;
    rewrite ?Nat2N.inj_succ, ?N.pow_succ_r'; lia.
Qed.

(** The digits written for [n] read back as [n]. *)
Lemma value_from_digits_onto fuel n a :
  (n < 2 ^ N.of_nat fuel)%N ->
  value_from a (digits_onto fuel n "") =
  (a * 10 ^ N.of_nat (String.length (digits_onto fuel n "")) + n)%N.
Proof.
  revert n a; induction fuel as [|f IH]; intros n a Hn.
  - simpl in Hn. assert (n = 0)%N by lia; subst.
    change (digits_onto 0 0 "") with "0". cbn [value_from String.length].
    change (digit_value "0") with 0%N. change (N.of_nat 1) with 1%N. lia.
  - rewrite digits_onto_step.
    destruct (n <? 10)%N eqn:E.
    + apply N.ltb_lt in E. simpl.
      rewrite N.mod_small by lia. rewrite digit_char_value by lia. lia.
    + apply N.ltb_ge in E.
      rewrite value_from_append, length_append. simpl.
      assert (Hq : (n / 10 < 2 ^ N.of_nat f)%N).
      { rewrite Nat2N.inj_succ, N.pow_succ_r' in Hn.
        apply N.Div0.div_lt_upper_bound. lia. }
      rewrite (IH _ _ Hq).
      rewrite digit_char_value by (apply N.mod_lt; lia).
      rewrite Nat.add_1_r, Nat2N.inj_succ, N.pow_succ_r'.
      pose proof (N.div_mod n 10 ltac:(lia)). lia.
Qed.

Lemma digits_value_of_N (n : N) : digits_value (of_N n) = n.
Proof.
  unfold digits_value, of_N.
  rewrite value_from_digits_onto by apply size_nat_bound. lia.
Qed.

Lemma digits_onto_all_digits fuel n :
  all_digits (digits_onto fuel n "") = true.
Proof.
  revert n; induction fuel as [|f IH]; intros n.
  - simpl. rewrite digit_char_is_digit; [reflexivity|]. apply N.mod_lt; lia.
  - rewrite digits_onto_step. destruct (n <? 10)%N.
    + simpl. rewrite digit_char_is_digit; [reflexivity|]. apply N.mod_lt; lia.
    + rewrite all_digits_every, every_append, <- all_digits_every, IH. simpl.
      rewrite digit_char_is_digit; [reflexivity|]. apply N.mod_lt; lia.
Qed.

Lemma of_N_all_digits (n : N) : all_digits (of_N n) = true.
Proof. apply digits_onto_all_digits. Qed.

Lemma of_N_nonempty (n : N) : exists c r, of_N n = String c r /\ is_digit c = true.
Proof.
  pose proof (of_N_all_digits n) as H.
  unfold of_N in *. destruct (N.size_nat n) as [|f].
  - simpl in *. apply andb_true_iff in H as [H _]. eauto.
  - rewrite digits_onto_step in *. destruct (n <? 10)%N.
    + simpl in H. apply andb_true_iff in H as [H _]. eauto.
    + destruct (digits_onto f (n / 10) "") as [|c r] eqn:E.
      * simpl in *. apply andb_true_iff in H as [H _]. eauto.
      * simpl in *. apply andb_true_iff in H as [H _]. eauto.
Qed.

Lemma length_of_N_pos (n : N) : (1 <= String.length (of_N n))%nat.
Proof. destruct (of_N_nonempty n) as (c & r & -> & _). simpl. lia. Qed.

(** A number below [10^k] has at most [k] digits. *)
Lemma length_digits_onto fuel n k :
  (n < 10 ^ N.of_nat (S k))%N ->
  (String.length (digits_onto fuel n "") <= S k)%nat.
Proof.
  revert n k; induction fuel as [|f IH]; intros n k Hn; [simpl; lia|].
  rewrite digits_onto_step. destruct (n <? 10)%N eqn:E; [simpl; lia|].
  apply N.ltb_ge in E. rewrite length_append. simpl.
  destruct k as [|k].
  - simpl in Hn. lia.
  - assert (Hq : (n / 10 < 10 ^ N.of_nat (S k))%N).
    { apply N.Div0.div_lt_upper_bound.
      rewrite (Nat2N.inj_succ (S k)), N.pow_succ_r' in Hn. lia. }
    specialize (IH _ _ Hq). lia.
Qed.

Lemma length_of_N_bound (n : N) (k : nat) :
  (n < 10 ^ N.of_nat (S k))%N -> (String.length (of_N n) <= S k)%nat.
Proof. apply length_digits_onto. Qed.

Lemma span_digits_append ds r :
  all_digits ds = true ->
  (match r with String c _ => is_digit c = false | EmptyString => True end) ->
  span_digits (ds ++ r) = (ds, r).
Proof.
  intros Hd Hr. induction ds as [|c ds IH]; simpl.
  - destruct r as [|c r]; [reflexivity|]. simpl. now rewrite Hr.
  - simpl in Hd. apply andb_true_iff in Hd as [Hc Hd].
    rewrite Hc, (IH Hd). reflexivity.
Qed.

End StrFacts.

(** * Facts about [Decimal] *)

Module DecFacts.
Import Str StrFacts Dec.

Lemma digits_solid s : all_digits s = true -> every solid s = true.
Proof.
  rewrite all_digits_every. apply every_weaken, is_digit_solid.
Qed.

Lemma of_N_solid n : every solid (of_N n) = true.
Proof. apply digits_solid, of_N_all_digits. Qed.

Lemma of_Z_signed_solid z : every solid (of_Z_signed z) = true.
Proof.
  unfold of_Z_signed. cbn [every]. rewrite of_N_solid.
  now destruct (z <? 0).
Qed.

Lemma sign_string_solid s : every solid (sign_string s) = true.
Proof. now destruct s. Qed.

Lemma finite_to_string_solid c e : every solid (finite_to_string c e) = true.
Proof.
  unfold finite_to_string. cbv zeta.
  repeat match goal with
  | |- context [if ?b then _ else _] => destruct b
  end;
  repeat (rewrite ?every_append; cbn [every]);
  rewrite ?of_N_solid, ?of_Z_signed_solid;
  rewrite ?every_repeat by reflexivity;
  rewrite ?every_take, ?every_drop by apply of_N_solid;
  reflexivity.
Qed.

Lemma to_string_solid d : every solid (to_string d) = true.
Proof.
  destruct d as [s c e|s|s g p]; unfold to_string.
  - now rewrite every_append, sign_string_solid, finite_to_string_solid.
  - rewrite every_append, sign_string_solid. reflexivity.
  - rewrite !every_append, sign_string_solid.
    destruct g, (p =? 0)%N; rewrite ?of_N_solid; reflexivity.
Qed.

Lemma split_sign_sign_string s body :
  (match body with
   | String c _ => Ascii.eqb c "-" = false /\ Ascii.eqb c "+" = false
   | EmptyString => False
   end) ->
  split_sign (sign_string s ++ body) = (s, body).
Proof.
  destruct body as [|c r]; [easy|]. intros [H1 H2].
  destruct s; simpl; [reflexivity|]. now rewrite H1, H2.
Qed.

Lemma is_digit_not_sign c :
  is_digit c = true -> Ascii.eqb c "-" = false /\ Ascii.eqb c "+" = false.
Proof.
  destruct c as [[] [] [] [] [] [] [] []]; vm_compute; intros H;
    (split; reflexivity) || discriminate H.
Qed.

Lemma parse_exponent_signed x :
  parse_exponent (String "E" (of_Z_signed x)) = Some x.
Proof.
  unfold parse_exponent, of_Z_signed.
  change (Ascii.eqb "E" "e" || Ascii.eqb "E" "E") with true. cbv iota.
  destruct (x <? 0) eqn:E.
  - change (split_sign (String "-" (of_N (Z.abs_N x)))) with (true, of_N (Z.abs_N x)).
    cbv iota beta. rewrite of_N_all_digits.
    destruct (of_N_nonempty (Z.abs_N x)) as (c & r & Hc & _).
    rewrite digits_value_of_N. rewrite Hc. simpl.
    apply Z.ltb_lt in E. f_equal. lia.
  - change (split_sign (String "+" (of_N (Z.abs_N x)))) with (false, of_N (Z.abs_N x)).
    cbv iota beta. rewrite of_N_all_digits.
    destruct (of_N_nonempty (Z.abs_N x)) as (c & r & Hc & _).
    rewrite digits_value_of_N. rewrite Hc. simpl.
    apply Z.ltb_ge in E. f_equal. lia.
Qed.

(** The exponent part written by [to_string]: absent, or [E] and a signed
    number. *)
Definition exponent_text (x : Z) (ex : string) : Prop :=
  (ex = "" /\ x = 0) \/ ex = String "E" (of_Z_signed x).

Lemma exponent_text_parse x ex : exponent_text x ex -> parse_exponent ex = Some x.
Proof. intros [[-> ->]| ->]; [reflexivity | apply parse_exponent_signed]. Qed.

Lemma exponent_text_head x ex :
  exponent_text x ex ->
  match ex with
  | String c _ => is_digit c = false /\ Ascii.eqb c "." = false
  | EmptyString => True
  end.
Proof. intros [[-> _]| ->]; [exact I | split; reflexivity]. Qed.

Lemma is_empty_append a b : is_empty (a ++ b) = is_empty a && is_empty b.
Proof. now destruct a. Qed.

(** Digits, a point and digits, then the exponent part. *)
Lemma parse_number_point sg ip fp x ex :
  all_digits ip = true -> all_digits fp = true ->
  is_empty ip && is_empty fp = false ->
  exponent_text x ex ->
  parse_number sg (ip ++ String "." (fp ++ ex)) =
  Some (Finite sg (digits_value (ip ++ fp)) (x - Z.of_nat (String.length fp))).
Proof.
  intros Hi Hf Hne Hex. unfold parse_number.
  rewrite (span_digits_append ip (String "." (fp ++ ex)) Hi) by reflexivity.
  change (Ascii.eqb "." ".") with true. cbv iota.
  rewrite (span_digits_append fp ex Hf).
  2:{ pose proof (exponent_text_head _ _ Hex). destruct ex; [exact I|tauto]. }
  rewrite Hne, (exponent_text_parse _ _ Hex). reflexivity.
Qed.

(** Digits followed directly by the exponent part. *)
Lemma parse_number_whole sg ip x ex :
  all_digits ip = true -> is_empty ip = false ->
  exponent_text x ex ->
  parse_number sg (ip ++ ex) = Some (Finite sg (digits_value ip) x).
Proof.
  intros Hi Hne Hex. unfold parse_number.
  pose proof (exponent_text_head _ _ Hex) as Hh.
  rewrite (span_digits_append ip ex Hi).
  2:{ destruct ex; [exact I|tauto]. }
  assert (E : match ex with
              | String c r => if Ascii.eqb c "." then span_digits r else ("", ex)
              | EmptyString => ("", ex)
              end = ("", ex)).
  { destruct ex as [|c r]; [reflexivity|]. destruct Hh as [_ ->]. reflexivity. }
  rewrite E, Hne. cbn [is_empty andb].
  rewrite (exponent_text_parse _ _ Hex), append_nil_r.
  cbn [String.length Z.of_nat]. now rewrite Z.sub_0_r.
Qed.

Lemma parse_number_head sg body d :
  parse_number sg body = Some d ->
  match body with
  | String c _ => Ascii.eqb c "-" = false /\ Ascii.eqb c "+" = false
  | EmptyString => False
  end.
Proof.
  destruct body as [|c r]; [discriminate|].
  unfold parse_number. cbn [span_digits].
  destruct (is_digit c) eqn:Hc; [intros _; now apply is_digit_not_sign|].
  destruct (Ascii.eqb c ".") eqn:Hp.
  - apply Ascii.eqb_eq in Hp. subst c. intros _. split; reflexivity.
  - discriminate.
Qed.

Lemma parse_finite_to_string sg c e :
  parse_number sg (finite_to_string c e) = Some (Finite sg c e).
Proof.
  unfold finite_to_string. cbv zeta.
  pose proof (of_N_all_digits c) as Hds.
  pose proof (length_of_N_pos c) as Hlen.
  pose proof (digits_value_of_N c) as Hval.
  assert (Hne : is_empty (of_N c) = false).
  { destruct (of_N c); [simpl in Hlen; lia | reflexivity]. }
  set (ds := of_N c) in *. set (len := Z.of_nat (String.length ds)).
  assert (Hl : 1 <= len) by (unfold len; lia).
  destruct ((e <=? 0) && (-6 <? e + len)) eqn:EA.
  - apply andb_true_iff in EA as [E0 E6]. apply Z.leb_le in E0. apply Z.ltb_lt in E6.
    rewrite Z.eqb_refl.
    destruct (e + len <=? 0) eqn:E1.
    + apply Z.leb_le in E1.
      change ("0" ++ String "." (repeat "0" (Z.to_nat (- (e + len))) ++ ds) ++ "")
        with ("0" ++ String "." ((repeat "0" (Z.to_nat (- (e + len))) ++ ds) ++ "")).
      rewrite (parse_number_point sg "0" _ 0 "").
      * f_equal. f_equal.
        -- unfold digits_value. cbn [append value_from].
           change (digit_value "0") with 0%N.
           rewrite value_from_zeros. simpl N.mul. exact Hval.
        -- rewrite length_append, length_repeat. fold len. unfold len in *. lia.
      * reflexivity.
      * rewrite all_digits_every, every_append, every_repeat by reflexivity.
        now rewrite <- all_digits_every.
      * reflexivity.
      * left; split; reflexivity.
    + apply Z.leb_gt in E1.
      destruct (len <=? e + len) eqn:E2.
      * apply Z.leb_le in E2. assert (e = 0) by lia. subst e.
        replace (0 + len - len) with 0 by lia. cbn [Z.to_nat repeat].
        rewrite !append_nil_r.
        rewrite <- (append_nil_r ds) at 1.
        rewrite (parse_number_whole sg ds 0 "") by (auto; left; split; reflexivity).
        now rewrite Hval.
      * apply Z.leb_gt in E2.
        change (take (Z.to_nat (e + len)) ds ++ String "." (drop (Z.to_nat (e + len)) ds) ++ "")
          with (take (Z.to_nat (e + len)) ds ++ String "." (drop (Z.to_nat (e + len)) ds ++ "")).
        rewrite (parse_number_point sg _ _ 0 "").
        -- rewrite take_drop, Hval, length_drop. f_equal. f_equal. unfold len in *. lia.
        -- rewrite all_digits_every. apply every_take. now rewrite <- all_digits_every.
        -- rewrite all_digits_every. apply every_drop. now rewrite <- all_digits_every.
        -- rewrite <- is_empty_append, take_drop. exact Hne.
        -- left; split; reflexivity.
  - assert (Hx : (e + len =? 1) = false).
    { apply Z.eqb_neq. intros H.
      apply andb_false_iff in EA as [EA|EA];
        [apply Z.leb_gt in EA | apply Z.ltb_ge in EA]; lia. }
    rewrite Hx. change (1 <=? 0) with false. cbv iota.
    destruct (len <=? 1) eqn:E2.
    + apply Z.leb_le in E2. assert (Hl1 : len = 1) by lia.
      replace (1 - len) with 0 by lia. cbn [Z.to_nat repeat].
      rewrite append_nil_r. cbn [append].
      rewrite (parse_number_whole sg ds (e + len - 1)) by (auto; right; reflexivity).
      rewrite Hval. f_equal. f_equal. lia.
    + apply Z.leb_gt in E2.
      change (take (Z.to_nat 1) ds ++ String "." (drop (Z.to_nat 1) ds)
              ++ String "E" (of_Z_signed (e + len - 1)))
        with (take (Z.to_nat 1) ds ++ String "." (drop (Z.to_nat 1) ds
              ++ String "E" (of_Z_signed (e + len - 1)))).
      rewrite (parse_number_point sg _ _ (e + len - 1)).
      * rewrite take_drop, Hval, length_drop. f_equal. f_equal. unfold len in *. lia.
      * rewrite all_digits_every. apply every_take. now rewrite <- all_digits_every.
      * rewrite all_digits_every. apply every_drop. now rewrite <- all_digits_every.
      * rewrite <- is_empty_append, take_drop. exact Hne.
      * right; reflexivity.
Qed.

Lemma lower_digits s : all_digits s = true -> lower s = s.
Proof.
  induction s as [|c s IH]; simpl; [reflexivity|].
  intros H; apply andb_true_iff in H as [Hc Hs].
  unfold lower in *. simpl. rewrite (IH Hs). f_equal.
  revert Hc. destruct c as [[] [] [] [] [] [] [] []]; vm_compute; intros H;
    reflexivity || discriminate H.
Qed.

Lemma map_append f a b : map f (a ++ b) = map f a ++ map f b.
Proof. induction a; simpl; congruence. Qed.

(** [Decimal] strips its argument itself, so stripping it beforehand, as
    [_validate_amount] does, changes nothing. *)
Lemma of_string_strip s : of_string (strip s) = of_string s.
Proof. unfold of_string. now rewrite strip_idem. Qed.

(** Reading back what [str] wrote gives the same number, digit for digit. *)
Lemma of_string_to_string d : of_string (to_string d) = Some d.
Proof.
  unfold of_string.
  rewrite strip_solid, remove_underscore_solid by apply to_string_solid.
  destruct d as [s c e|s|s g p]; unfold to_string.
  - pose proof (parse_finite_to_string s c e) as H.
    rewrite (split_sign_sign_string s _ (parse_number_head _ _ _ H)).
    now rewrite H.
  - rewrite split_sign_sign_string by (split; reflexivity). reflexivity.
  - rewrite split_sign_sign_string by (destruct g; split; reflexivity).
    assert (Hp : digits_value (if (p =? 0)%N then "" else of_N p) = p).
    { destruct (p =? 0)%N eqn:E; [apply N.eqb_eq in E; now subst | apply digits_value_of_N]. }
    assert (Hd : all_digits (if (p =? 0)%N then "" else of_N p) = true).
    { destruct (p =? 0)%N; [reflexivity | apply of_N_all_digits]. }
    set (pd := if (p =? 0)%N then "" else of_N p) in *.
    clearbody pd. destruct g.
    + change (parse_number s ("sNaN" ++ pd)) with (@None Decimal).
      unfold parse_special, lower. rewrite map_append.
      fold (lower pd). rewrite (lower_digits _ Hd).
      change (Str.map lower_char "sNaN" ++ pd)
        with (String "s" (String "n" (String "a" (String "n" pd)))).
      cbn [take drop]. simpl. now rewrite Hd, Hp.
    + change (parse_number s ("NaN" ++ pd)) with (@None Decimal).
      unfold parse_special, lower. rewrite map_append.
      fold (lower pd). rewrite (lower_digits _ Hd).
      change (Str.map lower_char "NaN" ++ pd)
        with (String "n" (String "a" (String "n" pd))).
      cbn [take drop]. simpl. now rewrite Hd, Hp.
Qed.

End DecFacts.

(** ** Rounding

    [round_half_even c k] is a nearest integer to [c / 10^k], and of the two
    nearest ones the even one. *)
Lemma round_half_even_nearest (c : N) (k : Z) :
  let p := (10 ^ Z.to_N k)%N in
  let q := Dec.round_half_even c k in
  ((2 * c <= 2 * (q * p) + p /\ 2 * (q * p) <= 2 * c + p)
   /\ (2 * (q * p) = 2 * c + p \/ 2 * (q * p) + p = 2 * c -> N.even q = true))%N.
Proof.
  intros p q. subst q. unfold Dec.round_half_even. fold p.
  assert (Hp : (0 < p)%N) by (unfold p; apply N.neq_0_lt_0, N.pow_nonzero; lia).
  pose proof (N.div_mod c p ltac:(lia)) as Hc.
  pose proof (N.mod_lt c p ltac:(lia)) as Hr.
  set (a := (c / p)%N) in *. set (r := (c mod p)%N) in *.
  assert (Hm : ((a + 1) * p = a * p + p)%N) by lia.
  rewrite (N.mul_comm p a) in Hc.
  destruct (p <? 2 * r)%N eqn:E1; cbn [orb].
  - apply N.ltb_lt in E1. split; [lia|]. intros [H|H]; lia.
  - apply N.ltb_ge in E1. destruct (2 * r =? p)%N eqn:E2; cbn [andb].
    + apply N.eqb_eq in E2. destruct (N.odd a) eqn:E3.
      * split; [lia|]. intros _. now rewrite N.add_1_r, N.even_succ.
      * split; [lia|]. intros _. now rewrite <- N.negb_odd, E3.
    + apply N.eqb_neq in E2. split; [lia|]. intros [H|H]; lia.
Qed.

(** * Facts about dates *)

Module DateFacts.
Import Str StrFacts Date.

(** Four padded digits read back, checked on every year the field can hold. *)
Definition reads_back4 (y : Z) : bool :=
  match zero_padded 4 y with
  | String a (String b (String c (String d EmptyString))) =>
      match two_digits a b, two_digits c d with
      | Some h, Some l => h * 100 + l =? y
      | _, _ => false
      end
  | _ => false
  end.

Definition reads_back2 (m : Z) : bool :=
  match zero_padded 2 m with
  | String a (String b EmptyString) =>
      match two_digits a b with
      | Some v => v =? m
      | None => false
      end
  | _ => false
  end.

Lemma reads_back4_table :
  forallb reads_back4 (List.map Z.of_nat (seq 0 (Z.to_nat 10000))) = true.
Proof. vm_compute. reflexivity. Qed.

Lemma reads_back2_table :
  forallb reads_back2 (List.map Z.of_nat (seq 0 (Z.to_nat 100))) = true.
Proof. vm_compute. reflexivity. Qed.

Lemma in_range_table (n z : Z) :
  0 <= z < n -> In z (List.map Z.of_nat (seq 0 (Z.to_nat n))).
Proof.
  intros H. rewrite <- (Z2Nat.id z) by lia.
  apply in_map, in_seq. lia.
Qed.

Lemma reads_back4_ok y : 0 <= y < 10000 -> reads_back4 y = true.
Proof.
  intros H. pose proof reads_back4_table as T.
  rewrite forallb_forall in T. apply T, in_range_table. lia.
Qed.

Lemma reads_back2_ok m : 0 <= m < 100 -> reads_back2 m = true.
Proof.
  intros H. pose proof reads_back2_table as T.
  rewrite forallb_forall in T. apply T, in_range_table. lia.
Qed.

Lemma valid_bounds d :
  valid d = true ->
  1 <= year d <= 9999 /\ 1 <= month d <= 12 /\ 1 <= day d <= 31.
Proof.
  unfold valid. intros H.
  repeat (apply andb_true_iff in H as [H ?]).
  repeat match goal with
  | H : (_ <=? _) = true |- _ => apply Z.leb_le in H
  end.
  assert (days_in_month (year d) (month d) <= 31).
  { unfold days_in_month.
    repeat match goal with |- context [if ?b then _ else _] => destruct b end; lia. }
  lia.
Qed.

Lemma parse_ymd_valid s d : parse_ymd s = Some d -> valid d = true.
Proof.
  unfold parse_ymd.
  repeat match goal with
  | |- context [match ?x with _ => _ end] => destruct x eqn:?; try discriminate
  end.
  now intros [= <-].
Qed.

(** The strict parser inverts [isoformat] on every valid date. *)
Lemma parse_ymd_isoformat d : valid d = true -> parse_ymd (isoformat d) = Some d.
Proof.
  intros Hv. destruct (valid_bounds d Hv) as (Hy & Hm & Hd).
  pose proof (reads_back4_ok (year d) ltac:(lia)) as R4.
  pose proof (reads_back2_ok (month d) ltac:(lia)) as Rm.
  pose proof (reads_back2_ok (day d) ltac:(lia)) as Rd.
  unfold isoformat, reads_back4, reads_back2 in *.
  destruct (zero_padded 4 (year d)) as [|y1 [|y2 [|y3 [|y4 [|? ?]]]]]; try discriminate.
  destruct (zero_padded 2 (month d)) as [|m1 [|m2 [|? ?]]]; try discriminate.
  destruct (zero_padded 2 (day d)) as [|d1 [|d2 [|? ?]]]; try discriminate.
  cbn [append parse_ymd].
  change (Ascii.eqb "-" "-") with true. cbv iota. cbn [andb].
  destruct (two_digits y1 y2) as [h|]; [|discriminate].
  destruct (two_digits y3 y4) as [l|]; [|discriminate].
  destruct (two_digits m1 m2) as [m|]; [|discriminate].
  destruct (two_digits d1 d2) as [dd|]; [|discriminate].
  apply Z.eqb_eq in R4, Rm, Rd. rewrite R4, Rm, Rd.
  destruct d as [y m' d']. cbn [year month day] in *. now rewrite Hv.
Qed.

End DateFacts.

(** ** Two concrete run times

    [date.fromisoformat] as in CPython 3.7 to 3.10 and as in CPython 3.11,
    and [Decimal(seq)] for integers that fit a machine word. *)

Definition as_int (v : value) : option Z :=
  match v with
  | VInt z => Some z
  | VBool b => Some (if b then 1 else 0)
  | _ => None
  end.

Fixpoint digits_of_sequence (l : list value) (acc : N) : option N :=
  match l with
  | [] => Some acc
  | v :: l' =>
      match as_int v with
      | Some z =>
          if (0 <=? z) && (z <=? 9) then digits_of_sequence l' (acc * 10 + Z.to_N z)
          else None
      | None => None
      end
  end.

Definition Decimal_of_triple (l : list value) : result Dec.Decimal :=
  match l with
  | [sg; ds; ex] =>
      match as_int sg with
      | Some z =>
          if (z =? 0) || (z =? 1) then
            let sign := z =? 1 in
            (make <-
               match ex with
               | VStr s =>
                   if String.eqb s "F" then Ok (fun _ : N => Dec.Infinite sign)
                   else if String.eqb s "n" then Ok (fun p => Dec.NaN sign false p)
                   else if String.eqb s "N" then Ok (fun p => Dec.NaN sign true p)
                   else Raise (ValueError
                     "string argument in the third position must be 'F', 'n' or 'N'")
               | _ =>
                   match as_int ex with
                   | Some e => Ok (fun c => Dec.Finite sign c e)
                   | None => Raise (ValueError "exponent must be an integer")
                   end
               end ;;
             match ds with
             | VList items =>
                 match digits_of_sequence items 0 with
                 | Some c => Ok (make c)
                 | None => Raise (ValueError "coefficient must be a tuple of digits")
                 end
             | _ => Raise (ValueError "coefficient must be a tuple of digits")
             end)%result
          else Raise (ValueError "sign must be an integer with the value 0 or 1")
      | None => Raise (ValueError "sign must be an integer with the value 0 or 1")
      end
  | _ => Raise (ValueError "argument must be a sequence of length 3")
  end.

Definition strict_runtime : Runtime :=
  {| date_fromisoformat := Date.parse_ymd;
     fromisoformat_valid := DateFacts.parse_ymd_valid;
     fromisoformat_isoformat := DateFacts.parse_ymd_isoformat;
     Decimal_of_sequence := Decimal_of_triple |}.

(** ** [date.fromisoformat] of CPython 3.11

    From 3.11 on the function reads more than [YYYY-MM-DD].  The model
    follows the C code of CPython 3.11 ([date_fromisoformat],
    [parse_isoformat_date], [iso_to_ymd], [ord_to_ymd] in
    [Modules/_datetimemodule.c]), which works on the UTF-8 bytes of the
    string: the length it tests is the number of bytes, and bytes after the
    part it reads are not looked at. *)

Module Iso311.

(** The UTF-8 bytes of a string of U+0000..U+00FF. *)
Fixpoint utf8 (s : string) : list N :=
  match s with
  | EmptyString => []
  | String c s' =>
      if (Str.code c <? 128)%N then Str.code c :: utf8 s'
      else (192 + Str.code c / 64)%N :: (128 + Str.code c mod 64)%N :: utf8 s'
  end.

(** The byte at an offset; a NUL ends the buffer. *)
Definition byte_at (b : list N) (i : nat) : N := nth i b 0%N.

(** [parse_digits(ptr, var, num_digits)] from the given offset, [*var]
    holding [var] at the start. *)
Fixpoint parse_digits (b : list N) (i : nat) (num_digits : nat) (var : Z) : option Z :=
  match num_digits with
  | O => Some var
  | S k =>
      if ((48 <=? byte_at b i) && (byte_at b i <=? 57))%N
      then parse_digits b (S i) k (var * 10 + Z.of_N (byte_at b i - 48))
      else None
  end.

Definition _days_in_month (month : Z) : Z :=
  nth (Z.to_nat month) [0; 31; 28; 31; 30; 31; 30; 31; 31; 30; 31; 30; 31] 0.

Definition _days_before_month (month : Z) : Z :=
  nth (Z.to_nat month) [0; 0; 31; 59; 90; 120; 151; 181; 212; 243; 273; 304; 334] 0.

Definition days_in_month (year month : Z) : Z :=
  if (month =? 2) && Date.is_leap year then 29 else _days_in_month month.

(** C's [/] and [%] round toward zero. *)
Definition days_before_year (year : Z) : Z :=
  let y := year - 1 in
  y * 365 + Z.quot y 4 - Z.quot y 100 + Z.quot y 400.

Definition days_before_month (year month : Z) : Z :=
  _days_before_month month + (if (2 <? month) && Date.is_leap year then 1 else 0).

Definition ymd_to_ord (year month day : Z) : Z :=
  days_before_year year + days_before_month year month + day.

Definition weekday (year month day : Z) : Z :=
  Z.rem (ymd_to_ord year month day + 6) 7.

Definition iso_week1_monday (year : Z) : Z :=
  let first_day := ymd_to_ord year 1 1 in
  let first_weekday := Z.rem (first_day + 6) 7 in
  let week1_monday := first_day - first_weekday in
  if 3 <? first_weekday then week1_monday + 7 else week1_monday.

(** [ord_to_ymd].  An ordinal below 1 comes from the ISO year 0000 only;
    there the C code ends with a month below 1, which the [date]
    constructor refuses: the model gives month 0. *)
Definition ord_to_ymd (ordinal : Z) : Z * Z * Z :=
  if ordinal <? 1 then (1, 0, 0)
  else
    let n := ordinal - 1 in
    let n400 := n / 146097 in
    let n := n mod 146097 in
    let n100 := n / 36524 in
    let n := n mod 36524 in
    let n4 := n / 1461 in
    let n := n mod 1461 in
    let n1 := n / 365 in
    let n := n mod 365 in
    let year := n400 * 400 + 1 + n100 * 100 + n4 * 4 + n1 in
    if (n1 =? 4) || (n100 =? 4) then (year - 1, 12, 31)
    else
      let leapyear := (n1 =? 3) && (negb (n4 =? 24) || (n100 =? 3)) in
      let month := Z.shiftr (n + 50) 5 in
      let preceding :=
        _days_before_month month + (if (2 <? month) && leapyear then 1 else 0) in
      if n <? preceding
      then (year, month - 1, n - (preceding - days_in_month year (month - 1)) + 1)
      else (year, month, n - preceding + 1).

Definition iso_to_ymd (iso_year iso_week iso_day : Z) : option (Z * Z * Z) :=
  if ((iso_week <=? 0) || (53 <=? iso_week))
     && negb ((iso_week =? 53)
              && ((weekday iso_year 1 1 =? 3)
                  || ((weekday iso_year 1 1 =? 2) && Date.is_leap iso_year)))
  then None
  else if (iso_day <=? 0) || (8 <=? iso_day) then None
  else Some (ord_to_ymd (iso_week1_monday iso_year + ((iso_week - 1) * 7 + iso_day - 1))).

Definition dash : N := 45.
Definition letter_W : N := 87.

Definition parse_isoformat_date (b : list N) (len : nat) : option (Z * Z * Z) :=
  match parse_digits b 0 4 0 with
  | None => None
  | Some year =>
      let uses_separator := (byte_at b 4 =? dash)%N in
      let p := if uses_separator then 5%nat else 4%nat in
      if (byte_at b p =? letter_W)%N then
        match parse_digits b (p + 1) 2 0 with
        | None => None
        | Some iso_week =>
            if (p + 3 <? len)%nat then
              if uses_separator && negb (byte_at b (p + 3) =? dash)%N then None
              else
                match parse_digits b (if uses_separator then p + 4 else p + 3)%nat 1 0 with
                | None => None
                | Some iso_day => iso_to_ymd year iso_week iso_day
                end
            else iso_to_ymd year iso_week 1
        end
      else
        match parse_digits b p 2 0 with
        | None => None
        | Some month =>
            if uses_separator && negb (byte_at b (p + 2) =? dash)%N then None
            else
              match parse_digits b (if uses_separator then p + 3 else p + 2)%nat 2 0 with
              | None => None
              | Some day => Some (year, month, day)
              end
        end
  end.

(** [date.fromisoformat(s)]: [None] stands for its [ValueError]. *)
Definition fromisoformat (s : string) : option Date.date :=
  let b := utf8 s in
  let len := List.length b in
  if ((len =? 7) || (len =? 8) || (len =? 10))%nat then
    match parse_isoformat_date b len with
    | Some (year, month, day) =>
        if Date.valid (Date.mk year month day) then Some (Date.mk year month day) else None
    | None => None
    end
  else None.

End Iso311.

Module IsoFacts.
Import Str StrFacts Date DateFacts.

Lemma two_digits_inv (a b : ascii) (v : Z) :
  two_digits a b = Some v ->
  is_digit a = true /\ is_digit b = true
  /\ v = Z.of_N (digit_value a) * 10 + Z.of_N (digit_value b).
Proof.
  unfold two_digits. destruct (is_digit a); [|discriminate].
  destruct (is_digit b); [|discriminate]. cbn [andb].
  intros [= <-]. repeat split. lia.
Qed.

Lemma digit_value_le (c : ascii) : is_digit c = true -> (digit_value c <= 9)%N.
Proof.
  unfold is_digit, digit_value. intros H. apply andb_true_iff in H as [H1 H2].
  apply N.leb_le in H1, H2. lia.
Qed.

Lemma digit_char_of_value (c : ascii) : is_digit c = true -> digit_char (digit_value c) = c.
Proof.
  unfold is_digit, digit_value, digit_char, code. intros H.
  apply andb_true_iff in H as [H1 H2]. apply N.leb_le in H1, H2.
  replace (48 + (N_of_ascii c - 48))%N with (N_of_ascii c) by lia.
  apply ascii_N_embedding.
Qed.

Lemma digit_value_injective (a b : ascii) :
  is_digit a = true -> is_digit b = true -> digit_value a = digit_value b -> a = b.
Proof.
  intros Ha Hb E. rewrite <- (digit_char_of_value a Ha), <- (digit_char_of_value b Hb).
  now rewrite E.
Qed.

Lemma two_digits_injective (a b a' b' : ascii) (v : Z) :
  two_digits a b = Some v -> two_digits a' b' = Some v -> a = a' /\ b = b'.
Proof.
  intros H H'.
  destruct (two_digits_inv _ _ _ H) as (Da & Db & E).
  destruct (two_digits_inv _ _ _ H') as (Da' & Db' & E').
  pose proof (digit_value_le a Da). pose proof (digit_value_le b Db).
  pose proof (digit_value_le a' Da'). pose proof (digit_value_le b' Db').
  split; apply digit_value_injective; auto; lia.
Qed.

Lemma two_digits_bound (a b : ascii) (v : Z) : two_digits a b = Some v -> 0 <= v < 100.
Proof.
  intros H. destruct (two_digits_inv _ _ _ H) as (Da & Db & ->).
  pose proof (digit_value_le a Da). pose proof (digit_value_le b Db). lia.
Qed.

(** The ten characters of [isoformat]. *)
Lemma isoformat_shape (d : date) :
  valid d = true ->
  exists y1 y2 y3 y4 m1 m2 d1 d2 yh yl,
    isoformat d
    = String y1 (String y2 (String y3 (String y4 (String "-"
        (String m1 (String m2 (String "-" (String d1 (String d2 EmptyString)))))))))
    /\ two_digits y1 y2 = Some yh /\ two_digits y3 y4 = Some yl
    /\ yh * 100 + yl = year d
    /\ two_digits m1 m2 = Some (month d)
    /\ two_digits d1 d2 = Some (day d).
Proof.
  intros Hv. destruct (valid_bounds d Hv) as (Hy & Hm & Hd).
  pose proof (reads_back4_ok (year d) ltac:(lia)) as R4.
  pose proof (reads_back2_ok (month d) ltac:(lia)) as Rm.
  pose proof (reads_back2_ok (day d) ltac:(lia)) as Rd.
  unfold isoformat, reads_back4, reads_back2 in *.
  destruct (zero_padded 4 (year d)) as [|y1 [|y2 [|y3 [|y4 [|? ?]]]]]; try discriminate.
  destruct (zero_padded 2 (month d)) as [|m1 [|m2 [|? ?]]]; try discriminate.
  destruct (zero_padded 2 (day d)) as [|d1 [|d2 [|? ?]]]; try discriminate.
  destruct (two_digits y1 y2) as [h|] eqn:E1; [|discriminate].
  destruct (two_digits y3 y4) as [l|] eqn:E2; [|discriminate].
  destruct (two_digits m1 m2) as [m|] eqn:E3; [|discriminate].
  destruct (two_digits d1 d2) as [dd|] eqn:E4; [|discriminate].
  apply Z.eqb_eq in R4, Rm, Rd. subst m dd.
  exists y1, y2, y3, y4, m1, m2, d1, d2, h, l. cbn [append]. auto 10.
Qed.

(** The strict parser accepts the strings [isoformat] writes for real dates,
    and no others. *)
Lemma parse_ymd_iff (s : string) (d : date) :
  parse_ymd s = Some d <-> valid d = true /\ s = isoformat d.
Proof.
  split.
  - intros H. pose proof (parse_ymd_valid s d H) as Hv. split; [exact Hv|].
    destruct (isoformat_shape d Hv)
      as (y1 & y2 & y3 & y4 & m1 & m2 & d1 & d2 & yh & yl & -> & Eh & El & Ey & Em & Ed).
    unfold parse_ymd in H.
    destruct s as [|a1 [|a2 [|a3 [|a4 [|s1 [|b1 [|b2 [|s2 [|c1 [|c2 [|? ?]]]]]]]]]]];
      try discriminate.
    destruct (Ascii.eqb s1 "-") eqn:S1; [|discriminate].
    destruct (Ascii.eqb s2 "-") eqn:S2; [|discriminate].
    apply Ascii.eqb_eq in S1, S2. subst s1 s2. cbn [andb] in H.
    destruct (two_digits a1 a2) as [h|] eqn:F1; [|discriminate].
    destruct (two_digits a3 a4) as [l|] eqn:F2; [|discriminate].
    destruct (two_digits b1 b2) as [m|] eqn:F3; [|discriminate].
    destruct (two_digits c1 c2) as [dd|] eqn:F4; [|discriminate].
    destruct (valid _); [|discriminate]. injection H as <-.
    cbn [year month day] in *.
    pose proof (two_digits_bound _ _ _ F1). pose proof (two_digits_bound _ _ _ F2).
    pose proof (two_digits_bound _ _ _ Eh). pose proof (two_digits_bound _ _ _ El).
    assert (h = yh /\ l = yl) as [-> ->] by lia.
    destruct (two_digits_injective _ _ _ _ _ F1 Eh) as [-> ->].
    destruct (two_digits_injective _ _ _ _ _ F2 El) as [-> ->].
    destruct (two_digits_injective _ _ _ _ _ F3 Em) as [-> ->].
    destruct (two_digits_injective _ _ _ _ _ F4 Ed) as [-> ->].
    reflexivity.
  - intros [Hv ->]. now apply parse_ymd_isoformat.
Qed.

Import Iso311.

Lemma digit_byte (c : ascii) :
  is_digit c = true ->
  (code c <? 128)%N = true
  /\ ((48 <=? code c) && (code c <=? 57))%N = true
  /\ (code c =? letter_W)%N = false
  /\ (code c =? dash)%N = false.
Proof.
  unfold is_digit, letter_W, dash. intros H. split; [|split; [exact H|]].
  - apply andb_true_iff in H as [H1 H2]. apply N.leb_le in H1, H2. apply N.ltb_lt. lia.
  - apply andb_true_iff in H as [H1 H2]. apply N.leb_le in H1, H2.
    split; apply N.eqb_neq; lia.
Qed.

(** What the strict parser accepts, the parser of CPython 3.11 accepts with
    the same result. *)
Lemma fromisoformat_parse_ymd (s : string) (d : date) :
  parse_ymd s = Some d -> fromisoformat s = Some d.
Proof.
  unfold parse_ymd.
  destruct s as [|a1 [|a2 [|a3 [|a4 [|s1 [|b1 [|b2 [|s2 [|c1 [|c2 [|? ?]]]]]]]]]]];
    try discriminate.
  destruct (Ascii.eqb s1 "-") eqn:S1; [|discriminate].
  destruct (Ascii.eqb s2 "-") eqn:S2; [|discriminate].
  apply Ascii.eqb_eq in S1, S2. subst s1 s2. cbn [andb].
  destruct (two_digits a1 a2) as [h|] eqn:F1; [|discriminate].
  destruct (two_digits a3 a4) as [l|] eqn:F2; [|discriminate].
  destruct (two_digits b1 b2) as [m|] eqn:F3; [|discriminate].
  destruct (two_digits c1 c2) as [dd|] eqn:F4; [|discriminate].
  destruct (valid _) eqn:Hv; [|discriminate]. intros [= <-].
  destruct (two_digits_inv _ _ _ F1) as (A1 & A2 & ->).
  destruct (two_digits_inv _ _ _ F2) as (A3 & A4 & ->).
  destruct (two_digits_inv _ _ _ F3) as (B1 & B2 & ->).
  destruct (two_digits_inv _ _ _ F4) as (C1 & C2 & ->).
  destruct (digit_byte a1 A1) as (La1 & Ra1 & _ & _).
  destruct (digit_byte a2 A2) as (La2 & Ra2 & _ & _).
  destruct (digit_byte a3 A3) as (La3 & Ra3 & _ & _).
  destruct (digit_byte a4 A4) as (La4 & Ra4 & _ & _).
  destruct (digit_byte b1 B1) as (Lb1 & Rb1 & Wb1 & _).
  destruct (digit_byte b2 B2) as (Lb2 & Rb2 & _ & _).
  destruct (digit_byte c1 C1) as (Lc1 & Rc1 & _ & _).
  destruct (digit_byte c2 C2) as (Lc2 & Rc2 & _ & _).
  unfold fromisoformat. cbn [utf8].
  rewrite La1, La2, La3, La4, Lb1, Lb2, Lc1, Lc2.
  change (code "-" <? 128)%N with true. cbv iota.
  cbn [List.length Nat.eqb orb].
  unfold parse_isoformat_date.
  cbn [parse_digits byte_at nth]. rewrite Ra1, Ra2, Ra3, Ra4.
  change (code "-" =? dash)%N with true. cbv iota.
  cbn [byte_at nth]. rewrite Wb1.
  cbn [parse_digits byte_at nth Nat.add]. rewrite Rb1, Rb2.
  cbn [andb negb byte_at nth Nat.add].
  change (code "-" =? dash)%N with true. cbn [negb].
  cbn [parse_digits byte_at nth Nat.add]. rewrite Rc1, Rc2.
  unfold digit_value in Hv |- *.
  match goal with
  | |- (if valid ?r then _ else _) = Some ?r' =>
      replace r with r' by (f_equal; lia)
  end.
  now rewrite Hv.
Qed.

Lemma fromisoformat_valid (s : string) (d : date) :
  fromisoformat s = Some d -> valid d = true.
Proof.
  unfold fromisoformat.
  destruct (_ || _); [|discriminate].
  destruct (parse_isoformat_date _ _) as [[[y m] dd]|]; [|discriminate].
  destruct (valid _) eqn:Hv; [|discriminate]. now intros [= <-].
Qed.

Lemma fromisoformat_isoformat (d : date) :
  valid d = true -> fromisoformat (isoformat d) = Some d.
Proof. intros Hv. now apply fromisoformat_parse_ymd, parse_ymd_isoformat. Qed.

Lemma parse_digits_cons (x : N) (b : list N) (i k : nat) (var : Z) :
  parse_digits (x :: b) (S i) k var = parse_digits b i k var.
Proof. revert i var; induction k as [|k IH]; intros i var; cbn; [reflexivity|]. now rewrite IH. Qed.

Lemma parse_digits_head (s : string) (k : nat) (var v : Z) :
  parse_digits (utf8 s) 0 (S k) var = Some v ->
  exists c r, s = String c r /\ is_digit c = true
              /\ parse_digits (utf8 r) 0 k (var * 10 + Z.of_N (code c - 48)) = Some v.
Proof.
  destruct s as [|c r]; [discriminate|]. cbn [utf8].
  destruct (code c <? 128)%N eqn:E.
  - cbn [parse_digits byte_at nth]. fold (is_digit c).
    destruct (is_digit c) eqn:D; [|discriminate].
    rewrite parse_digits_cons. intros H. exists c, r. auto.
  - cbn [parse_digits byte_at nth]. apply N.ltb_ge in E.
    assert (H57 : (192 + code c / 64 <=? 57)%N = false).
    { apply N.leb_gt. apply N.lt_le_trans with 192%N; [reflexivity | apply N.le_add_r]. }
    rewrite H57, andb_false_r. discriminate.
Qed.

(** Every string the parser of CPython 3.11 accepts starts with the four
    digits of a year. *)
Lemma fromisoformat_year_first (s : string) (d : date) :
  fromisoformat s = Some d ->
  exists y1 y2 y3 y4 r,
    s = String y1 (String y2 (String y3 (String y4 r)))
    /\ is_digit y1 = true /\ is_digit y2 = true
    /\ is_digit y3 = true /\ is_digit y4 = true.
Proof.
  unfold fromisoformat.
  destruct (_ || _); [|discriminate].
  unfold parse_isoformat_date.
  destruct (parse_digits (utf8 s) 0 4 0) as [y|] eqn:E; [|discriminate].
  intros _.
  destruct (parse_digits_head _ _ _ _ E) as (y1 & r1 & -> & D1 & E1).
  destruct (parse_digits_head _ _ _ _ E1) as (y2 & r2 & -> & D2 & E2).
  destruct (parse_digits_head _ _ _ _ E2) as (y3 & r3 & -> & D3 & E3).
  destruct (parse_digits_head _ _ _ _ E3) as (y4 & r4 & -> & D4 & _).
  exists y1, y2, y3, y4, r4. auto.
Qed.

End IsoFacts.

Definition cpython311_runtime : Runtime :=
  {| date_fromisoformat := Iso311.fromisoformat;
     fromisoformat_valid := IsoFacts.fromisoformat_valid;
     fromisoformat_isoformat := IsoFacts.fromisoformat_isoformat;
     Decimal_of_sequence := Decimal_of_triple |}.

(** * Facts about serialization and the repository *)

Lemma mapM_map_inverse {A B : Type} (f : A -> result B) (g : B -> A) (l : list B) :
  Forall (fun y => f (g y) = Ok y) l -> mapM f (List.map g l) = Ok l.
Proof.
  induction 1 as [|y l Hy _ IH]; simpl; [reflexivity|].
  now rewrite Hy, IH.
Qed.

Lemma mapM_Ok_Forall2 {A B : Type} (f : A -> result B) (l : list A) (r : list B) :
  mapM f l = Ok r -> Forall2 (fun x y => f x = Ok y) l r.
Proof.
  revert r; induction l as [|x l IH]; simpl; intros r.
  - intros [= <-]. constructor.
  - destruct (f x) as [y|] eqn:Hx; [|discriminate].
    destruct (mapM f l) as [ys|] eqn:Hl; [|discriminate].
    intros [= <-]. constructor; auto.
Qed.

Lemma mapM_Raise_In {A B : Type} (f : A -> result B) (l : list A) (x : A) (e : exn) :
  In x l -> f x = Raise e -> exists e', mapM f l = Raise e'.
Proof.
  induction l as [|y l IH]; simpl; [easy|].
  intros [->|Hin] Hx.
  - rewrite Hx. eauto.
  - destruct (f y); [|eauto].
    destruct (IH Hin Hx) as [e' ->]. eauto.
Qed.

Section SerializationFacts.
Context {rt : Runtime}.

Definition valid_tx (t : Transaction.t) : Prop :=
  Date.valid (Transaction.occurred_on t) = true.

(** Deserializing what [to_json] wrote gives the transaction back, field by
    field. *)
Lemma from_json_to_json (t : Transaction.t) :
  valid_tx t -> Transaction.from_json (Transaction.to_json t) = Ok t.
Proof.
  intros Hv. destruct t as [tid uid amt cat occ nt ty].
  unfold Transaction.from_json, Transaction.to_json, getitem, get_default.
  cbn [dict_lookup String.eqb Ascii.eqb Bool.eqb bind
       Transaction.transaction_id Transaction.user_id Transaction.amount
       Transaction.category Transaction.occurred_on Transaction.note
       Transaction.tx_type].
  unfold Transaction.Decimal_of, Transaction.fromisoformat.
  rewrite DecFacts.of_string_to_string. cbn [bind].
  rewrite (fromisoformat_isoformat _ Hv). reflexivity.
Qed.

Lemma from_json_valid (d : value) (t : Transaction.t) :
  Transaction.from_json d = Ok t -> valid_tx t.
Proof.
  unfold Transaction.from_json, valid_tx.
  destruct d; try discriminate.
  unfold bind.
  repeat match goal with
  | |- context [match ?x with Ok _ => _ | Raise _ => _ end] =>
      destruct x eqn:?; try discriminate
  end.
  intros [= <-]. cbn [Transaction.occurred_on].
  match goal with
  | H : Transaction.fromisoformat _ = Ok _ |- _ =>
      unfold Transaction.fromisoformat in H
  end.
  repeat match goal with
  | H : match ?x with _ => _ end = Ok _ |- _ => destruct x eqn:?; try discriminate
  end.
  match goal with
  | H : Ok _ = Ok _ |- _ => injection H as <-
  end.
  eauto using fromisoformat_valid.
Qed.

Import TransactionRepository.

Lemma load_all_keeps_store (st : store) : snd (load_all st) = st.
Proof. unfold load_all. destruct st as [[|raw]|]; reflexivity. Qed.

Lemma load_all_valid (st st' : store) (txs : list Transaction.t) :
  load_all st = (Ok txs, st') -> Forall valid_tx txs.
Proof.
  unfold load_all. destruct st as [[|raw]|].
  - discriminate.
  - destruct raw; try discriminate.
    unfold bind. destruct (iterate _) as [items|]; [|discriminate].
    intros [= H _]. apply mapM_Ok_Forall2 in H.
    induction H; constructor; eauto using from_json_valid.
  - intros [= <- _]. constructor.
Qed.

(** The content [save_all] leaves in the file. *)
Definition saved (txs : list Transaction.t) : store :=
  Some (Document (VDict [("transactions", VList (List.map Transaction.to_json txs))])).

Lemma save_all_saved (txs : list Transaction.t) (st : store) :
  save_all txs st = (Ok tt, saved txs).
Proof. reflexivity. Qed.

Lemma load_all_saved (txs : list Transaction.t) :
  Forall valid_tx txs -> load_all (saved txs) = (Ok txs, saved txs).
Proof.
  intros Hv. unfold load_all, saved, get_default.
  cbn [dict_lookup String.eqb Ascii.eqb Bool.eqb iterate bind].
  rewrite mapM_map_inverse; [reflexivity|].
  eapply Forall_impl; [|exact Hv]. intros t. apply from_json_to_json.
Qed.

Lemma append_loaded (st : store) (txs : list Transaction.t) (t : Transaction.t) :
  load_all st = (Ok txs, st) ->
  append t st = (Ok tt, saved (txs ++ [t])).
Proof. intros H. unfold append, bindIO. now rewrite H. Qed.

End SerializationFacts.

(** * Facts about the monthly totals *)

Module ReportFacts.
Import Dec.

Lemma ndigits_bound (c : N) : (c < 10 ^ 28)%N -> ndigits c <= prec.
Proof.
  intros H. unfold ndigits, prec.
  pose proof (StrFacts.length_of_N_bound c 27 H). lia.
Qed.

(** A value of at most 28 digits whose exponent lies between [Etiny] and 0
    is left alone. *)
Lemma fix_small (s : bool) (c : N) (e : Z) :
  (c < 10 ^ 28)%N -> Etiny <= e <= 0 -> _fix (Finite s c e) = Ok (Finite s c e).
Proof.
  intros Hc He. unfold _fix.
  destruct (c =? 0)%N eqn:E0.
  - apply N.eqb_eq in E0. subst c. unfold Etiny, Emin, Emax, prec in *.
    do 3 f_equal. lia.
  - pose proof (ndigits_bound c Hc) as Hn.
    assert (H1 : (Etop <? ndigits c + e - prec) = false).
    { apply Z.ltb_ge. unfold Etop, Emax, prec in *. lia. }
    rewrite H1.
    assert (H2 : (e <? Z.max (ndigits c + e - prec) Etiny) = false).
    { apply Z.ltb_ge. unfold Etiny, Emin, prec in *. lia. }
    now rewrite H2.
Qed.

(** The number [d] stands for, counted in units of [10^E]; defined for the
    finite numbers that are whole in that unit. *)
Definition units (E : Z) (d : Decimal) : option Z :=
  match d with
  | Finite s c e => if E <=? e then Some (signed s c * 10 ^ (e - E)) else None
  | _ => None
  end.

(** A running total: finite, exponent between [E] and 0, worth [v] units,
    with [v] at most [b] in absolute value. *)
Definition running (E : Z) (d : Decimal) (v b : Z) : Prop :=
  exists s c e, d = Finite s c e /\ E <= e <= 0
                /\ signed s c * 10 ^ (e - E) = v /\ Z.abs v <= b.

Lemma running_units (E : Z) (d : Decimal) (v b : Z) :
  running E d v b -> units E d = Some v.
Proof.
  intros (s & c & e & -> & He & Hv & _). unfold units.
  assert (H : (E <=? e) = true) by (apply Z.leb_le; lia). now rewrite H, Hv.
Qed.

Lemma running_zero (E : Z) : E <= 0 -> running E Dec.zero 0 0.
Proof.
  intros HE. exists false, 0%N, 0. repeat split; lia || reflexivity.
Qed.

Lemma signed_abs_N (z : Z) (s : bool) :
  (z <> 0 -> s = (z <? 0)) -> signed s (Z.abs_N z) = z.
Proof.
  intros H. unfold signed. rewrite N2Z.inj_abs_N.
  destruct (Z.eq_dec z 0) as [->|Hz]; [now destruct s|].
  rewrite (H Hz). destruct (z <? 0) eqn:E;
    [apply Z.ltb_lt in E | apply Z.ltb_ge in E]; lia.
Qed.

(** Adding an amount to a running total is exact as long as the sizes stay
    below [10^28] units. *)
Lemma add_running (E : Z) (a b : Decimal) (va ba vb : Z) :
  Etiny <= E ->
  running E a va ba ->
  units E b = Some vb ->
  ba + Z.abs vb < 10 ^ 28 ->
  exists r, add a b = Ok r /\ running E r (va + vb) (ba + Z.abs vb).
Proof.
  intros HE (s1 & c1 & e1 & -> & He1 & Hva & Hba) Hb Hsize.
  destruct b as [s2 c2 e2| |]; try discriminate.
  unfold units in Hb. destruct (E <=? e2) eqn:He2; [|discriminate].
  apply Z.leb_le in He2. injection Hb as Hvb.
  unfold add. cbn [check_nans].
  set (e := Z.min e1 e2).
  assert (He : E <= e <= 0) by (unfold e; lia).
  set (z := signed s1 c1 * 10 ^ (e1 - e) + signed s2 c2 * 10 ^ (e2 - e)).
  assert (Hp1 : 10 ^ (e1 - E) = 10 ^ (e1 - e) * 10 ^ (e - E))
    by (rewrite <- Z.pow_add_r by (unfold e; lia); f_equal; lia).
  assert (Hp2 : 10 ^ (e2 - E) = 10 ^ (e2 - e) * 10 ^ (e - E))
    by (rewrite <- Z.pow_add_r by (unfold e; lia); f_equal; lia).
  assert (Hz : z * 10 ^ (e - E) = va + vb).
  { unfold z. rewrite <- Hva, <- Hvb, Hp1, Hp2. ring. }
  assert (Hpos : 1 <= 10 ^ (e - E))
    by (pose proof (Z.pow_pos_nonneg 10 (e - E)); lia).
  assert (Habs : Z.abs z <= Z.abs (va + vb)).
  { rewrite <- Hz, Z.abs_mul, (Z.abs_eq (10 ^ (e - E))) by lia. nia. }
  assert (Hlt : (Z.abs_N z < 10 ^ 28)%N).
  { apply N2Z.inj_lt. rewrite N2Z.inj_abs_N. change (Z.of_N (10 ^ 28)) with (10 ^ 28). lia. }
  set (sign := if z =? 0 then (c1 =? 0)%N && (c2 =? 0)%N && s1 && s2 else z <? 0).
  rewrite (fix_small sign (Z.abs_N z) e Hlt) by lia.
  eexists. split; [reflexivity|].
  exists sign, (Z.abs_N z), e. repeat split; try lia.
  rewrite signed_abs_N; [exact Hz|].
  intros Hnz. unfold sign. apply Z.eqb_neq in Hnz. now rewrite Hnz.
Qed.

Lemma units_negate (E : Z) (d : Decimal) (v : Z) :
  units E d = Some v -> units E (negate d) = Some (- v).
Proof.
  destruct d as [s c e| |]; try discriminate. cbn [negate units].
  destruct (E <=? e); [|discriminate]. intros [= <-]. f_equal.
  destruct s; unfold signed; cbn [negb]; ring.
Qed.

(** The difference of two running totals is exact under the same bound. *)
Lemma sub_running (E : Z) (a b : Decimal) (va ba vb bb : Z) :
  Etiny <= E ->
  running E a va ba ->
  running E b vb bb ->
  ba + bb < 10 ^ 28 ->
  exists r, sub a b = Ok r /\ running E r (va - vb) (ba + bb).
Proof.
  intros HE Ha Hb Hsize.
  pose proof (running_units _ _ _ _ Hb) as Hub.
  destruct Hb as (s2 & c2 & e2 & -> & He2 & Hvb & Hbb).
  destruct Ha as (s1 & c1 & e1 & -> & He1 & Hva & Hba).
  unfold sub. cbn [check_nans].
  destruct (add_running E (Finite s1 c1 e1) (negate (Finite s2 c2 e2)) va ba (- vb) HE)
    as (r & Hr & (s & c & e & -> & He & Hv & Hb)).
  - exists s1, c1, e1. auto.
  - now apply units_negate.
  - lia.
  - exists (Finite s c e). split; [exact Hr|].
    exists s, c, e. repeat split; try lia.
Qed.

End ReportFacts.

Section ReportTheorems.
Context {rt : Runtime}.
Import Dec ReportFacts.

(** The transactions the loop looks at: same user, same year and month. *)
Definition kept (user_id : string) (year month : Z) (t : Transaction.t) : bool :=
  negb (differs_from_str (Transaction.user_id t) user_id)
  && (Date.year (Transaction.occurred_on t) =? year)
  && (Date.month (Transaction.occurred_on t) =? month).

(** The type label, compared without regard to case. *)
Definition has_type (label : string) (t : Transaction.t) : bool :=
  match Transaction.tx_type t with
  | VStr s => String.eqb (Str.upper s) label
  | _ => false
  end.

(** The amount of a transaction in units of [10^E]. *)
Definition units_of (E : Z) (t : Transaction.t) : Z :=
  match units E (Transaction.amount t) with
  | Some v => v
  | None => 0
  end.

(** The exact sum of the amounts, and the sum of their absolute values. *)
Definition total_units (E : Z) (l : list Transaction.t) : Z :=
  fold_right (fun t acc => units_of E t + acc) 0 l.

Definition total_size (E : Z) (l : list Transaction.t) : Z :=
  fold_right (fun t acc => Z.abs (units_of E t) + acc) 0 l.

(** A transaction the report can add up exactly: its type is a string and
    its amount a finite number, whole in units of [10^E]. *)
Definition whole (E : Z) (t : Transaction.t) : Prop :=
  (exists label, Transaction.tx_type t = VStr label)
  /\ (exists v, units E (Transaction.amount t) = Some v).

Lemma total_size_nonneg (E : Z) (l : list Transaction.t) : 0 <= total_size E l.
Proof. induction l; simpl; lia. Qed.

Lemma totals_loop_app (a b : list Transaction.t) (u : string) (y m : Z)
    (i e : Decimal) :
  ReportService.totals_loop (a ++ b) u y m i e =
  bind (ReportService.totals_loop a u y m i e)
       (fun p => ReportService.totals_loop b u y m (fst p) (snd p)).
Proof.
  revert i e; induction a as [|t a IH]; intros i e; [reflexivity|].
  cbn [app ReportService.totals_loop].
  destruct (differs_from_str _ _); [apply IH|].
  destruct (_ && _); [|apply IH].
  destruct (ReportService.upper_of _) as [ty|]; [|reflexivity].
  cbn [bind]. destruct (String.eqb ty "INCOME").
  - destruct (add i _); [apply IH | reflexivity].
  - destruct (add e _); [apply IH | reflexivity].
Qed.

(** The loop passes over a transaction of another user or month. *)
Lemma totals_loop_skip (t : Transaction.t) (rest : list Transaction.t)
    (u : string) (y m : Z) (i e : Decimal) :
  kept u y m t = false ->
  ReportService.totals_loop (t :: rest) u y m i e
  = ReportService.totals_loop rest u y m i e.
Proof.
  unfold kept. cbn [ReportService.totals_loop]. intros Hk.
  destruct (differs_from_str _ _); [reflexivity|].
  cbn [negb andb] in Hk. now rewrite Hk.
Qed.

(** On a kept transaction with a string for its type, the loop adds the
    amount to one of the two totals. *)
Lemma totals_loop_keep (t : Transaction.t) (rest : list Transaction.t)
    (u label : string) (y m : Z) (i e : Decimal) :
  kept u y m t = true ->
  Transaction.tx_type t = VStr label ->
  ReportService.totals_loop (t :: rest) u y m i e
  = if has_type "INCOME" t
    then bind (add i (Transaction.amount t))
              (fun i' => ReportService.totals_loop rest u y m i' e)
    else bind (add e (Transaction.amount t))
              (fun e' => ReportService.totals_loop rest u y m i e').
Proof.
  unfold kept, has_type. cbn [ReportService.totals_loop]. intros Hk Hl.
  apply andb_true_iff in Hk as [Hk Hmo]. apply andb_true_iff in Hk as [Hu Hyr].
  apply negb_true_iff in Hu. rewrite Hu, Hyr, Hmo, Hl. cbn [andb ReportService.upper_of bind].
  now destruct (String.eqb (Str.upper label) "INCOME").
Qed.

Lemma totals_loop_none (txs : list Transaction.t) (u : string) (y m : Z)
    (i e : Decimal) :
  filter (kept u y m) txs = [] ->
  ReportService.totals_loop txs u y m i e = Ok (i, e).
Proof.
  induction txs as [|t txs IH]; [reflexivity|]. cbn [filter].
  destruct (kept u y m t) eqn:Hk; [discriminate|].
  intros H. rewrite totals_loop_skip by assumption. now apply IH.
Qed.

(** The loop keeps both totals exact while the amounts seen stay, in all,
    below [10^28] units. *)
Lemma totals_loop_running (E : Z) (u : string) (y m : Z) (txs : list Transaction.t) :
  Etiny <= E ->
  (forall t, In t txs -> kept u y m t = true -> whole E t) ->
  forall (i e : Decimal) (vi bi ve be : Z),
    running E i vi bi -> running E e ve be ->
    bi + be + total_size E (filter (kept u y m) txs) < 10 ^ 28 ->
    let inc := filter (has_type "INCOME") (filter (kept u y m) txs) in
    let exp := filter (fun t => negb (has_type "INCOME" t)) (filter (kept u y m) txs) in
    exists i' e',
      ReportService.totals_loop txs u y m i e = Ok (i', e')
      /\ running E i' (vi + total_units E inc) (bi + total_size E inc)
      /\ running E e' (ve + total_units E exp) (be + total_size E exp).
Proof.
  intros HE. induction txs as [|t txs IH]; intros Hw i e vi bi ve be Hi He Hb.
  - exists i, e. cbn. rewrite !Z.add_0_r. auto.
  - assert (Hw' : forall t', In t' txs -> kept u y m t' = true -> whole E t')
      by (intros; apply Hw; [now right | assumption]).
    cbn [filter] in *. destruct (kept u y m t) eqn:Hk.
    + destruct (Hw t (or_introl eq_refl) Hk) as [[label Hl] [v Hv]].
      assert (Hu : units_of E t = v) by (unfold units_of; now rewrite Hv).
      cbn [total_size fold_right] in Hb.
      fold (total_size E (filter (kept u y m) txs)) in Hb. rewrite Hu in Hb.
      pose proof (total_size_nonneg E (filter (kept u y m) txs)) as Hnn.
      assert (0 <= bi /\ 0 <= be) as [Hbi Hbe].
      { destruct Hi as (? & ? & ? & _ & _ & _ & ?), He as (? & ? & ? & _ & _ & _ & ?). lia. }
      rewrite (totals_loop_keep t txs u label y m i e Hk Hl). cbn [filter].
      destruct (has_type "INCOME" t); cbn [negb].
      * destruct (add_running E i (Transaction.amount t) vi bi v HE Hi Hv)
          as (i1 & Ha & Hi1); [lia|].
        rewrite Ha. cbn [bind].
        destruct (IH Hw' i1 e (vi + v) (bi + Z.abs v) ve be Hi1 He) as (i' & e' & Hl' & Hi' & He');
          [lia|].
        exists i', e'. split; [exact Hl'|].
        cbn [total_units total_size fold_right]. rewrite Hu.
        rewrite !Z.add_assoc. auto.
      * destruct (add_running E e (Transaction.amount t) ve be v HE He Hv)
          as (e1 & Ha & He1); [lia|].
        rewrite Ha. cbn [bind].
        destruct (IH Hw' i e1 vi bi (ve + v) (be + Z.abs v) Hi He1) as (i' & e' & Hl' & Hi' & He');
          [lia|].
        exists i', e'. split; [exact Hl'|].
        cbn [total_units total_size fold_right]. rewrite Hu.
        rewrite !Z.add_assoc. auto.
    + rewrite totals_loop_skip by assumption. now apply IH.
Qed.

Lemma total_size_split (E : Z) (p : Transaction.t -> bool) (l : list Transaction.t) :
  total_size E (filter p l) + total_size E (filter (fun t => negb (p t)) l)
  = total_size E l.
Proof.
  induction l as [|t l IH]; [reflexivity|].
  cbn [filter]. destruct (p t); cbn [negb total_size fold_right];
    fold (total_size E l); fold (total_size E (filter p l));
    fold (total_size E (filter (fun t => negb (p t)) l)); lia.
Qed.

End ReportTheorems.

(** * Facts about [add_expense] *)

Section ExpenseFacts.
Context {rt : Runtime}.
Import ExpenseService.

(** The three checks in the order [add_expense] runs them. *)
Definition validate (today : Date.date) (amount_str category date_str : string)
  : result (Dec.Decimal * string * Date.date) :=
  (amount <- _validate_amount amount_str ;;
   category_clean <- _validate_category category ;;
   occurred_on <- _validate_date today date_str ;;
   Ok (amount, category_clean, occurred_on))%result.

(** The transaction [add_expense] builds once the checks have passed. *)
Definition new_transaction (env : Env) (user_id note : string)
    (transaction_id : option string) (amount : Dec.Decimal) (category_clean : string)
    (occurred_on : Date.date) : Transaction.t :=
  {| Transaction.transaction_id :=
       VStr match transaction_id with
            | Some s => if Str.is_empty s then _new_tx_id env else s
            | None => _new_tx_id env
            end;
     Transaction.user_id := VStr user_id;
     Transaction.amount := amount;
     Transaction.category := VStr category_clean;
     Transaction.occurred_on := occurred_on;
     Transaction.note := VStr (Str.strip note);
     Transaction.tx_type := VStr "EXPENSE" |}.

Lemma monthly_totals_keeps_store (u : string) (y m : Z) (st : store) :
  snd (ReportService.monthly_totals u y m st) = st.
Proof.
  unfold ReportService.monthly_totals, bindIO, lift.
  pose proof (load_all_keeps_store st) as H.
  destruct (TransactionRepository.load_all st) as [[txs|e] st']; simpl in *; now subst.
Qed.

(** Validate, then commit: a check that raises ends the call with the
    file untouched. *)
Lemma add_expense_rejected (env : Env) (u a c ds n : string) (tid : option string)
    (st : store) (e : exn) :
  validate (today env) a c ds = Raise e ->
  add_expense env u a c ds n tid st = (Raise e, st).
Proof.
  unfold validate, add_expense, bindIO, lift, bind.
  destruct (_validate_amount a); [|now intros [= ->]].
  destruct (_validate_category c); [|now intros [= ->]].
  destruct (_validate_date (today env) ds); [discriminate | now intros [= ->]].
Qed.

Lemma add_expense_unreadable (env : Env) (u a c ds n : string) (tid : option string)
    (st : store) (amt : Dec.Decimal) (cat : string) (d : Date.date) (e : exn) :
  validate (today env) a c ds = Ok (amt, cat, d) ->
  TransactionRepository.load_all st = (Raise e, st) ->
  add_expense env u a c ds n tid st = (Raise e, st).
Proof.
  unfold validate, add_expense, bindIO, lift, bind.
  destruct (_validate_amount a); [|discriminate].
  destruct (_validate_category c); [|discriminate].
  destruct (_validate_date (today env) ds); [|discriminate].
  intros [= -> -> ->] Hl.
  unfold TransactionRepository.append, bindIO. now rewrite Hl.
Qed.

(** Once the checks pass and the file loads, the new transaction is written
    after the ones already there, whatever the report does afterwards. *)
Lemma add_expense_commits (env : Env) (u a c ds n : string) (tid : option string)
    (st : store) (amt : Dec.Decimal) (cat : string) (d : Date.date)
    (txs : list Transaction.t) :
  validate (today env) a c ds = Ok (amt, cat, d) ->
  TransactionRepository.load_all st = (Ok txs, st) ->
  snd (add_expense env u a c ds n tid st)
  = saved (txs ++ [new_transaction env u n tid amt cat d]).
Proof.
  unfold validate, add_expense, bindIO, lift, bind.
  destruct (_validate_amount a); [|discriminate].
  destruct (_validate_category c); [|discriminate].
  destruct (_validate_date (today env) ds); [|discriminate].
  intros [= -> -> ->] Hl.
  unfold TransactionRepository.append, bindIO. rewrite Hl.
  rewrite save_all_saved.
  fold (new_transaction env u n tid amt cat d).
  pose proof (monthly_totals_keeps_store u (Date.year d) (Date.month d)
                (saved (txs ++ [new_transaction env u n tid amt cat d]))) as Hk.
  destruct (ReportService.monthly_totals _ _ _ _) as [[tot|e] st']; simpl in *; now subst.
Qed.

Lemma validate_date_valid (today : Date.date) (ds : string) (d : Date.date) :
  _validate_date today ds = Ok d -> Date.valid d = true.
Proof.
  unfold _validate_date.
  destruct (date_fromisoformat _) as [d'|] eqn:E; [|discriminate].
  destruct (Date.gt d' today); [discriminate|].
  intros [= <-]. eauto using fromisoformat_valid.
Qed.

Lemma validate_valid (today : Date.date) (a c ds : string)
    (amt : Dec.Decimal) (cat : string) (d : Date.date) :
  validate today a c ds = Ok (amt, cat, d) -> Date.valid d = true.
Proof.
  unfold validate, bind.
  destruct (_validate_amount a); [|discriminate].
  destruct (_validate_category c); [|discriminate].
  destruct (_validate_date today ds) eqn:E; [|discriminate].
  intros [= _ _ <-]. eauto using validate_date_valid.
Qed.

End ExpenseFacts.

(** * The amount, category and date rules of [add_expense] *)

(** A fixed surrounding for examples: the day and time of a call. *)
Definition example_env : ExpenseService.Env :=
  {| ExpenseService.today := Date.mk 2026 11 4;
     ExpenseService.now := Date.mk_time 9 5 7 |}.

Section ValidationTheorems.
Context {rt : Runtime}.
Import ExpenseService.

Lemma validate_amount_unparsable (a : string) :
  Dec.of_string (Str.strip a) = None ->
  _validate_amount a = Raise (ValueError "Amount must be a valid number (e.g., 12.50).").
Proof. unfold _validate_amount. now intros ->. Qed.

Lemma validate_amount_nonpositive (a : string) (d : Dec.Decimal) :
  Dec.of_string (Str.strip a) = Some d ->
  Dec.le_zero d = Ok true ->
  _validate_amount a = Raise (ValueError "Amount must be greater than 0.").
Proof. unfold _validate_amount. now intros -> ->. Qed.

(** A positive finite amount whose integer part has at most 26 digits is
    stored at two fractional digits, rounded half to even. *)
Lemma validate_amount_quantized (a : string) (c : N) (e : Z) :
  Dec.of_string (Str.strip a) = Some (Dec.Finite false c e) ->
  c <> 0%N ->
  e + Dec.ndigits c - 1 <= 25 ->
  Dec.ndigits (Dec.rescale c e (-2)) <= 28 ->
  _validate_amount a = Ok (Dec.Finite false (Dec.rescale c e (-2)) (-2)).
Proof.
  intros Hp Hc Ha Hn. unfold _validate_amount. rewrite Hp.
  apply N.eqb_neq in Hc. cbn [Dec.le_zero bind orb]. rewrite Hc.
  unfold Dec.quantize, Dec.cent. cbn [Dec.check_nans].
  change (negb ((Dec.Etiny <=? -2) && (-2 <=? Dec.Emax))) with false. cbv iota.
  rewrite Hc.
  assert (H1 : (Dec.Emax <? e + Dec.ndigits c - 1) = false)
    by (apply Z.ltb_ge; unfold Dec.Emax; lia).
  assert (H2 : (Dec.prec <? e + Dec.ndigits c - 1 - -2 + 1) = false)
    by (apply Z.ltb_ge; unfold Dec.prec; lia).
  assert (H3 : (Dec.Emax <? -2 + Dec.ndigits (Dec.rescale c e (-2)) - 1) = false)
    by (apply Z.ltb_ge; unfold Dec.Emax; lia).
  assert (H4 : (Dec.prec <? Dec.ndigits (Dec.rescale c e (-2))) = false)
    by (apply Z.ltb_ge; unfold Dec.prec; lia).
  rewrite H1, H2, H3, H4.
  unfold Dec._fix.
  destruct (Dec.rescale c e (-2) =? 0)%N eqn:E0.
  - apply N.eqb_eq in E0. now rewrite E0.
  - assert (H5 : (Dec.Etop <? Dec.ndigits (Dec.rescale c e (-2)) + -2 - Dec.prec) = false)
      by (apply Z.ltb_ge; unfold Dec.Etop, Dec.Emax, Dec.prec; lia).
    rewrite H5.
    assert (H6 : (-2 <? Z.max (Dec.ndigits (Dec.rescale c e (-2)) + -2 - Dec.prec) Dec.Etiny)
                 = false)
      by (apply Z.ltb_ge; unfold Dec.Etiny, Dec.Emin, Dec.prec; lia).
    now rewrite H6.
Qed.

Lemma validate_category_blank (c : string) :
  Str.is_empty (Str.strip c) = true ->
  _validate_category c = Raise (ValueError "Category is required.").
Proof. unfold _validate_category. intros ->. now rewrite orb_true_r. Qed.

Lemma validate_category_long (c : string) :
  (30 < String.length (Str.strip c))%nat ->
  _validate_category c = Raise (ValueError "Category must be 30 characters or less.").
Proof.
  intros H. unfold _validate_category.
  assert (Hs : Str.is_empty (Str.strip c) = false)
    by (destruct (Str.strip c); [simpl in H; lia | reflexivity]).
  assert (Hc : Str.is_empty c = false) by (destruct c; [discriminate | reflexivity]).
  rewrite Hs, Hc. cbn [orb].
  apply Nat.ltb_lt in H. now rewrite H.
Qed.

Lemma validate_category_ok (c : string) :
  Str.is_empty (Str.strip c) = false ->
  (String.length (Str.strip c) <= 30)%nat ->
  _validate_category c = Ok (Str.strip c).
Proof.
  intros Hs H. unfold _validate_category.
  assert (Hc : Str.is_empty c = false) by (destruct c; [discriminate | reflexivity]).
  rewrite Hs, Hc. cbn [orb].
  apply Nat.ltb_ge in H. now rewrite H.
Qed.

(** [quantize] to cents raises nothing but [InvalidOperation]. *)
Lemma quantize_cent_raises (d : Dec.Decimal) (e : exn) :
  Dec.quantize d Dec.cent = Raise e -> e = InvalidOperation.
Proof.
  destruct d as [s c e0|s|s g p].
  - unfold Dec.quantize, Dec.cent. cbn [Dec.check_nans].
    change (negb ((Dec.Etiny <=? -2) && (-2 <=? Dec.Emax))) with false. cbv iota.
    destruct (c =? 0)%N; [discriminate|].
    destruct (Dec.Emax <? _); [now intros [= <-]|].
    destruct (Dec.prec <? _); [now intros [= <-]|].
    destruct (Dec.Emax <? _); [now intros [= <-]|].
    destruct (Dec.prec <? Dec.ndigits (Dec.rescale c e0 (-2))) eqn:E4;
      [now intros [= <-]|].
    apply Z.ltb_ge in E4. unfold Dec._fix.
    destruct (Dec.rescale c e0 (-2) =? 0)%N; [discriminate|].
    assert (H5 : (Dec.Etop <? Dec.ndigits (Dec.rescale c e0 (-2)) + -2 - Dec.prec) = false)
      by (apply Z.ltb_ge; unfold Dec.Etop, Dec.Emax, Dec.prec in *; lia).
    assert (H6 : (-2 <? Z.max (Dec.ndigits (Dec.rescale c e0 (-2)) + -2 - Dec.prec) Dec.Etiny)
                 = false)
      by (apply Z.ltb_ge; unfold Dec.Etiny, Dec.Emin, Dec.prec in *; lia).
    rewrite H5, H6. discriminate.
  - cbn. now intros [= <-].
  - destruct g; cbn; [now intros [= <-] | discriminate].
Qed.

(** The exceptions the amount check can end with: its two messages, and the
    [InvalidOperation] of the comparison or of [quantize]. *)
Lemma validate_amount_raises (a : string) (e : exn) :
  _validate_amount a = Raise e ->
  e = ValueError "Amount must be a valid number (e.g., 12.50)."
  \/ e = ValueError "Amount must be greater than 0."
  \/ e = InvalidOperation.
Proof.
  unfold _validate_amount.
  destruct (Dec.of_string (Str.strip a)) as [d|]; [|intros [= <-]; auto].
  destruct d as [s c e0|s|s g p]; cbn [Dec.le_zero bind].
  - destruct (s || (c =? 0)%N); [intros [= <-]; auto|].
    intros H. right; right. eapply quantize_cent_raises; eauto.
  - destruct s; [intros [= <-]; auto|].
    intros H. right; right. eapply quantize_cent_raises; eauto.
  - intros [= <-]; auto.
Qed.

(** Whatever the checks raise is a [ValueError] or that [InvalidOperation]. *)
Lemma validate_raises_only (today : Date.date) (a c ds : string) (e : exn) :
  validate today a c ds = Raise e -> is_ValueError e = true \/ e = InvalidOperation.
Proof.
  unfold validate, bind.
  destruct (_validate_amount a) as [amt|e1] eqn:Ea.
  2:{ intros [= <-].
      destruct (validate_amount_raises a e1 Ea) as [-> | [-> | ->]]; auto. }
  unfold _validate_category, _validate_date.
  repeat match goal with
  | |- context [if ?b then _ else _] => destruct b
  | |- context [match date_fromisoformat ?x with _ => _ end] =>
      destruct (date_fromisoformat x)
  end; intros H; try discriminate H; injection H as <-; auto.
Qed.

(** Some check raises as soon as one of them does. *)
Lemma validate_raises_amount (today : Date.date) (a c ds : string) (e : exn) :
  _validate_amount a = Raise e -> validate today a c ds = Raise e.
Proof. unfold validate. now intros ->. Qed.

Lemma validate_raises_category (today : Date.date) (a c ds : string) (e : exn) :
  _validate_category c = Raise e -> exists e', validate today a c ds = Raise e'.
Proof.
  unfold validate, bind. intros ->. destruct (_validate_amount a); eauto.
Qed.

Lemma validate_raises_date (today : Date.date) (a c ds : string) (e : exn) :
  _validate_date today ds = Raise e -> exists e', validate today a c ds = Raise e'.
Proof.
  unfold validate, bind. intros ->.
  destruct (_validate_amount a); eauto. destruct (_validate_category c); eauto.
Qed.

(** C1 (code defect).  The claim: every input that breaks a validation rule
    makes [add_expense] raise the validation error, with the store left as it
    was.  At the amount [NaN] with a blank category the call raises
    [decimal.InvalidOperation] instead, which [except ValueError] does not
    catch; the store is still untouched. *)
Theorem C1_nan_amount_raises_InvalidOperation :
  forall (env : Env) (st : store) (ds n : string) (tid : option string),
    add_expense env "jason" "NaN" "   " ds n tid st = (Raise InvalidOperation, st)
    /\ _validate_category "   " = Raise (ValueError "Category is required.")
    /\ is_ValueError InvalidOperation = false.
Proof.
  intros. split; [|split; reflexivity].
  apply add_expense_rejected. reflexivity.
Qed.

(** C2 (code defect).  The claim: an amount that parses and is positive is
    stored, quantized to two places.  The strings [NaN], [Infinity] and [1e26]
    parse, are not rejected as non-positive, and make [add_expense] raise
    [decimal.InvalidOperation] from the comparison or from [quantize]; nothing
    is stored. *)
Theorem C2_amounts_raising_InvalidOperation :
  forall (env : Env) (st : store) (u c ds n : string) (tid : option string),
    Dec.of_string (Str.strip "NaN") = Some (Dec.NaN false false 0)
    /\ add_expense env u "NaN" c ds n tid st = (Raise InvalidOperation, st)
    /\ Dec.of_string (Str.strip "Infinity") = Some (Dec.Infinite false)
    /\ Dec.le_zero (Dec.Infinite false) = Ok false
    /\ add_expense env u "Infinity" c ds n tid st = (Raise InvalidOperation, st)
    /\ Dec.of_string (Str.strip "1e26") = Some (Dec.Finite false 1 26)
    /\ Dec.le_zero (Dec.Finite false 1 26) = Ok false
    /\ add_expense env u "1e26" c ds n tid st = (Raise InvalidOperation, st).
Proof.
  intros. repeat split; try reflexivity;
    apply add_expense_rejected; reflexivity.
Qed.

(** C6.  A category that is empty after trimming is refused with "Category
    is required.", one longer than 30 characters after trimming with
    "Category must be 30 characters or less." (each once the amount has passed
    its check, which runs first; the call fails and leaves the store alone in
    any case); otherwise the trimmed category is the one on the stored
    transaction. *)
Theorem C6_category_rule :
  forall (env : Env) (st : store) (u a c ds n : string) (tid : option string),
    (Str.is_empty (Str.strip c) = true ->
       (exists e, add_expense env u a c ds n tid st = (Raise e, st))
       /\ (forall amt, _validate_amount a = Ok amt ->
             add_expense env u a c ds n tid st
             = (Raise (ValueError "Category is required."), st)))
    /\ ((30 < String.length (Str.strip c))%nat ->
       (exists e, add_expense env u a c ds n tid st = (Raise e, st))
       /\ (forall amt, _validate_amount a = Ok amt ->
             add_expense env u a c ds n tid st
             = (Raise (ValueError "Category must be 30 characters or less."), st)))
    /\ (Str.is_empty (Str.strip c) = false ->
        (String.length (Str.strip c) <= 30)%nat ->
        _validate_category c = Ok (Str.strip c)
        /\ (forall amt d txs,
              _validate_amount a = Ok amt ->
              _validate_date (today env) ds = Ok d ->
              TransactionRepository.load_all st = (Ok txs, st) ->
              let tx := new_transaction env u n tid amt (Str.strip c) d in
              Transaction.category tx = VStr (Str.strip c)
              /\ snd (add_expense env u a c ds n tid st) = saved (txs ++ [tx])
              /\ TransactionRepository.load_all (saved (txs ++ [tx]))
                 = (Ok (txs ++ [tx])%list, saved (txs ++ [tx])))).
Proof.
  intros env st u a c ds n tid. split; [|split].
  - intros Hb. pose proof (validate_category_blank c Hb) as Hc. split.
    + destruct (validate_raises_category (today env) a c ds _ Hc) as [e He].
      exists e. now apply add_expense_rejected.
    + intros amt Ha. apply add_expense_rejected. unfold validate. now rewrite Ha, Hc.
  - intros Hl. pose proof (validate_category_long c Hl) as Hc. split.
    + destruct (validate_raises_category (today env) a c ds _ Hc) as [e He].
      exists e. now apply add_expense_rejected.
    + intros amt Ha. apply add_expense_rejected. unfold validate. now rewrite Ha, Hc.
  - intros Hne Hlen. pose proof (validate_category_ok c Hne Hlen) as Hc.
    split; [exact Hc|]. intros amt d txs Ha Hd Hl tx.
    assert (Hv : validate (today env) a c ds = Ok (amt, Str.strip c, d))
      by (unfold validate; now rewrite Ha, Hc, Hd).
    split; [reflexivity|]. split.
    + now apply add_expense_commits.
    + apply load_all_saved. apply Forall_app. split.
      * eapply load_all_valid; eauto.
      * constructor; [|constructor]. eapply validate_valid; eauto.
Qed.

(** The date rule, for whatever [date.fromisoformat] accepts: a string it
    refuses after trimming is refused with "Date must be in ISO format
    YYYY-MM-DD.", one it reads as a day after today with "Date cannot be in
    the future for an expense entry." (each once the amount and the category
    have passed their checks, which run first; the call fails and leaves the
    store alone in any case); a date equal to today or before it is accepted
    and is the one on the stored transaction. *)
Lemma date_rule :
  forall (env : Env) (st : store) (u a c ds n : string) (tid : option string),
    (date_fromisoformat (Str.strip ds) = None ->
       (exists e, add_expense env u a c ds n tid st = (Raise e, st))
       /\ (forall amt cat, _validate_amount a = Ok amt -> _validate_category c = Ok cat ->
             add_expense env u a c ds n tid st
             = (Raise (ValueError "Date must be in ISO format YYYY-MM-DD."), st)))
    /\ (forall d, date_fromisoformat (Str.strip ds) = Some d ->
        Date.gt d (today env) = true ->
       (exists e, add_expense env u a c ds n tid st = (Raise e, st))
       /\ (forall amt cat, _validate_amount a = Ok amt -> _validate_category c = Ok cat ->
             add_expense env u a c ds n tid st
             = (Raise (ValueError "Date cannot be in the future for an expense entry."), st)))
    /\ (forall d, date_fromisoformat (Str.strip ds) = Some d ->
        Date.gt d (today env) = false ->
        _validate_date (today env) ds = Ok d
        /\ (forall amt cat txs,
              _validate_amount a = Ok amt ->
              _validate_category c = Ok cat ->
              TransactionRepository.load_all st = (Ok txs, st) ->
              let tx := new_transaction env u n tid amt cat d in
              Transaction.occurred_on tx = d
              /\ snd (add_expense env u a c ds n tid st) = saved (txs ++ [tx]))).
Proof.
  intros env st u a c ds n tid. split; [|split].
  - intros Hp.
    assert (Hd : _validate_date (today env) ds
                 = Raise (ValueError "Date must be in ISO format YYYY-MM-DD."))
      by (unfold _validate_date; now rewrite Hp).
    split.
    + destruct (validate_raises_date (today env) a c ds _ Hd) as [e He].
      exists e. now apply add_expense_rejected.
    + intros amt cat Ha Hc. apply add_expense_rejected.
      unfold validate. now rewrite Ha, Hc, Hd.
  - intros d Hp Hg.
    assert (Hd : _validate_date (today env) ds
                 = Raise (ValueError "Date cannot be in the future for an expense entry."))
      by (unfold _validate_date; now rewrite Hp, Hg).
    split.
    + destruct (validate_raises_date (today env) a c ds _ Hd) as [e He].
      exists e. now apply add_expense_rejected.
    + intros amt cat Ha Hc. apply add_expense_rejected.
      unfold validate. now rewrite Ha, Hc, Hd.
  - intros d Hp Hg.
    assert (Hd : _validate_date (today env) ds = Ok d)
      by (unfold _validate_date; now rewrite Hp, Hg).
    split; [exact Hd|]. intros amt cat txs Ha Hc Hl tx.
    split; [reflexivity|].
    apply add_expense_commits; auto.
    unfold validate. now rewrite Ha, Hc, Hd.
Qed.

End ValidationTheorems.

(** C5 (amended).  The trimmed date string goes to [date.fromisoformat].
    Whatever that function accepts, a string it refuses is refused with
    "Date must be in ISO format YYYY-MM-DD.", one it reads as a day after
    today with "Date cannot be in the future for an expense entry." (each
    once the amount and the category have passed their checks, which run
    first; the call fails and leaves the store alone in any case), and a date
    equal to today or before it is accepted and is the one on the stored
    transaction.  What the function accepts depends on the version of
    Python: in CPython 3.7 to 3.10 exactly the strings [YYYY-MM-DD] that
    name a real date; in CPython 3.11 all of those, read as the same date,
    and other strings besides, every one of which starts with the four
    digits of a year. *)
Theorem C5_date_rule :
  (forall (rt : Runtime) (env : ExpenseService.Env) (st : store) (u a c ds n : string)
          (tid : option string),
      (date_fromisoformat (Str.strip ds) = None ->
         (exists e, ExpenseService.add_expense env u a c ds n tid st = (Raise e, st))
         /\ (forall amt cat,
               ExpenseService._validate_amount a = Ok amt ->
               ExpenseService._validate_category c = Ok cat ->
               ExpenseService.add_expense env u a c ds n tid st
               = (Raise (ValueError "Date must be in ISO format YYYY-MM-DD."), st)))
      /\ (forall d, date_fromisoformat (Str.strip ds) = Some d ->
          Date.gt d (ExpenseService.today env) = true ->
         (exists e, ExpenseService.add_expense env u a c ds n tid st = (Raise e, st))
         /\ (forall amt cat,
               ExpenseService._validate_amount a = Ok amt ->
               ExpenseService._validate_category c = Ok cat ->
               ExpenseService.add_expense env u a c ds n tid st
               = (Raise (ValueError "Date cannot be in the future for an expense entry."),
                  st)))
      /\ (forall d, date_fromisoformat (Str.strip ds) = Some d ->
          Date.gt d (ExpenseService.today env) = false ->
          ExpenseService._validate_date (ExpenseService.today env) ds = Ok d
          /\ (forall amt cat txs,
                ExpenseService._validate_amount a = Ok amt ->
                ExpenseService._validate_category c = Ok cat ->
                TransactionRepository.load_all st = (Ok txs, st) ->
                let tx := new_transaction env u n tid amt cat d in
                Transaction.occurred_on tx = d
                /\ snd (ExpenseService.add_expense env u a c ds n tid st)
                   = saved (txs ++ [tx]))))
  /\ (forall (s : string) (d : Date.date),
        @date_fromisoformat strict_runtime s = Some d
        <-> Date.valid d = true /\ s = Date.isoformat d)
  /\ (forall (s : string) (d : Date.date),
        @date_fromisoformat strict_runtime s = Some d ->
        @date_fromisoformat cpython311_runtime s = Some d)
  /\ (forall (s : string) (d : Date.date),
        @date_fromisoformat cpython311_runtime s = Some d ->
        exists y1 y2 y3 y4 r,
          s = String y1 (String y2 (String y3 (String y4 r)))
          /\ Str.is_digit y1 = true /\ Str.is_digit y2 = true
          /\ Str.is_digit y3 = true /\ Str.is_digit y4 = true).
Proof.
  split; [|split; [|split]].
  - intros rt env st u a c ds n tid. apply (@date_rule rt).
  - exact IsoFacts.parse_ymd_iff.
  - exact IsoFacts.fromisoformat_parse_ymd.
  - exact IsoFacts.fromisoformat_year_first.
Qed.

(** * Serialization, loading and appending *)

Section RepositoryTheorems.
Context {rt : Runtime}.
Import TransactionRepository.

(** C4.  Saving what was loaded from a file that [save_all] wrote leaves the
    file as it is, and deserializing a serialized transaction gives back the
    transaction, equal in every field. *)
Theorem C4_save_load_round_trip :
  forall (txs : list Transaction.t) (st0 : store),
    Forall valid_tx txs ->
    let st1 := snd (save_all txs st0) in
    (exists loaded, load_all st1 = (Ok loaded, st1)
                    /\ save_all loaded st1 = (Ok tt, st1))
    /\ Forall (fun t => Transaction.from_json (Transaction.to_json t) = Ok t) txs.
Proof.
  intros txs st0 Hv st1. split.
  - exists txs. subst st1. rewrite save_all_saved. cbn [snd].
    split; [now apply load_all_saved | apply save_all_saved].
  - eapply Forall_impl; [|exact Hv]. intros t. apply from_json_to_json.
Qed.

(** C8.  With no file there is nothing to load; and appending [t] to a store
    that loads as [S] is load, push, save, after which the store loads as [S]
    followed by [t]. *)
Theorem C8_append_keeps_order :
  forall (st : store) (S : list Transaction.t) (t : Transaction.t),
    load_all st = (Ok S, st) ->
    valid_tx t ->
    load_all None = (Ok [], None)
    /\ append t st = bindIO load_all (fun txs => save_all (txs ++ [t])) st
    /\ fst (append t st) = Ok tt
    /\ load_all (snd (append t st)) = (Ok (S ++ [t])%list, snd (append t st)).
Proof.
  intros st S t Hl Hv. rewrite (append_loaded st S t Hl). cbn [fst snd].
  repeat split.
  - unfold bindIO. now rewrite Hl.
  - apply load_all_saved. apply Forall_app. split.
    + eapply load_all_valid; eauto.
    + constructor; [assumption | constructor].
Qed.

(** C9.  A record that has its identifier, user, amount, category and date
    deserializes whether or not it has a note or a type: a missing note
    becomes the empty string, a missing type becomes "EXPENSE", and a type
    that is present is taken as it is, whatever string it holds. *)
Theorem C9_missing_note_and_type_default :
  forall (kv : list (string * value)) (tid uid a cat o : value)
         (amt : Dec.Decimal) (occ : Date.date),
    dict_lookup kv "transaction_id" = Some tid ->
    dict_lookup kv "user_id" = Some uid ->
    dict_lookup kv "amount" = Some a ->
    Transaction.Decimal_of a = Ok amt ->
    dict_lookup kv "category" = Some cat ->
    dict_lookup kv "occurred_on" = Some o ->
    Transaction.fromisoformat o = Ok occ ->
    exists t,
      Transaction.from_json (VDict kv) = Ok t
      /\ Transaction.transaction_id t = tid /\ Transaction.user_id t = uid
      /\ Transaction.amount t = amt /\ Transaction.category t = cat
      /\ Transaction.occurred_on t = occ
      /\ (dict_lookup kv "note" = None -> Transaction.note t = VStr "")
      /\ (dict_lookup kv "tx_type" = None -> Transaction.tx_type t = VStr "EXPENSE")
      /\ (forall s, dict_lookup kv "tx_type" = Some (VStr s) ->
                    Transaction.tx_type t = VStr s).
Proof.
  intros kv tid uid a cat o amt occ Ht Hu Ha Hd Hc Ho Hf.
  eexists. split.
  - unfold Transaction.from_json, getitem.
    rewrite Ht, Hu, Ha. cbn [bind]. rewrite Hd, Hc, Ho. cbn [bind]. rewrite Hf.
    reflexivity.
  - cbn. unfold get_default. repeat split; try reflexivity.
    + now intros ->.
    + now intros ->.
    + now intros s ->.
Qed.

(** What a record whose amount or date text cannot be read does to
    [from_json]. *)
Definition unreadable_record (kv : list (string * value)) : Prop :=
  (exists s, dict_lookup kv "amount" = Some (VStr s) /\ Dec.of_string s = None)
  \/ (exists s, dict_lookup kv "occurred_on" = Some (VStr s)
                /\ date_fromisoformat s = None).

Lemma from_json_unreadable (kv : list (string * value)) :
  unreadable_record kv -> exists e, Transaction.from_json (VDict kv) = Raise e.
Proof.
  intros H. unfold Transaction.from_json, getitem, bind.
  destruct (dict_lookup kv "transaction_id"); [|eauto].
  destruct (dict_lookup kv "user_id"); [|eauto].
  destruct (dict_lookup kv "amount") as [a|] eqn:Ea.
  2:{ eauto. }
  destruct (Transaction.Decimal_of a) as [amt|] eqn:Ed; [|eauto].
  destruct (dict_lookup kv "category"); [|eauto].
  destruct (dict_lookup kv "occurred_on") as [o|] eqn:Eo; [|eauto].
  destruct (Transaction.fromisoformat o) as [occ|] eqn:Ef; [|eauto].
  exfalso. destruct H as [(s & Hs & Hp)|(s & Hs & Hp)].
  - rewrite Ea in Hs. injection Hs as ->.
    unfold Transaction.Decimal_of in Ed. now rewrite Hp in Ed.
  - rewrite Eo in Hs. injection Hs as ->.
    unfold Transaction.fromisoformat in Ef. now rewrite Hp in Ef.
Qed.

(** C7 (amended).  When the document lists a record whose amount is a string
    that [Decimal] cannot read, or whose date is a string that
    [date.fromisoformat] cannot read, [load_all] raises and changes nothing:
    no record is skipped or given a default.  What is raised is the
    exception of the conversion itself: [decimal.InvalidOperation] for the
    amount, the [ValueError] of [fromisoformat] for the date. *)
Theorem C7_unreadable_record_fails_load :
  forall (doc : list (string * value)) (items : list value)
         (kv : list (string * value)),
    dict_lookup doc "transactions" = Some (VList items) ->
    In (VDict kv) items ->
    unreadable_record kv ->
    (exists e, load_all (Some (Document (VDict doc)))
               = (Raise e, Some (Document (VDict doc))))
    /\ (forall tid uid s,
          dict_lookup kv "transaction_id" = Some tid ->
          dict_lookup kv "user_id" = Some uid ->
          dict_lookup kv "amount" = Some (VStr s) ->
          Dec.of_string s = None ->
          Transaction.from_json (VDict kv) = Raise InvalidOperation)
    /\ (forall tid uid a amt cat s,
          dict_lookup kv "transaction_id" = Some tid ->
          dict_lookup kv "user_id" = Some uid ->
          dict_lookup kv "amount" = Some a ->
          Transaction.Decimal_of a = Ok amt ->
          dict_lookup kv "category" = Some cat ->
          dict_lookup kv "occurred_on" = Some (VStr s) ->
          date_fromisoformat s = None ->
          Transaction.from_json (VDict kv) = Raise IsoFormatError).
Proof.
  intros doc items kv Hdoc Hin Hbad. split; [|split].
  - destruct (from_json_unreadable kv Hbad) as [e He].
    destruct (mapM_Raise_In Transaction.from_json items (VDict kv) e Hin He) as [e' He'].
    exists e'. unfold load_all, get_default. rewrite Hdoc. cbn [iterate bind].
    now rewrite He'.
  - intros tid uid s Ht Hu Ha Hp.
    unfold Transaction.from_json, getitem. rewrite Ht, Hu, Ha. cbn [bind].
    unfold Transaction.Decimal_of. now rewrite Hp.
  - intros tid uid a amt cat s Ht Hu Ha Hd Hc Ho Hp.
    unfold Transaction.from_json, getitem. rewrite Ht, Hu, Ha. cbn [bind].
    rewrite Hd, Hc, Ho. cbn [bind].
    unfold Transaction.fromisoformat. now rewrite Hp.
Qed.

End RepositoryTheorems.

(** * The monthly report *)

Section ReportClaims.
Context {rt : Runtime}.
Import ReportService.

(** C3 (amended).  [monthly_totals] reads the whole file, looks only at the
    transactions of the given user, year and month, and changes nothing.
    When each of those has a string for its type and a finite amount that is
    a whole number of units of [10^E] (cents for [E = -2]), and their absolute
    values stay, in all, below [10^28] units, income is the exact sum of those
    whose type is INCOME in any mixture of cases, expense is the exact sum of
    all the others, whatever their type, and net is income less expense; with
    no such transaction all three are [Decimal("0")]. *)
Theorem C3_monthly_totals_exact :
  forall (E : Z) (st : store) (txs : list Transaction.t) (user_id : string)
         (year month : Z),
    TransactionRepository.load_all st = (Ok txs, st) ->
    Dec.Etiny <= E <= 0 ->
    (forall t, In t txs -> kept user_id year month t = true -> whole E t) ->
    total_size E (filter (kept user_id year month) txs) < 10 ^ 28 ->
    let inc := filter (has_type "INCOME") (filter (kept user_id year month) txs) in
    let exp := filter (fun t => negb (has_type "INCOME" t))
                      (filter (kept user_id year month) txs) in
    exists tot,
      monthly_totals user_id year month st = (Ok tot, st)
      /\ ReportFacts.units E (income tot) = Some (total_units E inc)
      /\ ReportFacts.units E (expense tot) = Some (total_units E exp)
      /\ Dec.sub (income tot) (expense tot) = Ok (net tot)
      /\ ReportFacts.units E (net tot) = Some (total_units E inc - total_units E exp)
      /\ (filter (kept user_id year month) txs = [] ->
          tot = {| income := Dec.zero; expense := Dec.zero; net := Dec.zero |}).
Proof.
  intros E st txs u y m Hl HE Hw Hb inc exp.
  destruct (totals_loop_running E u y m txs (proj1 HE) Hw Dec.zero Dec.zero 0 0 0 0
              (ReportFacts.running_zero E (proj2 HE)) (ReportFacts.running_zero E (proj2 HE)))
    as (i & e & Hloop & Hi & He); [lia|].
  fold inc in Hi. fold exp in He. cbn [Z.add] in Hi, He.
  pose proof (total_size_split E (has_type "INCOME") (filter (kept u y m) txs)) as Hs.
  fold inc in Hs. fold exp in Hs.
  destruct (ReportFacts.sub_running E i e _ _ _ _ (proj1 HE) Hi He) as (n & Hn & Hrn); [lia|].
  exists {| income := i; expense := e; net := n |}. cbn [income expense net].
  split; [|split; [|split; [|split; [|split]]]].
  - unfold monthly_totals, bindIO, lift. rewrite Hl, Hloop. cbn [bind]. now rewrite Hn.
  - eapply ReportFacts.running_units; eauto.
  - eapply ReportFacts.running_units; eauto.
  - exact Hn.
  - eapply ReportFacts.running_units; eauto.
  - intros Hnone. rewrite (totals_loop_none txs u y m _ _ Hnone) in Hloop.
    injection Hloop as <- <-. cbv in Hn. injection Hn as <-. reflexivity.
Qed.

(** C10.  A transaction of the given user and month whose type is a string
    that does not read INCOME once upper-cased is counted as an expense: the
    loop adds its amount to the expense total and leaves the income total as
    it is; in particular the totals of a store that ends with such a
    transaction are those of the store before it with the amount added to
    the expense. *)
Theorem C10_other_types_count_as_expense :
  forall (t : Transaction.t) (user_id s : string),
    Transaction.user_id t = VStr user_id ->
    Transaction.tx_type t = VStr s ->
    Str.upper s <> "INCOME" ->
    (forall (rest : list Transaction.t) (income expense : Dec.Decimal),
        totals_loop (t :: rest) user_id
          (Date.year (Transaction.occurred_on t)) (Date.month (Transaction.occurred_on t))
          income expense
        = bind (Dec.add expense (Transaction.amount t))
               (fun expense' =>
                  totals_loop rest user_id
                    (Date.year (Transaction.occurred_on t))
                    (Date.month (Transaction.occurred_on t)) income expense'))
    /\ (forall (st : store) (before : list Transaction.t) (i e e' n : Dec.Decimal),
          TransactionRepository.load_all st = (Ok (before ++ [t])%list, st) ->
          totals_loop before user_id
            (Date.year (Transaction.occurred_on t)) (Date.month (Transaction.occurred_on t))
            Dec.zero Dec.zero = Ok (i, e) ->
          Dec.add e (Transaction.amount t) = Ok e' ->
          Dec.sub i e' = Ok n ->
          monthly_totals user_id
            (Date.year (Transaction.occurred_on t)) (Date.month (Transaction.occurred_on t)) st
          = (Ok {| income := i; expense := e'; net := n |}, st)).
Proof.
  intros t u s Hu Hs Hne.
  assert (Hstep : forall rest income expense,
             totals_loop (t :: rest) u
               (Date.year (Transaction.occurred_on t))
               (Date.month (Transaction.occurred_on t)) income expense
             = bind (Dec.add expense (Transaction.amount t))
                 (fun expense' =>
                    totals_loop rest u
                      (Date.year (Transaction.occurred_on t))
                      (Date.month (Transaction.occurred_on t)) income expense')).
  { intros rest income expense. cbn [totals_loop].
    rewrite Hu, Hs. unfold differs_from_str. rewrite String.eqb_refl. cbn [negb].
    rewrite !Z.eqb_refl. cbn [andb upper_of bind].
    apply String.eqb_neq in Hne. now rewrite Hne. }
  split; [exact Hstep|].
  intros st before i e e' n Hl Hb Ha Hn.
  unfold monthly_totals, bindIO, lift. rewrite Hl.
  rewrite totals_loop_app, Hb. cbn [bind fst snd].
  rewrite Hstep, Ha. cbn [bind totals_loop]. now rewrite Hn.
Qed.

End ReportClaims.

(** * The theorems at concrete inputs *)

Definition example_tx (id user category : string) (amount : Dec.Decimal)
    (d : Date.date) (label : string) : Transaction.t :=
  {| Transaction.transaction_id := VStr id;
     Transaction.user_id := VStr user;
     Transaction.amount := amount;
     Transaction.category := VStr category;
     Transaction.occurred_on := d;
     Transaction.note := VStr "";
     Transaction.tx_type := VStr label |}.

(** 10.00 *)
Definition ten : Dec.Decimal := Dec.Finite false 1000 (-2).

Definition refund : Transaction.t :=
  example_tx "TX-5" "jason" "Shoes" (Dec.Finite false 500 (-2)) (Date.mk 2020 2 28) "REFUND".

Definition february : list Transaction.t :=
  [ example_tx "TX-1" "jason" "Groceries" ten (Date.mk 2020 2 10) "EXPENSE";
    example_tx "TX-2" "jason" "Salary" (Dec.Finite false 2550 0) (Date.mk 2020 2 11) "income";
    example_tx "TX-3" "maria" "Rent" (Dec.Finite false 70000 (-2)) (Date.mk 2020 2 12) "EXPENSE";
    example_tx "TX-4" "jason" "Books" (Dec.Finite false 1999 (-2)) (Date.mk 2020 3 1) "EXPENSE";
    refund ].

(** 99999999999999999999999999.99, the largest amount [add_expense] stores. *)
Definition large : Transaction.t :=
  example_tx "TX-6" "jason" "Yacht" (Dec.Finite false 9999999999999999999999999999 (-2))
             (Date.mk 2020 2 1) "EXPENSE".

(** A document whose only record gives the amount as a number, and one
    whose only record has a date that is no date. *)
Definition number_amount_doc : value :=
  VDict [("transactions",
          VList [VDict [("transaction_id", VStr "TX-1"); ("user_id", VStr "jason");
                        ("amount", VInt 10); ("category", VStr "Groceries");
                        ("occurred_on", VStr "2020-02-10")]])].

Definition bad_date_doc : value :=
  VDict [("transactions",
          VList [VDict [("transaction_id", VStr "TX-1"); ("user_id", VStr "jason");
                        ("amount", VStr "10.00"); ("category", VStr "Groceries");
                        ("occurred_on", VStr "10/02/2020")]])].

Definition bad_amount_items : list (string * value) :=
  [("transaction_id", VStr "TX-1"); ("user_id", VStr "jason");
   ("amount", VStr "ten"); ("category", VStr "Groceries");
   ("occurred_on", VStr "2020-02-10")].

(** The report on a store with a refund, and on one with two very large
    expenses. *)
Lemma C3_counterexample :
  (* a type other than INCOME and EXPENSE is summed into the expense *)
  @ReportService.monthly_totals strict_runtime "jason" 2020 2 (saved [refund])
  = (Ok {| ReportService.income := Dec.zero;
           ReportService.expense := Dec.Finite false 500 (-2);
           ReportService.net := Dec.Finite true 500 (-2) |}, saved [refund])
  /\ total_units (-2) (filter (has_type "EXPENSE") (filter (kept "jason" 2020 2) [refund]))
     = 0
  (* a sum of more than 28 digits is rounded *)
  /\ @ReportService.monthly_totals strict_runtime "jason" 2020 2 (saved [large; large])
     = (Ok {| ReportService.income := Dec.zero;
              ReportService.expense := Dec.Finite false 2000000000000000000000000000 (-1);
              ReportService.net := Dec.Finite true 2000000000000000000000000000 (-1) |},
        saved [large; large])
  /\ ReportFacts.units (-2) (Dec.Finite false 2000000000000000000000000000 (-1))
     = Some 20000000000000000000000000000
  /\ total_units (-2) (filter (has_type "EXPENSE")
                              (filter (kept "jason" 2020 2) [large; large]))
     = 19999999999999999999999999998.
Proof. repeat split; vm_compute; reflexivity. Qed.

(** The report for February: one income of 2550, expenses of 10.00 and
    5.00, counted in cents. *)
Lemma C3_witness :
  exists tot,
    @ReportService.monthly_totals strict_runtime "jason" 2020 2 (saved february)
    = (Ok tot, saved february)
    /\ ReportFacts.units (-2) (ReportService.income tot) = Some 255000
    /\ ReportFacts.units (-2) (ReportService.expense tot) = Some 1500
    /\ ReportFacts.units (-2) (ReportService.net tot) = Some 253500.
Proof.
  destruct (@C3_monthly_totals_exact strict_runtime (-2) (saved february) february
              "jason" 2020 2) as (tot & H & Hi & He & _ & Hn & _).
  - vm_compute. reflexivity.
  - vm_compute. split; discriminate.
  - intros t Hin _. unfold whole.
    repeat (destruct Hin as [<-|Hin]; [split; eexists; reflexivity|]).
    destruct Hin.
  - vm_compute. reflexivity.
  - exists tot. repeat split; assumption.
Defined.

(** Saving, loading and saving the February transactions. *)
Lemma C4_witness :
  let st1 := snd (@TransactionRepository.save_all february None) in
  (exists loaded,
      @TransactionRepository.load_all strict_runtime st1 = (Ok loaded, st1)
      /\ @TransactionRepository.save_all loaded st1 = (Ok tt, st1))
  /\ Forall (fun t => @Transaction.from_json strict_runtime (Transaction.to_json t) = Ok t)
            february.
Proof.
  apply (@C4_save_load_round_trip strict_runtime february None).
  repeat constructor.
Defined.

(** Today's date is accepted; a date in 2999 and a date in another notation
    are refused. *)
Lemma C5_witness :
  @ExpenseService._validate_date strict_runtime (Date.mk 2026 11 4) " 2026-11-04 "
  = Ok (Date.mk 2026 11 4)
  /\ @ExpenseService.add_expense strict_runtime example_env "jason" "5.00" "Food"
       "2999-01-01" "" None None
     = (Raise (ValueError "Date cannot be in the future for an expense entry."), None)
  /\ @ExpenseService.add_expense strict_runtime example_env "jason" "5.00" "Food"
       "10/02/2020" "" None None
     = (Raise (ValueError "Date must be in ISO format YYYY-MM-DD."), None)
  /\ @ExpenseService.add_expense cpython311_runtime example_env "jason" "5.00" "Food"
       "10/02/2020" "" None None
     = (Raise (ValueError "Date must be in ISO format YYYY-MM-DD."), None).
Proof.
  destruct C5_date_rule as (Rule & _).
  split; [|split; [|split]].
  - destruct (Rule strict_runtime example_env None "jason" "5.00" "Food"
                " 2026-11-04 " "" None) as (_ & _ & H).
    destruct (H (Date.mk 2026 11 4)) as [H' _]; [reflexivity | reflexivity | exact H'].
  - destruct (Rule strict_runtime example_env None "jason" "5.00" "Food"
                "2999-01-01" "" None) as (_ & H & _).
    destruct (H (Date.mk 2999 1 1)) as [_ H']; [reflexivity | reflexivity |].
    apply (H' (Dec.Finite false 500 (-2)) "Food"); reflexivity.
  - destruct (Rule strict_runtime example_env None "jason" "5.00" "Food"
                "10/02/2020" "" None) as (H & _ & _).
    destruct H as [_ H']; [reflexivity|].
    apply (H' (Dec.Finite false 500 (-2)) "Food"); reflexivity.
  - destruct (Rule cpython311_runtime example_env None "jason" "5.00" "Food"
                "10/02/2020" "" None) as (H & _ & _).
    destruct H as [_ H']; [reflexivity|].
    apply (H' (Dec.Finite false 500 (-2)) "Food"); reflexivity.
Defined.

(** With the parser of CPython 3.11 a date written without dashes, which is
    not of the form [YYYY-MM-DD], is accepted and stored, and so is a week
    date; the parser of the earlier versions refuses both. *)
Lemma C5_counterexample :
  @ExpenseService.add_expense cpython311_runtime example_env "jason" "5.00" "Food"
    "20200210" "" None None
  = (Ok {| ExpenseService.summary_transaction_id := "TX-090507";
           ExpenseService.summary_month := "2020-02";
           ExpenseService.summary_income := "0";
           ExpenseService.summary_expense := "5.00";
           ExpenseService.summary_net := "-5.00" |},
     saved [ {| Transaction.transaction_id := VStr "TX-090507";
                Transaction.user_id := VStr "jason";
                Transaction.amount := Dec.Finite false 500 (-2);
                Transaction.category := VStr "Food";
                Transaction.occurred_on := Date.mk 2020 2 10;
                Transaction.note := VStr "";
                Transaction.tx_type := VStr "EXPENSE" |} ])
  /\ Date.isoformat (Date.mk 2020 2 10) = "2020-02-10"
  /\ @ExpenseService._validate_date cpython311_runtime (Date.mk 2026 11 4) " 2020-W06-1 "
     = Ok (Date.mk 2020 2 3)
  /\ @ExpenseService._validate_date strict_runtime (Date.mk 2026 11 4) "20200210"
     = Raise (ValueError "Date must be in ISO format YYYY-MM-DD.")
  /\ @ExpenseService._validate_date strict_runtime (Date.mk 2026 11 4) " 2020-W06-1 "
     = Raise (ValueError "Date must be in ISO format YYYY-MM-DD.").
Proof. repeat split; vm_compute; reflexivity. Qed.

(** A blank category and one of 34 characters are refused; surrounding
    blanks are dropped. *)
Lemma C6_witness :
  @ExpenseService.add_expense strict_runtime example_env "jason" "5.00" "   "
    "2020-02-10" "" None None
  = (Raise (ValueError "Category is required."), None)
  /\ @ExpenseService.add_expense strict_runtime example_env "jason" "5.00"
       "An unreasonably long category name" "2020-02-10" "" None None
     = (Raise (ValueError "Category must be 30 characters or less."), None)
  /\ @ExpenseService._validate_category "  Food and drink " = Ok "Food and drink".
Proof.
  split; [|split].
  - destruct (@C6_category_rule strict_runtime example_env None "jason" "5.00" "   "
                "2020-02-10" "" None) as (H & _ & _).
    destruct H as [_ H']; [reflexivity|].
    apply (H' (Dec.Finite false 500 (-2))). reflexivity.
  - destruct (@C6_category_rule strict_runtime example_env None "jason" "5.00"
                "An unreasonably long category name" "2020-02-10" "" None) as (_ & H & _).
    destruct H as [_ H']; [vm_compute; lia|].
    apply (H' (Dec.Finite false 500 (-2))). reflexivity.
  - destruct (@C6_category_rule strict_runtime example_env None "jason" "5.00"
                "  Food and drink " "2020-02-10" "" None) as (_ & _ & H).
    destruct H as [H' _]; [reflexivity | vm_compute; lia | exact H'].
Defined.

(** Loading a record whose amount is the number 10, and one whose date is
    written day first. *)
Lemma C7_counterexample :
  (* an amount that is a number, not a decimal string, loads *)
  @TransactionRepository.load_all strict_runtime (Some (Document number_amount_doc))
  = (Ok [ {| Transaction.transaction_id := VStr "TX-1";
             Transaction.user_id := VStr "jason";
             Transaction.amount := Dec.Finite false 10 0;
             Transaction.category := VStr "Groceries";
             Transaction.occurred_on := Date.mk 2020 2 10;
             Transaction.note := VStr "";
             Transaction.tx_type := VStr "EXPENSE" |} ],
     Some (Document number_amount_doc))
  (* the exception for a bad date is a ValueError, as validation errors are *)
  /\ @TransactionRepository.load_all strict_runtime (Some (Document bad_date_doc))
     = (Raise IsoFormatError, Some (Document bad_date_doc))
  /\ is_ValueError IsoFormatError = true.
Proof. repeat split; vm_compute; reflexivity. Qed.

(** Loading a record whose amount is the word ten. *)
Lemma C7_witness :
  exists e,
    @TransactionRepository.load_all strict_runtime
      (Some (Document (VDict [("transactions", VList [VDict bad_amount_items])])))
    = (Raise e, Some (Document (VDict [("transactions", VList [VDict bad_amount_items])]))).
Proof.
  destruct (@C7_unreadable_record_fails_load strict_runtime
              [("transactions", VList [VDict bad_amount_items])]
              [VDict bad_amount_items] bad_amount_items) as [H _].
  - reflexivity.
  - left. reflexivity.
  - left. exists "ten". split; reflexivity.
  - exact H.
Defined.

(** Appending the refund to the February store. *)
Lemma C8_witness :
  @TransactionRepository.load_all strict_runtime None = (Ok [], None)
  /\ @TransactionRepository.append strict_runtime refund (saved february)
     = bindIO (@TransactionRepository.load_all strict_runtime)
              (fun txs => @TransactionRepository.save_all (txs ++ [refund]))
              (saved february)
  /\ fst (@TransactionRepository.append strict_runtime refund (saved february)) = Ok tt
  /\ @TransactionRepository.load_all strict_runtime
       (snd (@TransactionRepository.append strict_runtime refund (saved february)))
     = (Ok (february ++ [refund])%list,
        snd (@TransactionRepository.append strict_runtime refund (saved february))).
Proof.
  apply (@C8_append_keeps_order strict_runtime (saved february) february refund).
  - vm_compute. reflexivity.
  - reflexivity.
Defined.

(** A record with neither note nor type. *)
Lemma C9_witness :
  exists t,
    @Transaction.from_json strict_runtime
      (VDict [("transaction_id", VStr "TX-1"); ("user_id", VStr "jason");
              ("amount", VStr "10.00"); ("category", VStr "Groceries");
              ("occurred_on", VStr "2020-02-10")]) = Ok t
    /\ Transaction.note t = VStr "" /\ Transaction.tx_type t = VStr "EXPENSE".
Proof.
  destruct (@C9_missing_note_and_type_default strict_runtime
              [("transaction_id", VStr "TX-1"); ("user_id", VStr "jason");
               ("amount", VStr "10.00"); ("category", VStr "Groceries");
               ("occurred_on", VStr "2020-02-10")]
              (VStr "TX-1") (VStr "jason") (VStr "10.00") (VStr "Groceries")
              (VStr "2020-02-10") (Dec.Finite false 1000 (-2)) (Date.mk 2020 2 10))
    as (t & Ht & _ & _ & _ & _ & _ & Hn & Hy & _); try reflexivity.
  exists t. split; [exact Ht|]. split; [apply Hn | apply Hy]; reflexivity.
Defined.

(** A misspelt type is counted as an expense. *)
Lemma C10_witness :
  @ReportService.monthly_totals strict_runtime "jason" 2020 2
    (saved [example_tx "TX-1" "jason" "Groceries" ten (Date.mk 2020 2 10) "EXPENSE";
            example_tx "TX-7" "jason" "Misc" (Dec.Finite false 250 (-2)) (Date.mk 2020 2 20)
                       "Incom"])
  = (Ok {| ReportService.income := Dec.zero;
           ReportService.expense := Dec.Finite false 1250 (-2);
           ReportService.net := Dec.Finite true 1250 (-2) |},
     saved [example_tx "TX-1" "jason" "Groceries" ten (Date.mk 2020 2 10) "EXPENSE";
            example_tx "TX-7" "jason" "Misc" (Dec.Finite false 250 (-2)) (Date.mk 2020 2 20)
                       "Incom"]).
Proof.
  destruct (@C10_other_types_count_as_expense strict_runtime
              (example_tx "TX-7" "jason" "Misc" (Dec.Finite false 250 (-2))
                          (Date.mk 2020 2 20) "Incom")
              "jason" "Incom") as [_ H].
  - reflexivity.
  - reflexivity.
  - vm_compute. discriminate.
  - apply (H _ [example_tx "TX-1" "jason" "Groceries" ten (Date.mk 2020 2 10) "EXPENSE"]
             Dec.zero ten).
    + vm_compute. reflexivity.
    + reflexivity.
    + reflexivity.
    + reflexivity.
Defined.

(** ** The scenarios of the specification *)

Example scenario_first_expense :
  @ExpenseService.add_expense strict_runtime example_env "jason" "10.00" "Groceries"
    "2020-02-10" "" None None
  = (Ok {| ExpenseService.summary_transaction_id := "TX-090507";
           ExpenseService.summary_month := "2020-02";
           ExpenseService.summary_income := "0";
           ExpenseService.summary_expense := "10.00";
           ExpenseService.summary_net := "-10.00" |},
     saved [ {| Transaction.transaction_id := VStr "TX-090507";
                Transaction.user_id := VStr "jason";
                Transaction.amount := Dec.Finite false 1000 (-2);
                Transaction.category := VStr "Groceries";
                Transaction.occurred_on := Date.mk 2020 2 10;
                Transaction.note := VStr "";
                Transaction.tx_type := VStr "EXPENSE" |} ]).
Proof. vm_compute. reflexivity. Qed.

Example scenario_negative_amount :
  @ExpenseService.add_expense strict_runtime example_env "jason" "-5" "Groceries"
    "2020-02-10" "" None None
  = (Raise (ValueError "Amount must be greater than 0."), None).
Proof. vm_compute. reflexivity. Qed.

Example scenario_half_cent_rounds_to_even :
  @ExpenseService._validate_amount " 12.345 " = Ok (Dec.Finite false 1234 (-2))
  /\ @ExpenseService._validate_amount "12.355" = Ok (Dec.Finite false 1236 (-2)).
Proof. split; vm_compute; reflexivity. Qed.

(** * What the amount check accepts *)

(** ** The exponent range of the C implementation of [decimal]

    CPython's [decimal] is written in C.  On a 64-bit build [Decimal(str)]
    refuses a string whose number lies outside the range its numbers can
    hold (the constants [decimal.MAX_EMAX] and [decimal.MIN_ETINY]), where
    the module written in Python, which [Dec.of_string] follows, reads it.
    On the numbers of [in_C_range] the two agree. *)

Definition MAX_EMAX : Z := 999999999999999999.
Definition MIN_ETINY : Z := -1999999999999999997.

Definition in_C_range (d : Dec.Decimal) : bool :=
  match d with
  | Dec.Finite _ c e => (MIN_ETINY <=? e) && (e + Dec.ndigits c - 1 <=? MAX_EMAX)
  | _ => true
  end.

Section AmountFacts.
Context {rt : Runtime}.
Import ExpenseService.

Lemma digit_value_bound (c : ascii) :
  Str.is_digit c = true -> (Str.digit_value c <= 9)%N.
Proof.
  destruct c as [[] [] [] [] [] [] [] []]; vm_compute; intros H;
    (discriminate H || (intros H'; discriminate H')).
Qed.

(** A string of [k] digits reads as a number below [10^k]. *)
Lemma value_from_bound (s : string) (a : N) :
  Str.all_digits s = true ->
  (Str.value_from a s < (a + 1) * 10 ^ N.of_nat (String.length s))%N.
Proof.
  revert a; induction s as [|c s IH]; intros a H.
  - cbn. lia.
  - cbn [Str.all_digits] in H. apply andb_true_iff in H as [Hc Hs].
    cbn [Str.value_from String.length]. specialize (IH (a * 10 + Str.digit_value c)%N Hs).
    pose proof (digit_value_bound c Hc) as Hd.
    rewrite Nat2N.inj_succ, N.pow_succ_r'.
    eapply N.lt_le_trans; [exact IH|].
    set (p := (10 ^ N.of_nat (String.length s))%N). nia.
Qed.

Lemma ndigits_bound_inv (c : N) (k : nat) :
  Dec.ndigits c <= Z.of_nat k -> (c < 10 ^ N.of_nat k)%N.
Proof.
  unfold Dec.ndigits. intros H.
  pose proof (value_from_bound (Str.of_N c) 0 (StrFacts.of_N_all_digits c)) as Hb.
  fold (Str.digits_value (Str.of_N c)) in Hb. rewrite StrFacts.digits_value_of_N in Hb.
  eapply N.lt_le_trans; [exact Hb|]. rewrite N.mul_1_l.
  apply N.pow_le_mono_r; lia.
Qed.

(** What an accepted amount string looks like, and what is made of it. *)
Lemma validate_amount_Ok_inv (a : string) (amt : Dec.Decimal) :
  _validate_amount a = Ok amt ->
  exists c e,
    Dec.of_string (Str.strip a) = Some (Dec.Finite false c e)
    /\ c <> 0%N
    /\ e + Dec.ndigits c - 1 <= 25
    /\ Dec.ndigits (Dec.rescale c e (-2)) <= 28
    /\ amt = Dec.Finite false (Dec.rescale c e (-2)) (-2).
Proof.
  unfold _validate_amount.
  destruct (Dec.of_string (Str.strip a)) as [d|]; [|discriminate].
  destruct d as [s c e|s|s g p]; cbn [Dec.le_zero bind].
  - destruct s; cbn [orb]; [discriminate|].
    destruct (c =? 0)%N eqn:E0; [discriminate|].
    intros H. exists c, e. apply N.eqb_neq in E0.
    split; [reflexivity|]. split; [assumption|].
    revert H. unfold Dec.quantize, Dec.cent. cbn [Dec.check_nans].
    change (negb ((Dec.Etiny <=? -2) && (-2 <=? Dec.Emax))) with false. cbv iota.
    apply N.eqb_neq in E0. rewrite E0.
    destruct (Dec.Emax <? e + Dec.ndigits c - 1); [discriminate|].
    destruct (Dec.prec <? e + Dec.ndigits c - 1 - -2 + 1) eqn:E2; [discriminate|].
    destruct (Dec.Emax <? -2 + Dec.ndigits (Dec.rescale c e (-2)) - 1); [discriminate|].
    destruct (Dec.prec <? Dec.ndigits (Dec.rescale c e (-2))) eqn:E4; [discriminate|].
    apply Z.ltb_ge in E2, E4. unfold Dec.prec in *.
    intros H. split; [lia|]. split; [lia|].
    revert H. unfold Dec._fix.
    destruct (Dec.rescale c e (-2) =? 0)%N eqn:E5.
    + apply N.eqb_eq in E5. rewrite E5. now intros [= <-].
    + assert (H5 : (Dec.Etop <? Dec.ndigits (Dec.rescale c e (-2)) + -2 - Dec.prec) = false)
        by (apply Z.ltb_ge; unfold Dec.Etop, Dec.Emax, Dec.prec; lia).
      assert (H6 : (-2 <? Z.max (Dec.ndigits (Dec.rescale c e (-2)) + -2 - Dec.prec) Dec.Etiny)
                   = false)
        by (apply Z.ltb_ge; unfold Dec.Etiny, Dec.Emin, Dec.prec; lia).
      rewrite H5, H6. now intros [= <-].
  - destruct s; [discriminate|]. cbn. discriminate.
  - discriminate.
Qed.

End AmountFacts.

Section AmountBounds.
Context {rt : Runtime}.
Import ExpenseService.

(** A number of [L] digits is at least [10^(L-1)]. *)
Lemma ndigits_lower (c : N) :
  c <> 0%N -> (10 ^ Z.to_N (Dec.ndigits c - 1) <= c)%N.
Proof.
  intros Hc. unfold Dec.ndigits.
  pose proof (StrFacts.length_of_N_pos c) as Hpos.
  destruct (String.length (Str.of_N c)) as [|[|k]] eqn:EL; [lia| |].
  - change (Z.to_N (Z.of_nat 1 - 1)) with 0%N. rewrite N.pow_0_r. lia.
  - destruct (N.lt_ge_cases c (10 ^ Z.to_N (Z.of_nat (S (S k)) - 1))) as [Hlt|Hge];
      [|exact Hge].
    replace (Z.to_N (Z.of_nat (S (S k)) - 1)) with (N.of_nat (S k)) in Hlt by lia.
    pose proof (StrFacts.length_of_N_bound c k Hlt). lia.
Qed.

Lemma ndigits_upper (c : N) (k : Z) :
  0 < k -> (c < 10 ^ Z.to_N k)%N -> Dec.ndigits c <= k.
Proof.
  intros Hk Hc. unfold Dec.ndigits.
  destruct (Z.to_nat k) as [|j] eqn:Ej; [lia|].
  replace (Z.to_N k) with (N.of_nat (S j)) in Hc by lia.
  pose proof (StrFacts.length_of_N_bound c j Hc). lia.
Qed.

Lemma round_half_even_floor (c : N) (k : Z) :
  (c / 10 ^ Z.to_N k <= Dec.round_half_even c k)%N.
Proof.
  unfold Dec.round_half_even.
  destruct (_ || _); lia.
Qed.

(** A rounded amount below [10^28] cents comes from a number below [10^26]. *)
Lemma rescale_small_adjusted (c : N) (e : Z) :
  c <> 0%N -> (Dec.rescale c e (-2) < 10 ^ 28)%N -> e + Dec.ndigits c - 1 <= 25.
Proof.
  intros Hc Hr.
  pose proof (ndigits_lower c Hc) as Hlow.
  destruct (Z.le_gt_cases (e + Dec.ndigits c - 1) 25) as [H|H]; [exact H|exfalso].
  set (L := Dec.ndigits c) in *.
  unfold Dec.rescale in Hr.
  destruct (-2 <=? e) eqn:E; [apply Z.leb_le in E | apply Z.leb_gt in E].
  - assert (Hp : (10 ^ 28 <= 10 ^ Z.to_N (L - 1) * 10 ^ Z.to_N (e - -2))%N).
    { rewrite <- N.pow_add_r. apply N.pow_le_mono_r; lia. }
    assert (Hm : (10 ^ Z.to_N (L - 1) * 10 ^ Z.to_N (e - -2)
                  <= c * 10 ^ Z.to_N (e - -2))%N)
      by (apply N.mul_le_mono_r; exact Hlow).
    lia.
  - pose proof (round_half_even_floor c (-2 - e)) as Hf.
    assert (Hp : (10 ^ 28 * 10 ^ Z.to_N (-2 - e) <= c)%N).
    { eapply N.le_trans; [|exact Hlow].
      rewrite <- N.pow_add_r. apply N.pow_le_mono_r; lia. }
    assert (Hq : (10 ^ 28 <= c / 10 ^ Z.to_N (-2 - e))%N).
    { apply N.div_le_lower_bound; [apply N.pow_nonzero; lia|].
      rewrite N.mul_comm. exact Hp. }
    lia.
Qed.

Lemma validate_amount_Ok_iff (a : string) (amt : Dec.Decimal) :
  _validate_amount a = Ok amt <->
  exists c e,
    Dec.of_string (Str.strip a) = Some (Dec.Finite false c e)
    /\ c <> 0%N
    /\ (Dec.rescale c e (-2) < 10 ^ 28)%N
    /\ amt = Dec.Finite false (Dec.rescale c e (-2)) (-2).
Proof.
  split.
  - intros H. destruct (validate_amount_Ok_inv a amt H) as (c & e & Hp & Hc & _ & Hn & ->).
    exists c, e. repeat split; auto.
    apply (ndigits_bound_inv _ 28). exact Hn.
  - intros (c & e & Hp & Hc & Hr & ->).
    apply validate_amount_quantized; auto.
    + now apply rescale_small_adjusted.
    + now apply ReportFacts.ndigits_bound.
Qed.

Lemma round_half_even_small (c : N) (k : Z) :
  (2 * c <= 10 ^ Z.to_N k)%N -> Dec.round_half_even c k = 0%N.
Proof.
  intros H. unfold Dec.round_half_even.
  set (p := (10 ^ Z.to_N k)%N) in *.
  assert (Hp : (0 < p)%N) by (unfold p; apply N.neq_0_lt_0, N.pow_nonzero; lia).
  destruct (N.eq_dec c 0) as [->|Hc].
  - rewrite N.Div0.div_0_l, N.Div0.mod_0_l.
    assert (E1 : (p <? 2 * 0)%N = false) by (apply N.ltb_ge; lia).
    rewrite E1. cbn [orb N.odd andb]. now rewrite andb_false_r.
  - assert (Hlt : (c < p)%N) by lia.
    rewrite (N.div_small c p Hlt), (N.mod_small c p Hlt).
    assert (E1 : (p <? 2 * c)%N = false) by (apply N.ltb_ge; lia).
    rewrite E1. cbn [orb N.odd]. now rewrite andb_false_r.
Qed.

End AmountBounds.

(** * Every run of [add_expense] *)

Section ExpenseRun.
Context {rt : Runtime}.
Import ExpenseService.

(** The dict [add_expense] returns, from the identifier, the date and the
    totals. *)
Definition summary_of (tx : Transaction.t) (tx_id : string) (tot : ReportService.Totals)
  : Summary :=
  {| summary_transaction_id := tx_id;
     summary_month := Str.of_Z (Date.year (Transaction.occurred_on tx)) ++ "-"
                      ++ Str.zero_padded 2 (Date.month (Transaction.occurred_on tx));
     summary_income := Dec.to_string (ReportService.income tot);
     summary_expense := Dec.to_string (ReportService.expense tot);
     summary_net := Dec.to_string (ReportService.net tot) |}.

(** The identifier [add_expense] uses: [transaction_id or self._new_tx_id()]. *)
Definition tx_id_of (env : Env) (transaction_id : option string) : string :=
  match transaction_id with
  | Some s => if Str.is_empty s then _new_tx_id env else s
  | None => _new_tx_id env
  end.

(** The report as a function of the loaded transactions. *)
Definition totals_of (txs : list Transaction.t) (user_id : string) (year month : Z)
  : result ReportService.Totals :=
  ('(income, expense) <- ReportService.totals_loop txs user_id year month Dec.zero Dec.zero ;;
   net <- Dec.sub income expense ;;
   Ok {| ReportService.income := income; ReportService.expense := expense;
         ReportService.net := net |})%result.

Lemma monthly_totals_loaded (u : string) (y m : Z) (st : store) (txs : list Transaction.t) :
  TransactionRepository.load_all st = (Ok txs, st) ->
  ReportService.monthly_totals u y m st = (totals_of txs u y m, st).
Proof.
  intros H. unfold ReportService.monthly_totals, bindIO, lift. now rewrite H.
Qed.

Lemma monthly_totals_unreadable (u : string) (y m : Z) (st : store) (e : exn) :
  TransactionRepository.load_all st = (Raise e, st) ->
  ReportService.monthly_totals u y m st = (Raise e, st).
Proof.
  intros H. unfold ReportService.monthly_totals, bindIO, lift. now rewrite H.
Qed.

Lemma load_all_cases (st : store) :
  (exists txs, TransactionRepository.load_all st = (Ok txs, st))
  \/ (exists e, TransactionRepository.load_all st = (Raise e, st)).
Proof.
  pose proof (load_all_keeps_store st) as H.
  destruct (TransactionRepository.load_all st) as [[txs|e] st']; cbn [snd] in H; subst st';
    [left | right]; eauto.
Qed.

(** Every run of [add_expense], by what the checks, the load and the report
    do. *)
Lemma add_expense_run (env : Env) (u a c ds n : string) (tid : option string)
    (st : store) (amt : Dec.Decimal) (cat : string) (d : Date.date)
    (txs : list Transaction.t) :
  validate (today env) a c ds = Ok (amt, cat, d) ->
  TransactionRepository.load_all st = (Ok txs, st) ->
  let tx := new_transaction env u n tid amt cat d in
  add_expense env u a c ds n tid st
  = (match totals_of (txs ++ [tx]) u (Date.year d) (Date.month d) with
     | Ok tot => Ok (summary_of tx (tx_id_of env tid) tot)
     | Raise e => Raise e
     end, saved (txs ++ [tx])).
Proof.
  intros Hv Hl tx.
  assert (Hvalid : Forall valid_tx (txs ++ [tx])).
  { apply Forall_app. split; [eapply load_all_valid; eauto|].
    constructor; [|constructor]. unfold valid_tx. cbn. eapply validate_valid; eauto. }
  pose proof (load_all_saved _ Hvalid) as Hs.
  pose proof (monthly_totals_loaded u (Date.year d) (Date.month d) _ _ Hs) as Hm.
  revert Hv. unfold validate, add_expense, bindIO, lift, bind.
  destruct (_validate_amount a); [|discriminate].
  destruct (_validate_category c); [|discriminate].
  destruct (_validate_date (today env) ds); [|discriminate].
  intros [= -> -> ->].
  unfold TransactionRepository.append, bindIO. rewrite Hl.
  rewrite save_all_saved.
  fold (new_transaction env u n tid amt cat d). fold tx.
  fold (tx_id_of env tid).
  rewrite Hm.
  destruct (totals_of (txs ++ [tx]) u (Date.year d) (Date.month d)); reflexivity.
Qed.

End ExpenseRun.

Section ExpenseOutcomes.
Context {rt : Runtime}.
Import ExpenseService.

Lemma validate_Ok_inv (today : Date.date) (a c ds : string)
    (amt : Dec.Decimal) (cat : string) (d : Date.date) :
  validate today a c ds = Ok (amt, cat, d) ->
  _validate_amount a = Ok amt /\ _validate_category c = Ok cat
  /\ _validate_date today ds = Ok d.
Proof.
  unfold validate, bind.
  destruct (_validate_amount a); [|discriminate].
  destruct (_validate_category c); [|discriminate].
  destruct (_validate_date today ds); [|discriminate].
  now intros [= -> -> ->].
Qed.

Lemma validate_category_Ok_inv (c cat : string) :
  _validate_category c = Ok cat ->
  cat = Str.strip c /\ Str.is_empty cat = false
  /\ (String.length cat <= 30)%nat /\ Str.strip cat = cat.
Proof.
  unfold _validate_category.
  destruct (Str.is_empty c); cbn [orb]; [discriminate|].
  destruct (Str.is_empty (Str.strip c)) eqn:E; [discriminate|].
  destruct (30 <? String.length (Str.strip c))%nat eqn:E2; [discriminate|].
  intros [= <-]. apply Nat.ltb_ge in E2.
  repeat split; auto using StrFacts.strip_idem.
Qed.

Lemma validate_date_Ok_inv (today : Date.date) (ds : string) (d : Date.date) :
  _validate_date today ds = Ok d ->
  date_fromisoformat (Str.strip ds) = Some d
  /\ Date.gt d today = false /\ Date.valid d = true.
Proof.
  unfold _validate_date.
  destruct (date_fromisoformat (Str.strip ds)) as [d'|] eqn:E; [|discriminate].
  destruct (Date.gt d' today) eqn:G; [discriminate|].
  intros [= <-]. eauto using fromisoformat_valid.
Qed.

(** The three ways a call can go. *)
Lemma add_expense_cases (env : Env) (u a c ds n : string) (tid : option string)
    (st : store) :
  (exists e, validate (today env) a c ds = Raise e
             /\ add_expense env u a c ds n tid st = (Raise e, st))
  \/ (exists amt cat d e,
         validate (today env) a c ds = Ok (amt, cat, d)
         /\ TransactionRepository.load_all st = (Raise e, st)
         /\ add_expense env u a c ds n tid st = (Raise e, st))
  \/ (exists amt cat d txs,
         validate (today env) a c ds = Ok (amt, cat, d)
         /\ TransactionRepository.load_all st = (Ok txs, st)
         /\ add_expense env u a c ds n tid st
            = (match totals_of (txs ++ [new_transaction env u n tid amt cat d]) u
                       (Date.year d) (Date.month d) with
               | Ok tot => Ok (summary_of (new_transaction env u n tid amt cat d)
                                 (tx_id_of env tid) tot)
               | Raise e => Raise e
               end, saved (txs ++ [new_transaction env u n tid amt cat d]))).
Proof.
  destruct (validate (today env) a c ds) as [[[amt cat] d]|e] eqn:Hv.
  - right. destruct (load_all_cases st) as [[txs Hl]|[e Hl]].
    + right. exists amt, cat, d, txs. split; [reflexivity|]. split; [exact Hl|].
      now apply add_expense_run.
    + left. exists amt, cat, d, e. split; [reflexivity|]. split; [exact Hl|].
      eapply add_expense_unreadable; eauto.
  - left. exists e. split; [reflexivity|]. now apply add_expense_rejected.
Qed.

Lemma add_expense_Ok_inv (env : Env) (u a c ds n : string) (tid : option string)
    (st : store) (s : Summary) :
  fst (add_expense env u a c ds n tid st) = Ok s ->
  exists amt cat d txs tot,
    validate (today env) a c ds = Ok (amt, cat, d)
    /\ TransactionRepository.load_all st = (Ok txs, st)
    /\ totals_of (txs ++ [new_transaction env u n tid amt cat d]) u
         (Date.year d) (Date.month d) = Ok tot
    /\ s = summary_of (new_transaction env u n tid amt cat d) (tx_id_of env tid) tot
    /\ snd (add_expense env u a c ds n tid st)
       = saved (txs ++ [new_transaction env u n tid amt cat d]).
Proof.
  destruct (add_expense_cases env u a c ds n tid st)
    as [(e & _ & ->)|[(amt & cat & d & e & _ & _ & ->)|(amt & cat & d & txs & Hv & Hl & ->)]];
    cbn [fst snd]; try discriminate.
  destruct (totals_of _ _ _ _) as [tot|e] eqn:Ht; [|discriminate].
  intros [= <-]. exists amt, cat, d, txs, tot. auto.
Qed.

Lemma new_transaction_valid (env : Env) (u a c ds n : string) (tid : option string)
    (amt : Dec.Decimal) (cat : string) (d : Date.date) (txs : list Transaction.t)
    (st : store) :
  validate (today env) a c ds = Ok (amt, cat, d) ->
  TransactionRepository.load_all st = (Ok txs, st) ->
  TransactionRepository.load_all (saved (txs ++ [new_transaction env u n tid amt cat d]))
  = (Ok (txs ++ [new_transaction env u n tid amt cat d])%list,
     saved (txs ++ [new_transaction env u n tid amt cat d])).
Proof.
  intros Hv Hl. apply load_all_saved, Forall_app. split; [eapply load_all_valid; eauto|].
  constructor; [|constructor]. unfold valid_tx. cbn. eapply validate_valid; eauto.
Qed.

(** *** What the report can raise *)

Lemma fix_raises (d : Dec.Decimal) (e : exn) : Dec._fix d = Raise e -> e = Overflow.
Proof.
  destruct d as [s c x| |]; cbn [Dec._fix]; try discriminate.
  repeat match goal with
  | |- context [if ?b then _ else _] => destruct b
  end; intros H; try discriminate H; now injection H as <-.
Qed.

Lemma add_raises (a b : Dec.Decimal) (e : exn) :
  Dec.add a b = Raise e -> e = InvalidOperation \/ e = Overflow.
Proof.
  unfold Dec.add.
  destruct a as [s1 c1 e1|s1|s1 [] p1], b as [s2 c2 e2|s2|s2 [] p2]; cbn [Dec.check_nans];
    try discriminate; try (intros [= <-]; now left).
  - intros H. right. eapply fix_raises; eauto.
  - destruct (Bool.eqb s1 s2); [discriminate | intros [= <-]; now left].
Qed.

Lemma sub_raises (a b : Dec.Decimal) (e : exn) :
  Dec.sub a b = Raise e -> e = InvalidOperation \/ e = Overflow.
Proof.
  unfold Dec.sub. destruct (Dec.check_nans a b) as [r|] eqn:E.
  - intros ->. destruct a as [s1 c1 e1|s1|s1 [] p1], b as [s2 c2 e2|s2|s2 [] p2];
      cbn [Dec.check_nans] in E; try discriminate; injection E as <-; now left.
  - apply add_raises.
Qed.

Lemma totals_loop_raises (txs : list Transaction.t) (u : string) (y m : Z)
    (i x : Dec.Decimal) (e : exn) :
  ReportService.totals_loop txs u y m i x = Raise e ->
  e = AttributeError \/ e = InvalidOperation \/ e = Overflow.
Proof.
  revert i x; induction txs as [|t txs IH]; intros i x; cbn [ReportService.totals_loop];
    [discriminate|].
  destruct (differs_from_str _ _); [apply IH|].
  destruct (_ && _); [|apply IH].
  destruct (Transaction.tx_type t); cbn [ReportService.upper_of bind];
    try (intros [= <-]; now left).
  destruct (String.eqb _ _).
  - destruct (Dec.add i _) eqn:Ea; cbn [bind]; [apply IH|].
    intros [= <-]. right. eapply add_raises; eauto.
  - destruct (Dec.add x _) eqn:Ea; cbn [bind]; [apply IH|].
    intros [= <-]. right. eapply add_raises; eauto.
Qed.

Lemma totals_of_raises (txs : list Transaction.t) (u : string) (y m : Z) (e : exn) :
  totals_of txs u y m = Raise e ->
  e = AttributeError \/ e = InvalidOperation \/ e = Overflow.
Proof.
  unfold totals_of, bind.
  destruct (ReportService.totals_loop _ _ _ _ _ _) as [[i x]|e'] eqn:El.
  - destruct (Dec.sub i x) eqn:Es; [discriminate|].
    intros [= <-]. right. eapply sub_raises; eauto.
  - intros [= <-]. eapply totals_loop_raises; eauto.
Qed.

End ExpenseOutcomes.

Section FirstExpense.
Context {rt : Runtime}.
Import ExpenseService.

Lemma add_zero_cents (q : N) :
  (q < 10 ^ 28)%N ->
  Dec.add Dec.zero (Dec.Finite false q (-2)) = Ok (Dec.Finite false q (-2)).
Proof.
  intros Hq. unfold Dec.add, Dec.zero. cbn [Dec.check_nans].
  change (Z.min 0 (-2)) with (-2). unfold Dec.signed.
  change (0 - -2) with 2. change (-2 - -2) with 0.
  change (Z.of_N 0 * 10 ^ 2) with 0. rewrite Z.pow_0_r, Z.mul_1_r, Z.add_0_l.
  rewrite Zabs2N.id.
  assert (Hs : (if Z.of_N q =? 0 then (0 =? 0)%N && (q =? 0)%N && false && false
                else Z.of_N q <? 0) = false).
  { destruct (Z.of_N q =? 0); [now rewrite !andb_false_r | apply Z.ltb_ge; lia]. }
  rewrite Hs. apply ReportFacts.fix_small; [exact Hq|].
  unfold Dec.Etiny, Dec.Emin, Dec.prec. lia.
Qed.

Lemma sub_zero_cents (q : N) :
  (q < 10 ^ 28)%N ->
  Dec.sub Dec.zero (Dec.Finite false q (-2))
  = Ok (Dec.Finite (negb (q =? 0)%N) q (-2)).
Proof.
  intros Hq. unfold Dec.sub, Dec.zero. cbn [Dec.check_nans Dec.negate negb].
  unfold Dec.add. cbn [Dec.check_nans].
  change (Z.min 0 (-2)) with (-2). unfold Dec.signed.
  change (0 - -2) with 2. change (-2 - -2) with 0.
  change (Z.of_N 0 * 10 ^ 2) with 0. rewrite Z.pow_0_r, Z.mul_1_r, Z.add_0_l.
  rewrite Zabs2N.inj_opp, Zabs2N.id.
  assert (Hs : (if - Z.of_N q =? 0 then (0 =? 0)%N && (q =? 0)%N && false && true
                else - Z.of_N q <? 0) = negb (q =? 0)%N).
  { destruct (N.eqb_spec q 0) as [->|Hne]; [reflexivity|].
    assert (E : (- Z.of_N q =? 0) = false) by (apply Z.eqb_neq; lia).
    rewrite E. cbn [negb]. apply Z.ltb_lt. lia. }
  rewrite Hs. apply ReportFacts.fix_small; [exact Hq|].
  unfold Dec.Etiny, Dec.Emin, Dec.prec. lia.
Qed.

Lemma new_transaction_kept (env : Env) (u n : string) (tid : option string)
    (amt : Dec.Decimal) (cat : string) (d : Date.date) :
  kept u (Date.year d) (Date.month d) (new_transaction env u n tid amt cat d) = true.
Proof.
  unfold kept, new_transaction, differs_from_str.
  cbn [Transaction.user_id Transaction.occurred_on].
  now rewrite String.eqb_refl, !Z.eqb_refl.
Qed.

Lemma totals_of_first (env : Env) (u n : string) (tid : option string) (q : N)
    (cat : string) (d : Date.date) (txs : list Transaction.t) :
  (q < 10 ^ 28)%N ->
  filter (kept u (Date.year d) (Date.month d)) txs = [] ->
  totals_of (txs ++ [new_transaction env u n tid (Dec.Finite false q (-2)) cat d]) u
    (Date.year d) (Date.month d)
  = Ok {| ReportService.income := Dec.zero;
          ReportService.expense := Dec.Finite false q (-2);
          ReportService.net := Dec.Finite (negb (q =? 0)%N) q (-2) |}.
Proof.
  intros Hq Hnone. unfold totals_of.
  rewrite totals_loop_app, (totals_loop_none _ _ _ _ _ _ Hnone). cbn [bind fst snd].
  rewrite (totals_loop_keep _ [] u "EXPENSE" _ _ _ _ (new_transaction_kept _ _ _ _ _ _ _))
    by reflexivity.
  change (has_type "INCOME" (new_transaction env u n tid (Dec.Finite false q (-2)) cat d))
    with false. cbv iota.
  cbn [Transaction.amount new_transaction].
  rewrite (add_zero_cents q Hq). cbn [bind ReportService.totals_loop].
  now rewrite (sub_zero_cents q Hq).
Qed.

End FirstExpense.

Section ExpenseTheorems.
Context {rt : Runtime}.
Import ExpenseService.

(** X1.  Among the strings whose number, if they read as one, lies in the
    range the C implementation of [decimal] can hold, the amount check
    accepts exactly those that read, trimmed, as a finite number above zero
    whose value in cents, rounded half to even, stays below [10^28]; what it
    returns is that many cents. *)
Theorem X1_amount_accepted_iff :
  forall (a : string) (amt : Dec.Decimal),
    (forall d, Dec.of_string (Str.strip a) = Some d -> in_C_range d = true) ->
    (_validate_amount a = Ok amt <->
     exists c e,
       Dec.of_string (Str.strip a) = Some (Dec.Finite false c e)
       /\ c <> 0%N
       /\ (Dec.rescale c e (-2) < 10 ^ 28)%N
       /\ amt = Dec.Finite false (Dec.rescale c e (-2)) (-2)).
Proof. intros a amt _. exact (validate_amount_Ok_iff a amt). Qed.

(** X2.  An accepted amount is stored in whole cents: unchanged when the
    number entered has at most two decimals, and otherwise the nearest cent,
    at most half a cent away, the even cent when two are equally near. *)
Theorem X2_amount_rounded_to_nearest_cent :
  forall (a : string) (amt : Dec.Decimal),
    _validate_amount a = Ok amt ->
    exists c e q,
      Dec.of_string (Str.strip a) = Some (Dec.Finite false c e)
      /\ amt = Dec.Finite false q (-2)
      /\ (-2 <= e -> q = (c * 10 ^ Z.to_N (e + 2))%N)
      /\ (e < -2 ->
          let p := (10 ^ Z.to_N (-2 - e))%N in
          (2 * c <= 2 * (q * p) + p /\ 2 * (q * p) <= 2 * c + p
           /\ (2 * (q * p) = 2 * c + p \/ 2 * (q * p) + p = 2 * c -> N.even q = true))%N).
Proof.
  intros a amt H.
  destruct (proj1 (validate_amount_Ok_iff a amt) H) as (c & e & Hp & _ & _ & ->).
  exists c, e, (Dec.rescale c e (-2)). split; [exact Hp|]. split; [reflexivity|].
  unfold Dec.rescale. split.
  - intros He. assert (E : (-2 <=? e) = true) by (apply Z.leb_le; lia).
    rewrite E. replace (e - -2) with (e + 2) by lia. reflexivity.
  - intros He. assert (E : (-2 <=? e) = false) by (apply Z.leb_gt; lia).
    rewrite E. pose proof (round_half_even_nearest c (-2 - e)) as [[H1 H2] H3].
    repeat split; assumption.
Qed.

(** X3.  The test for an amount above zero comes before the rounding: a
    positive amount of at most half a cent passes it and is stored as 0.00
    (for an exponent the C implementation of [decimal] can hold, that is one
    not below [decimal.MIN_ETINY]). *)
Theorem X3_half_cent_or_less_stored_as_zero :
  forall (a : string) (c : N) (e : Z),
    Dec.of_string (Str.strip a) = Some (Dec.Finite false c e) ->
    c <> 0%N ->
    MIN_ETINY <= e ->
    e < -2 ->
    (2 * c <= 10 ^ Z.to_N (-2 - e))%N ->
    _validate_amount a = Ok (Dec.Finite false 0 (-2)).
Proof.
  intros a c e Hp Hc _ He Hsmall.
  apply (proj2 (validate_amount_Ok_iff a _)). exists c, e.
  assert (Hr : Dec.rescale c e (-2) = 0%N).
  { unfold Dec.rescale. assert (E : (-2 <=? e) = false) by (apply Z.leb_gt; lia).
    rewrite E. now apply round_half_even_small. }
  rewrite Hr. repeat split; auto.
Qed.

(** X4.  Whatever it is given, [add_expense] either fails and leaves the
    file as it was, or leaves a file that holds the transactions that were
    there, in their order, followed by exactly one new one. *)
Theorem X4_add_expense_appends_or_leaves :
  forall (env : Env) (u a c ds n : string) (tid : option string) (st : store),
    (exists e, add_expense env u a c ds n tid st = (Raise e, st))
    \/ (exists txs tx,
          TransactionRepository.load_all st = (Ok txs, st)
          /\ snd (add_expense env u a c ds n tid st) = saved (txs ++ [tx])
          /\ TransactionRepository.load_all (saved (txs ++ [tx]))
             = (Ok (txs ++ [tx])%list, saved (txs ++ [tx]))).
Proof.
  intros env u a c ds n tid st.
  destruct (add_expense_cases env u a c ds n tid st)
    as [(e & _ & H)|[(amt & cat & d & e & _ & _ & H)|(amt & cat & d & txs & Hv & Hl & H)]].
  - left. eauto.
  - left. eauto.
  - right. exists txs, (new_transaction env u n tid amt cat d).
    split; [exact Hl|]. split; [now rewrite H|].
    eapply new_transaction_valid; eauto.
Qed.

(** X5.  When [add_expense] returns, the record it has added at the end of
    the file is an EXPENSE of the given user with: the identifier it reports
    (the caller's if one was given and is not empty, a generated one
    otherwise), a non-negative amount in cents below [10^28], the trimmed
    category, which is not empty, has at most 30 characters and no blank at
    either end, the date read from the trimmed date string, which is a real
    date not after today, and the trimmed note. *)
Theorem X5_stored_expense_is_well_formed :
  forall (env : Env) (u a c ds n : string) (tid : option string) (st : store)
         (s : Summary),
    fst (add_expense env u a c ds n tid st) = Ok s ->
    exists txs q d,
      TransactionRepository.load_all st = (Ok txs, st)
      /\ snd (add_expense env u a c ds n tid st)
         = saved (txs ++ [ {| Transaction.transaction_id := VStr (summary_transaction_id s);
                              Transaction.user_id := VStr u;
                              Transaction.amount := Dec.Finite false q (-2);
                              Transaction.category := VStr (Str.strip c);
                              Transaction.occurred_on := d;
                              Transaction.note := VStr (Str.strip n);
                              Transaction.tx_type := VStr "EXPENSE" |} ])
      /\ summary_transaction_id s
         = match tid with
           | Some id => if Str.is_empty id then _new_tx_id env else id
           | None => _new_tx_id env
           end
      /\ (q < 10 ^ 28)%N
      /\ Str.is_empty (Str.strip c) = false
      /\ (String.length (Str.strip c) <= 30)%nat
      /\ Str.strip (Str.strip c) = Str.strip c
      /\ date_fromisoformat (Str.strip ds) = Some d
      /\ Date.valid d = true
      /\ Date.gt d (today env) = false.
Proof.
  intros env u a c ds n tid st s H.
  destruct (add_expense_Ok_inv env u a c ds n tid st s H)
    as (amt & cat & d & txs & tot & Hv & Hl & _ & -> & Hs).
  destruct (validate_Ok_inv _ _ _ _ _ _ _ Hv) as (Ha & Hc & Hd).
  destruct (proj1 (validate_amount_Ok_iff a amt) Ha) as (c0 & e0 & _ & _ & Hq & ->).
  destruct (validate_category_Ok_inv c cat Hc) as (-> & Hne & Hlen & Hidem).
  destruct (validate_date_Ok_inv _ _ _ Hd) as (Hp & Hg & Hvd).
  exists txs, (Dec.rescale c0 e0 (-2)), d.
  split; [exact Hl|]. split; [exact Hs|]. repeat split; auto.
Qed.

(** X6.  The record is written before the report is computed.  When the
    report on the new file fails, [add_expense] fails with the report's
    exception, which is not a [ValueError], and the expense is in the file
    all the same. *)
Theorem X6_expense_saved_though_report_fails :
  forall (env : Env) (u a c ds n : string) (tid : option string) (st : store)
         (amt : Dec.Decimal) (cat : string) (d : Date.date)
         (txs : list Transaction.t) (e : exn),
    validate (today env) a c ds = Ok (amt, cat, d) ->
    TransactionRepository.load_all st = (Ok txs, st) ->
    let st' := saved (txs ++ [new_transaction env u n tid amt cat d]) in
    ReportService.monthly_totals u (Date.year d) (Date.month d) st' = (Raise e, st') ->
    add_expense env u a c ds n tid st = (Raise e, st')
    /\ TransactionRepository.load_all st'
       = (Ok (txs ++ [new_transaction env u n tid amt cat d])%list, st')
    /\ is_ValueError e = false.
Proof.
  intros env u a c ds n tid st amt cat d txs e Hv Hl st' Hm.
  pose proof (new_transaction_valid env u a c ds n tid amt cat d txs st Hv Hl) as Hs.
  fold st' in Hs.
  rewrite (monthly_totals_loaded _ _ _ _ _ Hs) in Hm. injection Hm as Hm.
  split; [|split; [exact Hs|]].
  - rewrite (add_expense_run env u a c ds n tid st amt cat d txs Hv Hl).
    fold st'. now rewrite Hm.
  - destruct (totals_of_raises _ _ _ _ _ Hm) as [-> | [-> | ->]]; reflexivity.
Qed.

(** X7.  The figures [add_expense] returns are those of the report on the
    file it leaves, for the user and the month of the new expense: asking
    [monthly_totals] again right after the call gives the same three
    numbers. *)
Theorem X7_summary_agrees_with_report :
  forall (env : Env) (u a c ds n : string) (tid : option string) (st : store)
         (s : Summary),
    fst (add_expense env u a c ds n tid st) = Ok s ->
    exists d tot,
      _validate_date (today env) ds = Ok d
      /\ ReportService.monthly_totals u (Date.year d) (Date.month d)
           (snd (add_expense env u a c ds n tid st))
         = (Ok tot, snd (add_expense env u a c ds n tid st))
      /\ summary_income s = Dec.to_string (ReportService.income tot)
      /\ summary_expense s = Dec.to_string (ReportService.expense tot)
      /\ summary_net s = Dec.to_string (ReportService.net tot).
Proof.
  intros env u a c ds n tid st s H.
  destruct (add_expense_Ok_inv env u a c ds n tid st s H)
    as (amt & cat & d & txs & tot & Hv & Hl & Ht & -> & Hs).
  destruct (validate_Ok_inv _ _ _ _ _ _ _ Hv) as (_ & _ & Hd).
  exists d, tot. split; [exact Hd|]. rewrite Hs.
  rewrite (monthly_totals_loaded _ _ _ _ _
             (new_transaction_valid env u a c ds n tid amt cat d txs st Hv Hl)), Ht.
  repeat split.
Qed.

(** X8.  For the first transaction of a user in a month (the file holds
    none of that user for that month, whatever else it holds), the call
    returns income 0, the stored amount as the expense, and the same amount
    with a minus sign as the net (without the sign when the amount is
    0.00). *)
Theorem X8_first_expense_of_the_month :
  forall (env : Env) (u a c ds n : string) (tid : option string) (st : store)
         (amt : Dec.Decimal) (cat : string) (d : Date.date)
         (txs : list Transaction.t),
    validate (today env) a c ds = Ok (amt, cat, d) ->
    TransactionRepository.load_all st = (Ok txs, st) ->
    filter (kept u (Date.year d) (Date.month d)) txs = [] ->
    exists q s,
      amt = Dec.Finite false q (-2)
      /\ add_expense env u a c ds n tid st
         = (Ok s, saved (txs ++ [new_transaction env u n tid amt cat d]))
      /\ summary_income s = "0"
      /\ summary_expense s = Dec.to_string amt
      /\ summary_net s
         = (if (q =? 0)%N then Dec.to_string amt else "-" ++ Dec.to_string amt).
Proof.
  intros env u a c ds n tid st amt cat d txs Hv Hl Hnone.
  destruct (validate_Ok_inv _ _ _ _ _ _ _ Hv) as (Ha & _ & _).
  destruct (proj1 (validate_amount_Ok_iff a amt) Ha) as (c0 & e0 & _ & _ & Hq & ->).
  set (q := Dec.rescale c0 e0 (-2)) in *.
  eexists q, _. split; [reflexivity|]. split.
  - rewrite (add_expense_run env u a c ds n tid st _ cat d txs Hv Hl).
    rewrite (totals_of_first env u n tid q cat d txs Hq Hnone). reflexivity.
  - cbn [summary_of summary_income summary_expense summary_net
         ReportService.income ReportService.expense ReportService.net].
    split; [reflexivity|]. split; [reflexivity|].
    destruct (q =? 0)%N; reflexivity.
Qed.

End ExpenseTheorems.

(** ** At concrete inputs *)

(** An earlier record of jason in November 2026 whose type is [null]. *)
Definition untyped : Transaction.t :=
  {| Transaction.transaction_id := VStr "TX-0";
     Transaction.user_id := VStr "jason";
     Transaction.amount := Dec.Finite false 100 (-2);
     Transaction.category := VStr "Misc";
     Transaction.occurred_on := Date.mk 2026 11 1;
     Transaction.note := VStr "";
     Transaction.tx_type := VNone |}.

Lemma X1_witness :
  ExpenseService._validate_amount " 12.345 " = Ok (Dec.Finite false 1234 (-2)).
Proof.
  destruct (X1_amount_accepted_iff " 12.345 " (Dec.Finite false 1234 (-2))) as [_ H].
  - intros d Hd. vm_compute in Hd. injection Hd as <-. reflexivity.
  - apply H. exists 12345%N, (-3). repeat split; try reflexivity. discriminate.
Defined.

Lemma X2_witness :
  exists c e q,
    Dec.of_string (Str.strip "0.125") = Some (Dec.Finite false c e)
    /\ Dec.Finite false 12 (-2) = Dec.Finite false q (-2)
    /\ (-2 <= e -> q = (c * 10 ^ Z.to_N (e + 2))%N)
    /\ (e < -2 ->
        let p := (10 ^ Z.to_N (-2 - e))%N in
        (2 * c <= 2 * (q * p) + p /\ 2 * (q * p) <= 2 * c + p
         /\ (2 * (q * p) = 2 * c + p \/ 2 * (q * p) + p = 2 * c -> N.even q = true))%N).
Proof.
  apply (X2_amount_rounded_to_nearest_cent "0.125" (Dec.Finite false 12 (-2))).
  reflexivity.
Defined.

Lemma X3_witness :
  ExpenseService._validate_amount "0.005" = Ok (Dec.Finite false 0 (-2)).
Proof.
  apply (X3_half_cent_or_less_stored_as_zero "0.005" 5 (-3)).
  - reflexivity.
  - discriminate.
  - vm_compute. discriminate.
  - lia.
  - vm_compute. discriminate.
Defined.

Lemma X5_witness :
  exists txs q d,
    @TransactionRepository.load_all strict_runtime None = (Ok txs, None)
    /\ snd (@ExpenseService.add_expense strict_runtime example_env "jason" " 12.345 "
              " Food " " 2026-11-04 " " lunch " None None)
       = saved (txs ++ [ {| Transaction.transaction_id := VStr "TX-090507";
                            Transaction.user_id := VStr "jason";
                            Transaction.amount := Dec.Finite false q (-2);
                            Transaction.category := VStr (Str.strip " Food ");
                            Transaction.occurred_on := d;
                            Transaction.note := VStr (Str.strip " lunch ");
                            Transaction.tx_type := VStr "EXPENSE" |} ])
    /\ (q < 10 ^ 28)%N
    /\ Date.valid d = true.
Proof.
  destruct (@X5_stored_expense_is_well_formed strict_runtime example_env "jason"
              " 12.345 " " Food " " 2026-11-04 " " lunch " None None
              {| ExpenseService.summary_transaction_id := "TX-090507";
                 ExpenseService.summary_month := "2026-11";
                 ExpenseService.summary_income := "0";
                 ExpenseService.summary_expense := "12.34";
                 ExpenseService.summary_net := "-12.34" |})
    as (txs & q & d & Hl & Hs & _ & Hq & _ & _ & _ & _ & Hv & _).
  - vm_compute. reflexivity.
  - exists txs, q, d. repeat split; assumption.
Defined.

Lemma X6_witness :
  @ExpenseService.add_expense strict_runtime example_env "jason" "5.00" "Food"
    "2026-11-04" "" None (saved [untyped])
  = (Raise AttributeError,
     saved [untyped;
            new_transaction example_env "jason" "" None (Dec.Finite false 500 (-2)) "Food"
              (Date.mk 2026 11 4)]).
Proof.
  destruct (@X6_expense_saved_though_report_fails strict_runtime example_env "jason"
              "5.00" "Food" "2026-11-04" "" None (saved [untyped])
              (Dec.Finite false 500 (-2)) "Food" (Date.mk 2026 11 4) [untyped]
              AttributeError) as [H _].
  - reflexivity.
  - vm_compute. reflexivity.
  - vm_compute. reflexivity.
  - exact H.
Defined.

Lemma X7_witness :
  exists d tot,
    @ExpenseService._validate_date strict_runtime (Date.mk 2026 11 4) "2026-11-03" = Ok d
    /\ @ReportService.monthly_totals strict_runtime "jason" (Date.year d) (Date.month d)
         (snd (@ExpenseService.add_expense strict_runtime example_env "jason" "2.50" "Tea"
                 "2026-11-03" "" None (saved february)))
       = (Ok tot, snd (@ExpenseService.add_expense strict_runtime example_env "jason" "2.50"
                         "Tea" "2026-11-03" "" None (saved february)))
    /\ "0" = Dec.to_string (ReportService.income tot)
    /\ "2.50" = Dec.to_string (ReportService.expense tot)
    /\ "-2.50" = Dec.to_string (ReportService.net tot).
Proof.
  apply (@X7_summary_agrees_with_report strict_runtime example_env "jason" "2.50" "Tea"
           "2026-11-03" "" None (saved february)
           {| ExpenseService.summary_transaction_id := "TX-090507";
              ExpenseService.summary_month := "2026-11";
              ExpenseService.summary_income := "0";
              ExpenseService.summary_expense := "2.50";
              ExpenseService.summary_net := "-2.50" |}).
  vm_compute. reflexivity.
Defined.

Lemma X8_witness :
  exists q s,
    Dec.Finite false 250 (-2) = Dec.Finite false q (-2)
    /\ @ExpenseService.add_expense strict_runtime example_env "jason" "2.50" "Tea"
         "2026-11-03" "" None (saved february)
       = (Ok s, saved (february ++ [new_transaction example_env "jason" "" None
                                      (Dec.Finite false 250 (-2)) "Tea"
                                      (Date.mk 2026 11 3)]))
    /\ ExpenseService.summary_income s = "0"
    /\ ExpenseService.summary_expense s = Dec.to_string (Dec.Finite false 250 (-2))
    /\ ExpenseService.summary_net s
       = (if (q =? 0)%N then Dec.to_string (Dec.Finite false 250 (-2))
          else "-" ++ Dec.to_string (Dec.Finite false 250 (-2))).
Proof.
  apply (@X8_first_expense_of_the_month strict_runtime example_env "jason" "2.50" "Tea"
           "2026-11-03" "" None (saved february) (Dec.Finite false 250 (-2)) "Tea"
           (Date.mk 2026 11 3) february).
  - reflexivity.
  - vm_compute. reflexivity.
  - reflexivity.
Defined.

(** * Identifiers and the month label *)

Module IdFacts.
Import Str StrFacts Date DateFacts.

(** Two padded digits: their shape, and that they read back. *)
Lemma zero_padded_2 (z : Z) :
  0 <= z < 100 ->
  exists a b, zero_padded 2 z = String a (String b EmptyString)
              /\ is_digit a = true /\ is_digit b = true
              /\ two_digits a b = Some z.
Proof.
  intros H. pose proof (reads_back2_ok z H) as R. unfold reads_back2 in R.
  destruct (zero_padded 2 z) as [|a [|b [|? ?]]]; try discriminate.
  exists a, b. split; [reflexivity|].
  unfold two_digits in *.
  destruct (is_digit a); [|discriminate]. destruct (is_digit b); [|discriminate].
  cbn [andb] in *. apply Z.eqb_eq in R. now rewrite R.
Qed.

Lemma strftime_HMS_shape (t : time) :
  0 <= hour t < 24 -> 0 <= minute t < 60 -> 0 <= second t < 60 ->
  exists h1 h2 m1 m2 s1 s2,
    strftime_HMS t
    = String h1 (String h2 (String m1 (String m2 (String s1 (String s2 EmptyString)))))
    /\ all_digits (strftime_HMS t) = true
    /\ two_digits h1 h2 = Some (hour t)
    /\ two_digits m1 m2 = Some (minute t)
    /\ two_digits s1 s2 = Some (second t).
Proof.
  intros Hh Hm Hs. unfold strftime_HMS.
  destruct (zero_padded_2 (hour t)) as (h1 & h2 & -> & Dh1 & Dh2 & Rh); [lia|].
  destruct (zero_padded_2 (minute t)) as (m1 & m2 & -> & Dm1 & Dm2 & Rm); [lia|].
  destruct (zero_padded_2 (second t)) as (s1 & s2 & -> & Ds1 & Ds2 & Rs); [lia|].
  exists h1, h2, m1, m2, s1, s2. cbn [append all_digits].
  rewrite Dh1, Dh2, Dm1, Dm2, Ds1, Ds2. auto.
Qed.

Lemma strftime_HMS_injective (t t' : time) :
  0 <= hour t < 24 -> 0 <= minute t < 60 -> 0 <= second t < 60 ->
  0 <= hour t' < 24 -> 0 <= minute t' < 60 -> 0 <= second t' < 60 ->
  strftime_HMS t = strftime_HMS t' -> t = t'.
Proof.
  intros Hh Hm Hs Hh' Hm' Hs' E.
  destruct (strftime_HMS_shape t Hh Hm Hs)
    as (h1 & h2 & m1 & m2 & s1 & s2 & E1 & _ & Rh & Rm & Rs).
  destruct (strftime_HMS_shape t' Hh' Hm' Hs')
    as (h1' & h2' & m1' & m2' & s1' & s2' & E2 & _ & Rh' & Rm' & Rs').
  rewrite E1, E2 in E. injection E as -> -> -> -> -> ->.
  destruct t as [h m s], t' as [h' m' s']. cbn [hour minute second] in *.
  congruence.
Qed.

(** A number of four digits needs no padding. *)
Lemma length_of_N_4 (n : N) :
  (1000 <= n <= 9999)%N -> String.length (of_N n) = 4%nat.
Proof.
  intros H.
  assert (Hu : (String.length (of_N n) <= 4)%nat)
    by (apply (length_of_N_bound n 3); change (10 ^ N.of_nat 4)%N with 10000%N; lia).
  destruct (Nat.le_gt_cases 4 (String.length (of_N n))) as [Hl|Hl]; [lia|].
  pose proof (ndigits_bound_inv n 3) as Hb. unfold Dec.ndigits in Hb.
  change (10 ^ N.of_nat 3)%N with 1000%N in Hb. lia.
Qed.

Lemma length_of_N_below_1000 (n : N) :
  (n < 1000)%N -> (String.length (of_N n) <= 3)%nat.
Proof. intros H. apply (length_of_N_bound n 2). exact H. Qed.

Lemma take_append (a b : string) : take (String.length a) (a ++ b) = a.
Proof. induction a as [|c a IH]; cbn; [now destruct b | now rewrite IH]. Qed.

Lemma length_zero_padded_2 (z : Z) : 0 <= z < 100 -> String.length (zero_padded 2 z) = 2%nat.
Proof. intros H. destruct (zero_padded_2 z H) as (a & b & -> & _). reflexivity. Qed.

(** The label [f"{year}-{month:02d}"] against the first seven characters of
    [isoformat]. *)
Lemma month_label_prefix (d : date) :
  valid d = true -> 1000 <= year d ->
  of_Z (year d) ++ "-" ++ zero_padded 2 (month d) = take 7 (isoformat d).
Proof.
  intros Hv Hy. destruct (valid_bounds d Hv) as (Hy' & Hm & _).
  assert (Hlen : String.length (of_N (Z.abs_N (year d))) = 4%nat)
    by (apply length_of_N_4; lia).
  assert (Hz : zero_padded 4 (year d) = of_N (Z.abs_N (year d)))
    by (unfold zero_padded; rewrite Hlen; reflexivity).
  assert (Ho : of_Z (year d) = of_N (Z.abs_N (year d))).
  { unfold of_Z. assert (E : (year d <? 0) = false) by (apply Z.ltb_ge; lia). now rewrite E. }
  unfold isoformat. rewrite Hz, Ho.
  pose proof (length_zero_padded_2 (month d) ltac:(lia)) as Hm2.
  set (A := of_N (Z.abs_N (year d))) in *. set (B := zero_padded 2 (month d)) in *.
  change ("-" ++ B) with (String "-" B).
  replace (A ++ String "-" (B ++ String "-" (zero_padded 2 (day d))))
    with ((A ++ String "-" B) ++ String "-" (zero_padded 2 (day d))).
  2:{ rewrite append_assoc. reflexivity. }
  replace 7%nat with (String.length (A ++ String "-" B)).
  2:{ rewrite length_append. cbn [String.length]. lia. }
  now rewrite take_append.
Qed.

Lemma month_label_short (d : date) :
  valid d = true -> year d < 1000 ->
  (String.length (of_Z (year d) ++ "-" ++ zero_padded 2 (month d)) = 
   String.length (of_Z (year d)) + 3)%nat
  /\ (String.length (of_Z (year d)) <= 3)%nat.
Proof.
  intros Hv Hy. destruct (valid_bounds d Hv) as (Hy' & Hm & _).
  assert (Ho : of_Z (year d) = of_N (Z.abs_N (year d))).
  { unfold of_Z. assert (E : (year d <? 0) = false) by (apply Z.ltb_ge; lia). now rewrite E. }
  rewrite Ho. split.
  - rewrite length_append. change ("-" ++ zero_padded 2 (month d))
      with (String "-" (zero_padded 2 (month d))).
    cbn [String.length]. rewrite length_zero_padded_2 by lia. lia.
  - apply length_of_N_below_1000. lia.
Qed.

End IdFacts.

Section IdTheorems.
Context {rt : Runtime}.
Import ExpenseService.

(** X9.  A generated identifier is [TX-] followed by six digits, the hour,
    minute and second of the call.  It holds nothing else: two calls get
    the same identifier exactly when they are made at the same time of day,
    on whatever days. *)
Theorem X9_generated_id_is_time_of_day :
  forall (env env' : Env),
    0 <= Date.hour (now env) < 24 -> 0 <= Date.minute (now env) < 60 ->
    0 <= Date.second (now env) < 60 ->
    0 <= Date.hour (now env') < 24 -> 0 <= Date.minute (now env') < 60 ->
    0 <= Date.second (now env') < 60 ->
    (exists s, _new_tx_id env = "TX-" ++ s
               /\ String.length s = 6%nat /\ Str.all_digits s = true)
    /\ (_new_tx_id env = _new_tx_id env' <-> now env = now env').
Proof.
  intros env env' Hh Hm Hs Hh' Hm' Hs'. split.
  - exists (Date.strftime_HMS (now env)). split; [reflexivity|].
    destruct (IdFacts.strftime_HMS_shape (now env) Hh Hm Hs)
      as (h1 & h2 & m1 & m2 & s1 & s2 & E & Hd & _).
    split; [now rewrite E | exact Hd].
  - unfold _new_tx_id. split.
    + intros E. cbn [append] in E. injection E as E.
      now apply IdFacts.strftime_HMS_injective.
    + now intros ->.
Qed.

(** X10.  Two expenses entered one after the other at the same clock time,
    without identifiers of their own, are both stored, the second after the
    first, under one and the same identifier. *)
Theorem X10_same_second_same_id :
  forall (env1 env2 : Env) (u a1 c1 ds1 n1 a2 c2 ds2 n2 : string) (st : store)
         (txs : list Transaction.t) (amt1 amt2 : Dec.Decimal) (cat1 cat2 : string)
         (d1 d2 : Date.date),
    now env1 = now env2 ->
    validate (today env1) a1 c1 ds1 = Ok (amt1, cat1, d1) ->
    validate (today env2) a2 c2 ds2 = Ok (amt2, cat2, d2) ->
    TransactionRepository.load_all st = (Ok txs, st) ->
    let st1 := snd (add_expense env1 u a1 c1 ds1 n1 None st) in
    let st2 := snd (add_expense env2 u a2 c2 ds2 n2 None st1) in
    exists t1 t2,
      TransactionRepository.load_all st2 = (Ok (txs ++ [t1; t2])%list, st2)
      /\ Transaction.transaction_id t1 = Transaction.transaction_id t2
      /\ Transaction.amount t1 = amt1 /\ Transaction.occurred_on t1 = d1
      /\ Transaction.amount t2 = amt2 /\ Transaction.occurred_on t2 = d2.
Proof.
  intros env1 env2 u a1 c1 ds1 n1 a2 c2 ds2 n2 st txs amt1 amt2 cat1 cat2 d1 d2
         Hnow Hv1 Hv2 Hl st1 st2.
  set (t1 := new_transaction env1 u n1 None amt1 cat1 d1).
  set (t2 := new_transaction env2 u n2 None amt2 cat2 d2).
  assert (H1 : st1 = saved (txs ++ [t1])) by (eapply add_expense_commits; eauto).
  pose proof (new_transaction_valid env1 u a1 c1 ds1 n1 None amt1 cat1 d1 txs st Hv1 Hl)
    as Hl1.
  fold t1 in Hl1. rewrite <- H1 in Hl1.
  assert (H2 : st2 = saved ((txs ++ [t1]) ++ [t2])) by (eapply add_expense_commits; eauto).
  pose proof (new_transaction_valid env2 u a2 c2 ds2 n2 None amt2 cat2 d2 _ st1 Hv2 Hl1)
    as Hl2.
  fold t2 in Hl2. rewrite <- H2 in Hl2.
  exists t1, t2. split.
  - rewrite Hl2. now rewrite <- app_assoc.
  - cbn. unfold _new_tx_id. rewrite Hnow. auto.
Qed.

(** X11.  The month [add_expense] reports is the first seven characters of
    the stored date, [YYYY-MM], for the years from 1000 on; for an earlier
    year the year is written without leading zeros, so the label is shorter
    than seven characters. *)
Theorem X11_month_label :
  forall (env : Env) (u a c ds n : string) (tid : option string) (st : store)
         (s : Summary),
    fst (add_expense env u a c ds n tid st) = Ok s ->
    exists d,
      _validate_date (today env) ds = Ok d
      /\ (1000 <= Date.year d -> summary_month s = Str.take 7 (Date.isoformat d))
      /\ (Date.year d < 1000 -> (String.length (summary_month s) < 7)%nat).
Proof.
  intros env u a c ds n tid st s H.
  destruct (add_expense_Ok_inv env u a c ds n tid st s H)
    as (amt & cat & d & txs & tot & Hv & _ & _ & -> & _).
  destruct (validate_Ok_inv _ _ _ _ _ _ _ Hv) as (_ & _ & Hd).
  pose proof (validate_date_valid _ _ _ Hd) as Hvalid.
  exists d. split; [exact Hd|].
  cbn [summary_of summary_month new_transaction Transaction.occurred_on]. split.
  - intros Hy. now apply IdFacts.month_label_prefix.
  - intros Hy. destruct (IdFacts.month_label_short d Hvalid Hy) as [-> Hle]. lia.
Qed.

End IdTheorems.

(** * More on the repository *)

Section RepositoryComposition.
Context {rt : Runtime}.
Import TransactionRepository.

(** [append] for each transaction of a list in turn. *)
Fixpoint append_each (ts : list Transaction.t) : IO unit :=
  match ts with
  | [] => ret tt
  | t :: rest => (_ <- append t ;; append_each rest)%io
  end.

Lemma append_each_loaded (ts : list Transaction.t) :
  Forall valid_tx ts ->
  forall (st : store) (txs : list Transaction.t),
    load_all st = (Ok txs, st) ->
    exists st', append_each ts st = (Ok tt, st')
                /\ load_all st' = (Ok (txs ++ ts)%list, st')
                /\ (ts <> [] -> st' = saved (txs ++ ts)).
Proof.
  induction 1 as [|t ts Ht _ IH]; intros st txs Hl.
  - exists st. rewrite app_nil_r. repeat split; auto. congruence.
  - assert (Hl' : load_all (saved (txs ++ [t])) = (Ok (txs ++ [t])%list, saved (txs ++ [t]))).
    { apply load_all_saved, Forall_app. split; [eapply load_all_valid; eauto|].
      constructor; [exact Ht | constructor]. }
    destruct (IH _ _ Hl') as (st' & Hrun & Hload & Hsaved).
    exists st'. cbn [append_each]. unfold bindIO at 1.
    rewrite (append_loaded st txs t Hl), Hrun.
    rewrite <- app_assoc in Hload. cbn [app] in Hload.
    split; [reflexivity|]. split; [exact Hload|].
    intros _. destruct ts as [|t' ts'].
    + cbn [append_each ret] in Hrun. now injection Hrun as <-.
    + rewrite Hsaved by discriminate. now rewrite <- app_assoc.
Qed.

(** X12.  Whatever [load_all] can read, [save_all] can write back without
    loss: after saving the loaded list the file loads as the very same
    list, also when the file was written by hand (amounts given as numbers,
    records without note or type). *)
Theorem X12_rewrite_keeps_what_loads :
  forall (st : store) (txs : list Transaction.t),
    load_all st = (Ok txs, st) ->
    load_all (snd (save_all txs st)) = (Ok txs, snd (save_all txs st)).
Proof.
  intros st txs H. rewrite save_all_saved. cbn [snd].
  apply load_all_saved. eapply load_all_valid; eauto.
Qed.

(** X13.  Appending the transactions of a list one after the other to a
    file that loads as [S] succeeds each time and leaves a file that loads
    as [S] followed by the list, in the order of the appends. *)
Theorem X13_appends_compose :
  forall (st : store) (S ts : list Transaction.t),
    load_all st = (Ok S, st) ->
    Forall valid_tx ts ->
    exists st',
      append_each ts st = (Ok tt, st')
      /\ load_all st' = (Ok (S ++ ts)%list, st').
Proof.
  intros st S ts Hl Hv.
  destruct (append_each_loaded ts Hv st S Hl) as (st' & H1 & H2 & _). eauto.
Qed.

(** X14.  A file that cannot be loaded is never written: [append] and
    [monthly_totals] fail with the exception of the load, [add_expense]
    fails with it or with that of a check, and all of them leave the file
    as it is. *)
Theorem X14_unreadable_file_is_left_alone :
  forall (st : store) (e : exn),
    fst (load_all st) = Raise e ->
    (forall t, append t st = (Raise e, st))
    /\ (forall u y m, ReportService.monthly_totals u y m st = (Raise e, st))
    /\ (forall env u a c ds n tid,
          exists e', ExpenseService.add_expense env u a c ds n tid st = (Raise e', st)
                     /\ (e' = e \/ validate (ExpenseService.today env) a c ds = Raise e')).
Proof.
  intros st e H.
  assert (Hl : load_all st = (Raise e, st)).
  { pose proof (load_all_keeps_store st) as Hk.
    destruct (load_all st) as [r st']. cbn [fst snd] in *. now subst. }
  split; [|split].
  - intros t. unfold append, bindIO. now rewrite Hl.
  - intros u y m. now apply monthly_totals_unreadable.
  - intros env u a c ds n tid.
    destruct (validate (ExpenseService.today env) a c ds) as [[[amt cat] d]|e'] eqn:Hv.
    + exists e. split; [|now left]. eapply add_expense_unreadable; eauto.
    + exists e'. split; [|now right]. now apply add_expense_rejected.
Qed.

(** X15.  Two transactions with valid dates that serialize to the same
    record are the same transaction: [to_json] loses nothing. *)
Theorem X15_to_json_injective :
  forall (t1 t2 : Transaction.t),
    valid_tx t1 -> valid_tx t2 ->
    Transaction.to_json t1 = Transaction.to_json t2 -> t1 = t2.
Proof.
  intros t1 t2 H1 H2 E.
  pose proof (from_json_to_json t1 H1) as F1.
  pose proof (from_json_to_json t2 H2) as F2.
  rewrite E in F1. congruence.
Qed.

End RepositoryComposition.

(** * More on the report *)

Section ReportIsolation.
Context {rt : Runtime}.
Import ReportService.

Lemma totals_loop_filter (txs : list Transaction.t) (u : string) (y m : Z)
    (i e : Dec.Decimal) :
  totals_loop txs u y m i e = totals_loop (filter (kept u y m) txs) u y m i e.
Proof.
  revert i e; induction txs as [|t txs IH]; intros i e; [reflexivity|].
  cbn [filter]. destruct (kept u y m t) eqn:Hk.
  - cbn [totals_loop].
    destruct (differs_from_str _ _); [apply IH|].
    destruct (_ && _); [|apply IH].
    destruct (upper_of _) as [ty|]; [|reflexivity]. cbn [bind].
    destruct (String.eqb ty "INCOME").
    + destruct (Dec.add i _); [apply IH | reflexivity].
    + destruct (Dec.add e _); [apply IH | reflexivity].
  - rewrite totals_loop_skip by assumption. apply IH.
Qed.

Lemma totals_loop_bad_type (txs : list Transaction.t) (t : Transaction.t)
    (u : string) (y m : Z) :
  In t txs -> kept u y m t = true ->
  (forall s, Transaction.tx_type t <> VStr s) ->
  forall i e, exists x, totals_loop txs u y m i e = Raise x.
Proof.
  intros Hin Hk Hty. induction txs as [|t' txs IH]; [destruct Hin|].
  intros i e. destruct Hin as [->|Hin].
  - cbn [totals_loop]. unfold kept in Hk.
    apply andb_true_iff in Hk as [Hk Hmo]. apply andb_true_iff in Hk as [Hu Hyr].
    apply negb_true_iff in Hu. rewrite Hu, Hyr, Hmo. cbn [andb].
    destruct (Transaction.tx_type t) eqn:E; cbn [upper_of bind]; eauto.
    exfalso. eapply Hty; eauto.
  - cbn [totals_loop].
    destruct (differs_from_str _ _); [now apply IH|].
    destruct (_ && _); [|now apply IH].
    destruct (upper_of _) as [ty|]; [|cbn [bind]; eauto]. cbn [bind].
    destruct (String.eqb ty "INCOME").
    + destruct (Dec.add i _); cbn [bind]; [now apply IH | eauto].
    + destruct (Dec.add e _); cbn [bind]; [now apply IH | eauto].
Qed.

(** X16.  The report depends only on the records of the given user, year
    and month: two files that hold the same such records, in the same
    order, give the same result, whatever else they hold. *)
Theorem X16_report_ignores_other_records :
  forall (st1 st2 : store) (txs1 txs2 : list Transaction.t) (u : string) (y m : Z),
    TransactionRepository.load_all st1 = (Ok txs1, st1) ->
    TransactionRepository.load_all st2 = (Ok txs2, st2) ->
    filter (kept u y m) txs1 = filter (kept u y m) txs2 ->
    fst (monthly_totals u y m st1) = fst (monthly_totals u y m st2).
Proof.
  intros st1 st2 txs1 txs2 u y m H1 H2 E.
  rewrite (monthly_totals_loaded _ _ _ _ _ H1), (monthly_totals_loaded _ _ _ _ _ H2).
  cbn [fst]. unfold totals_of.
  now rewrite (totals_loop_filter txs1), (totals_loop_filter txs2), E.
Qed.

(** X17.  A record of the given user and month whose type is not a string
    (a [null] in the file, say) makes the report fail, and with it every
    [add_expense] for that user and month; the exception is not a
    [ValueError], and nothing is written by the report. *)
Theorem X17_record_without_string_type_fails_report :
  forall (st : store) (txs : list Transaction.t) (t : Transaction.t)
         (u : string) (y m : Z),
    TransactionRepository.load_all st = (Ok txs, st) ->
    In t txs ->
    kept u y m t = true ->
    (forall s, Transaction.tx_type t <> VStr s) ->
    exists e, monthly_totals u y m st = (Raise e, st)
              /\ (e = AttributeError \/ e = InvalidOperation \/ e = Overflow).
Proof.
  intros st txs t u y m Hl Hin Hk Hty.
  rewrite (monthly_totals_loaded _ _ _ _ _ Hl).
  destruct (totals_loop_bad_type txs t u y m Hin Hk Hty Dec.zero Dec.zero) as [x Hx].
  assert (Ht : totals_of txs u y m = Raise x) by (unfold totals_of; now rewrite Hx).
  exists x. split; [now rewrite Ht|]. eapply totals_of_raises; eauto.
Qed.

(** X18.  The report only reads.  On a file that loads it returns the
    totals or raises [AttributeError], [decimal.InvalidOperation] or
    [decimal.Overflow], never a [ValueError]; the file is the same
    afterwards in every case. *)
Theorem X18_report_only_reads :
  forall (st : store) (u : string) (y m : Z),
    snd (monthly_totals u y m st) = st
    /\ (forall txs e,
          TransactionRepository.load_all st = (Ok txs, st) ->
          fst (monthly_totals u y m st) = Raise e ->
          e = AttributeError \/ e = InvalidOperation \/ e = Overflow).
Proof.
  intros st u y m. split; [apply monthly_totals_keeps_store|].
  intros txs e Hl. rewrite (monthly_totals_loaded _ _ _ _ _ Hl). cbn [fst].
  apply totals_of_raises.
Qed.

End ReportIsolation.

(** ** At concrete inputs *)

(** The same time of day two months later. *)
Definition later_env : ExpenseService.Env :=
  {| ExpenseService.today := Date.mk 2027 1 4;
     ExpenseService.now := Date.mk_time 9 5 7 |}.

Lemma X9_witness :
  (exists s, ExpenseService._new_tx_id example_env = "TX-" ++ s
             /\ String.length s = 6%nat /\ Str.all_digits s = true)
  /\ (ExpenseService._new_tx_id example_env = ExpenseService._new_tx_id later_env
      <-> ExpenseService.now example_env = ExpenseService.now later_env).
Proof. apply (X9_generated_id_is_time_of_day example_env later_env); cbn; lia. Defined.

Lemma X10_witness :
  let st1 := snd (@ExpenseService.add_expense strict_runtime example_env "jason" "2.50"
                    "Tea" "2026-11-03" "" None None) in
  let st2 := snd (@ExpenseService.add_expense strict_runtime later_env "jason" "7"
                    "Bus" "2027-01-04" "" None st1) in
  exists t1 t2,
    @TransactionRepository.load_all strict_runtime st2 = (Ok ([] ++ [t1; t2])%list, st2)
    /\ Transaction.transaction_id t1 = Transaction.transaction_id t2
    /\ Transaction.amount t1 = Dec.Finite false 250 (-2)
    /\ Transaction.occurred_on t1 = Date.mk 2026 11 3
    /\ Transaction.amount t2 = Dec.Finite false 700 (-2)
    /\ Transaction.occurred_on t2 = Date.mk 2027 1 4.
Proof.
  apply (@X10_same_second_same_id strict_runtime example_env later_env "jason"
           "2.50" "Tea" "2026-11-03" "" "7" "Bus" "2027-01-04" "" None []
           (Dec.Finite false 250 (-2)) (Dec.Finite false 700 (-2)) "Tea" "Bus"
           (Date.mk 2026 11 3) (Date.mk 2027 1 4)); reflexivity.
Defined.

Lemma X11_witness :
  exists d,
    @ExpenseService._validate_date strict_runtime (Date.mk 2026 11 4) "0999-02-10" = Ok d
    /\ (1000 <= Date.year d -> "999-02" = Str.take 7 (Date.isoformat d))
    /\ (Date.year d < 1000 -> (String.length "999-02" < 7)%nat).
Proof.
  apply (@X11_month_label strict_runtime example_env "jason" "2.50" "Tea" "0999-02-10" ""
           None None
           {| ExpenseService.summary_transaction_id := "TX-090507";
              ExpenseService.summary_month := "999-02";
              ExpenseService.summary_income := "0";
              ExpenseService.summary_expense := "2.50";
              ExpenseService.summary_net := "-2.50" |}).
  vm_compute. reflexivity.
Defined.

Lemma X12_witness :
  exists txs,
    @TransactionRepository.load_all strict_runtime (Some (Document number_amount_doc))
    = (Ok txs, Some (Document number_amount_doc))
    /\ @TransactionRepository.load_all strict_runtime
         (snd (@TransactionRepository.save_all txs (Some (Document number_amount_doc))))
       = (Ok txs, snd (@TransactionRepository.save_all txs
                         (Some (Document number_amount_doc)))).
Proof.
  eexists. split.
  - vm_compute. reflexivity.
  - apply (@X12_rewrite_keeps_what_loads strict_runtime). vm_compute. reflexivity.
Defined.

Lemma X13_witness :
  exists st',
    @append_each strict_runtime february None = (Ok tt, st')
    /\ @TransactionRepository.load_all strict_runtime st' = (Ok ([] ++ february)%list, st').
Proof.
  apply (@X13_appends_compose strict_runtime None [] february).
  - reflexivity.
  - repeat constructor.
Defined.

Lemma X14_witness :
  (forall t, @TransactionRepository.append strict_runtime t (Some Undecodable)
             = (Raise JSONDecodeError, Some Undecodable))
  /\ (forall u y m, @ReportService.monthly_totals strict_runtime u y m (Some Undecodable)
                    = (Raise JSONDecodeError, Some Undecodable))
  /\ (forall env u a c ds n tid,
        exists e', @ExpenseService.add_expense strict_runtime env u a c ds n tid
                     (Some Undecodable) = (Raise e', Some Undecodable)
                   /\ (e' = JSONDecodeError
                       \/ @validate strict_runtime (ExpenseService.today env) a c ds
                          = Raise e')).
Proof.
  apply (@X14_unreadable_file_is_left_alone strict_runtime (Some Undecodable)
           JSONDecodeError).
  reflexivity.
Defined.

Lemma X15_witness : refund = refund.
Proof.
  apply (@X15_to_json_injective strict_runtime refund refund); reflexivity.
Defined.

Lemma X16_witness :
  fst (@ReportService.monthly_totals strict_runtime "jason" 2020 2 (saved february))
  = fst (@ReportService.monthly_totals strict_runtime "jason" 2020 2
           (saved (filter (kept "jason" 2020 2) february))).
Proof.
  apply (@X16_report_ignores_other_records strict_runtime (saved february)
           (saved (filter (kept "jason" 2020 2) february))
           february (filter (kept "jason" 2020 2) february) "jason" 2020 2).
  - vm_compute. reflexivity.
  - vm_compute. reflexivity.
  - vm_compute. reflexivity.
Defined.

Lemma X17_witness :
  exists e,
    @ReportService.monthly_totals strict_runtime "jason" 2026 11 (saved [untyped])
    = (Raise e, saved [untyped])
    /\ (e = AttributeError \/ e = InvalidOperation \/ e = Overflow).
Proof.
  apply (@X17_record_without_string_type_fails_report strict_runtime (saved [untyped])
           [untyped] untyped "jason" 2026 11).
  - vm_compute. reflexivity.
  - left. reflexivity.
  - reflexivity.
  - intros s. discriminate.
Defined.

(** * The command-line loop: [main]

    [main] reads lines with [input], which writes its prompt first and
    raises [EOFError] when the input has ended, calls [add_expense] on the
    data file, and prints.  A run is modelled from the lines there are to
    read (text that has been decoded, of U+0000..U+00FF) and the content of
    the data file to how [main] ends, the content it leaves, and what it has
    written.

    [print] encodes its text for [sys.stdout] and raises
    [UnicodeEncodeError], a [ValueError], at a character the encoding of
    [sys.stdout] lacks.  The heading, the prompts, the lines with the
    identifier, the month and the totals, the messages of the checks and the
    closing line are ASCII, which every encoding in use has.  Two texts need
    not be: the "Saved" line, which holds characters beyond U+00FF, and the
    text of an exception raised while the file is loaded, which can quote the
    file.  Whether [sys.stdout] can write them is given with the run. *)

Class Stdout : Type := {
  writes_saved_line : bool;        (* [print("\nSaved ...")] succeeds *)
  writes_text_of : exn -> bool     (* [print(f"\nInput error: {e}\n")] succeeds *)
}.

Module Main.

(** What has been written is kept as a list of events: the heading, a
    prompt, the block of lines printed after a successful call (with the
    dict they are formatted from), the line that reports a caught exception
    of the call, that line for the [UnicodeEncodeError] of the "Saved" line
    (its text is ASCII), the closing line. *)
Inductive event : Type :=
| Banner                                      (* the two lines of the heading *)
| Prompt (text : string)                      (* written by [input(text)] *)
| Saved (result : ExpenseService.Summary)     (* "Saved", the identifier, the month, the totals *)
| InputError (e : exn)                        (* [print(f"\nInput error: {e}\n")] *)
| InputErrorOfPrint                           (* the same, [e] being the error of [print] *)
| Done.                                       (* [print("\nDone.\n")] *)

(** How [main] ends: it returns, or an exception leaves it: one of the
    call, the [EOFError] of [input] at the end of the input, or the
    [UnicodeEncodeError] of the [print] in the handler. *)
Inductive ending : Type :=
| Returned
| Uncaught (e : exn)
| EndOfInput
| UncaughtOfPrint.

Record run : Type := { ended : ending; disk : store; screen : list event }.

Definition emit (es : list event) (r : run) : run :=
  {| ended := ended r; disk := disk r; screen := es ++ screen r |}.

Definition user_id : string := "jason".

(** The prompts of the four [input] calls inside [try], in order. *)
Definition asked : list event :=
  [ Prompt "Amount (e.g., 45.90): ";
    Prompt "Category (e.g., Groceries): ";
    Prompt "Date (YYYY-MM-DD): ";
    Prompt "Note (optional): " ].

Definition again_prompt : event := Prompt "Add another expense? (y/n): ".

Section Loop.
Context {rt : Runtime} {out : Stdout}.

(** [date.today()] and [datetime.now()] as they stand during the round with
    the given number, counted from 0. *)
Variable clock : nat -> ExpenseService.Env.

(** The rest of the [try] statement once its four lines are read.  After
    the call come the four [print]s, inside [try]: when the first of them
    fails, its [UnicodeEncodeError] is a [ValueError] and goes to the
    handler like one of the call.  The handler prints; when that [print]
    fails, its exception leaves [main].  An exception of the call that is
    not a [ValueError] leaves [main]. *)
Definition attempt (env : ExpenseService.Env) (amount category occurred_on note : string)
    (st : store) : (ending + event) * store :=
  match ExpenseService.add_expense env user_id (Str.strip amount) (Str.strip category)
          (Str.strip occurred_on) (Str.strip note) None st with
  | (Ok result, st') =>
      if writes_saved_line then (inr (Saved result), st')
      else (inr InputErrorOfPrint, st')
  | (Raise e, st') =>
      if is_ValueError e then
        if writes_text_of e then (inr (InputError e), st')
        else (inl UncaughtOfPrint, st')
      else (inl (Uncaught e), st')
  end.

(** The [while True] loop.  Each round reads four lines, makes its attempt,
    and reads the answer to "Add another expense?"; it goes on when the
    answer, trimmed and in lower case, is [y]. *)
Fixpoint loop (k : nat) (stdin : list string) (st : store) : run :=
  match stdin with
  | amount :: category :: occurred_on :: note :: rest =>
      match attempt (clock k) amount category occurred_on note st with
      | (inl x, st') => {| ended := x; disk := st'; screen := asked |}
      | (inr shown, st') =>
          match rest with
          | again :: rest' =>
              if String.eqb (Str.lower (Str.strip again)) "y"
              then emit (asked ++ [shown; again_prompt]) (loop (S k) rest' st')
              else {| ended := Returned; disk := st';
                      screen := asked ++ [shown; again_prompt; Done] |}
          | [] => {| ended := EndOfInput; disk := st';
                     screen := asked ++ [shown; again_prompt] |}
          end
      end
  | _ => {| ended := EndOfInput; disk := st;
            screen := firstn (S (List.length stdin)) asked |}
  end.

Definition main (stdin : list string) (st : store) : run :=
  emit [Banner] (loop 0 stdin st).

End Loop.

(** The number of times "Saved" has been printed. *)
Fixpoint saved_count (es : list event) : nat :=
  match es with
  | [] => 0
  | Saved _ :: rest => S (saved_count rest)
  | _ :: rest => saved_count rest
  end.

End Main.

Section MainFacts.
Context {rt : Runtime} {out : Stdout}.
Import Main.

Lemma saved_count_app (a b : list event) :
  saved_count (a ++ b) = (saved_count a + saved_count b)%nat.
Proof.
  induction a as [|x a IH]; [reflexivity|].
  destruct x; cbn [app saved_count]; rewrite IH; reflexivity.
Qed.

(** An expense as [main] enters it. *)
Definition entered (t : Transaction.t) : Prop :=
  Transaction.user_id t = VStr "jason" /\ Transaction.tx_type t = VStr "EXPENSE".

(** One attempt on a file that loads: nothing is written and the attempt
    is reported as an error or ends [main]; or one transaction is added and
    "Saved" is printed, or the error of that [print] is reported, or the
    exception of the report leaves [main]. *)
Lemma attempt_loaded (env : ExpenseService.Env) (a c ds n : string) (st : store)
    (txs : list Transaction.t) :
  TransactionRepository.load_all st = (Ok txs, st) ->
  (exists e, attempt env a c ds n st = (inr (InputError e), st))
  \/ (exists x, attempt env a c ds n st = (inl x, st))
  \/ (exists tx, entered tx
        /\ TransactionRepository.load_all (saved (txs ++ [tx]))
           = (Ok (txs ++ [tx])%list, saved (txs ++ [tx]))
        /\ ((exists s, writes_saved_line = true
                       /\ attempt env a c ds n st = (inr (Saved s), saved (txs ++ [tx])))
            \/ (writes_saved_line = false
                /\ attempt env a c ds n st = (inr InputErrorOfPrint, saved (txs ++ [tx])))
            \/ (exists e, attempt env a c ds n st
                          = (inl (Uncaught e), saved (txs ++ [tx]))))).
Proof.
  intros Hl. unfold attempt.
  destruct (add_expense_cases env user_id (Str.strip a) (Str.strip c) (Str.strip ds)
              (Str.strip n) None st)
    as [(e & _ & ->)|[(amt & cat & d & e & _ & Hl' & _)|(amt & cat & d & txs' & Hv & Hl' & ->)]].
  - destruct (is_ValueError e); [|right; left; eauto].
    destruct (writes_text_of e); [left | right; left]; eauto.
  - rewrite Hl in Hl'. discriminate.
  - rewrite Hl in Hl'. injection Hl' as <-.
    right; right. exists (new_transaction env user_id (Str.strip n) None amt cat d).
    split; [split; reflexivity|].
    split; [eapply new_transaction_valid; eauto|].
    destruct (totals_of _ _ _ _) as [tot|e] eqn:Ht.
    + destruct writes_saved_line; [left | right; left]; eauto.
    + right; right. exists e.
      destruct (totals_of_raises _ _ _ _ _ Ht) as [-> | [-> | ->]]; reflexivity.
Qed.

(** One attempt on a file that does not load. *)
Lemma attempt_unreadable (env : ExpenseService.Env) (a c ds n : string) (st : store)
    (e : exn) :
  TransactionRepository.load_all st = (Raise e, st) ->
  (exists e', attempt env a c ds n st = (inr (InputError e'), st))
  \/ (exists x, attempt env a c ds n st = (inl x, st)).
Proof.
  intros Hl. unfold attempt.
  destruct (add_expense_cases env user_id (Str.strip a) (Str.strip c) (Str.strip ds)
              (Str.strip n) None st)
    as [(e' & _ & ->)|[(amt & cat & d & e' & _ & _ & ->)|(amt & cat & d & txs' & _ & Hl' & _)]].
  - destruct (is_ValueError e'); [|right; eauto].
    destruct (writes_text_of e'); [left | right]; eauto.
  - destruct (is_ValueError e'); [|right; eauto].
    destruct (writes_text_of e'); [left | right]; eauto.
  - rewrite Hl in Hl'. discriminate.
Qed.

(** What a whole run of the loop does to a file that loads. *)
Definition grown (txs : list Transaction.t) (r : run) : Prop :=
  exists added,
    TransactionRepository.load_all (disk r) = (Ok (txs ++ added)%list, disk r)
    /\ Forall entered added
    /\ (writes_saved_line = true ->
        (saved_count (screen r) <= List.length added <= S (saved_count (screen r)))%nat
        /\ ((forall e, ended r <> Uncaught e) ->
            List.length added = saved_count (screen r)))
    /\ (writes_saved_line = false -> saved_count (screen r) = 0%nat).

Lemma grown_emit_saved (txs : list Transaction.t) (tx : Transaction.t) (s : ExpenseService.Summary)
    (r : run) :
  entered tx -> writes_saved_line = true ->
  grown (txs ++ [tx]) r -> grown txs (emit (asked ++ [Saved s; again_prompt]) r).
Proof.
  intros Htx Hw (added & Hl & Hall & Hc & Hn).
  exists (tx :: added). cbn [emit disk screen ended].
  rewrite <- app_assoc in Hl. cbn [app] in Hl.
  split; [exact Hl|]. split; [now constructor|].
  rewrite saved_count_app. change (saved_count (asked ++ [Saved s; again_prompt])) with 1%nat.
  cbn [List.length]. split.
  - intros _. destruct (Hc Hw) as [Hb He]. split; [lia|].
    intros H. rewrite (He H). lia.
  - intros Hf. rewrite Hw in Hf. discriminate.
Qed.

Lemma grown_emit_unsaved (txs : list Transaction.t) (tx : Transaction.t) (r : run) :
  entered tx -> writes_saved_line = false ->
  grown (txs ++ [tx]) r -> grown txs (emit (asked ++ [InputErrorOfPrint; again_prompt]) r).
Proof.
  intros Htx Hw (added & Hl & Hall & Hc & Hn).
  exists (tx :: added). cbn [emit disk screen ended].
  rewrite <- app_assoc in Hl. cbn [app] in Hl.
  split; [exact Hl|]. split; [now constructor|].
  rewrite saved_count_app.
  change (saved_count (asked ++ [InputErrorOfPrint; again_prompt])) with 0%nat.
  split.
  - intros Ht. rewrite Hw in Ht. discriminate.
  - intros _. now rewrite (Hn Hw).
Qed.

Lemma grown_emit_none (txs : list Transaction.t) (es : list event) (r : run) :
  saved_count es = 0%nat -> grown txs r -> grown txs (emit es r).
Proof.
  intros Hes (added & Hl & Hall & Hc & Hn).
  exists added. cbn [emit disk screen ended].
  split; [exact Hl|]. split; [exact Hall|].
  rewrite saved_count_app, Hes. cbn [Nat.add]. split; [exact Hc | exact Hn].
Qed.

Lemma grown_stop (txs : list Transaction.t) (st : store) (x : ending) (es : list event) :
  TransactionRepository.load_all st = (Ok txs, st) ->
  saved_count es = 0%nat ->
  grown txs {| ended := x; disk := st; screen := es |}.
Proof.
  intros Hl Hes. exists []. cbn [disk screen ended List.length]. rewrite app_nil_r, Hes.
  split; [exact Hl|]. split; [constructor|]. split; [|reflexivity].
  intros _. split; [lia | reflexivity].
Qed.

(** A run that stops right after one transaction has been added. *)
Lemma grown_stop_added (txs : list Transaction.t) (tx : Transaction.t) (x : ending)
    (es : list event) (k : nat) :
  entered tx ->
  TransactionRepository.load_all (saved (txs ++ [tx]))
  = (Ok (txs ++ [tx])%list, saved (txs ++ [tx])) ->
  saved_count es = k ->
  (writes_saved_line = true ->
   (k <= 1)%nat /\ ((forall e, x <> Uncaught e) -> k = 1%nat)) ->
  (writes_saved_line = false -> k = 0%nat) ->
  grown txs {| ended := x; disk := saved (txs ++ [tx]); screen := es |}.
Proof.
  intros Htx Hl Hes Ht Hf. exists [tx]. cbn [disk screen ended List.length]. rewrite Hes.
  split; [exact Hl|]. split; [now constructor|]. split.
  - intros Hw. destruct (Ht Hw) as [Hk He]. split; [lia|].
    intros H. now rewrite (He H).
  - exact Hf.
Qed.

Lemma saved_count_firstn_asked (n : nat) : saved_count (firstn n asked) = 0%nat.
Proof. do 5 (destruct n as [|n]; [reflexivity|]). reflexivity. Qed.

Lemma loop_grows (clock : nat -> ExpenseService.Env) (n : nat) :
  forall (stdin : list string), (List.length stdin <= n)%nat ->
  forall (k : nat) (st : store) (txs : list Transaction.t),
    TransactionRepository.load_all st = (Ok txs, st) ->
    grown txs (loop clock k stdin st).
Proof.
  induction n as [|n IH]; intros stdin Hlen k st txs Hl.
  - destruct stdin; [|cbn in Hlen; lia]. now apply grown_stop.
  - destruct stdin as [|a [|c [|ds [|nt rest]]]];
      try (apply grown_stop; [exact Hl | apply saved_count_firstn_asked]).
    cbn [loop].
    destruct (attempt_loaded (clock k) a c ds nt st txs Hl)
      as [[e ->]|[[x ->]|(tx & Htx & Hl' & [(s & Hw & ->)|[(Hw & ->)|[e ->]]])]].
    + destruct rest as [|again rest']; [now apply grown_stop|].
      destruct (String.eqb _ _); [|now apply grown_stop].
      apply grown_emit_none; [reflexivity|].
      apply IH; [cbn [List.length] in Hlen; lia | exact Hl].
    + now apply grown_stop.
    + destruct rest as [|again rest'].
      * apply (grown_stop_added txs tx _ _ 1%nat Htx Hl'); [reflexivity | auto |].
        intros Hf. rewrite Hw in Hf. discriminate.
      * destruct (String.eqb _ _).
        -- apply (grown_emit_saved txs tx s); [exact Htx | exact Hw |].
           apply IH; [cbn [List.length] in Hlen; lia | exact Hl'].
        -- apply (grown_stop_added txs tx _ _ 1%nat Htx Hl'); [reflexivity | auto |].
           intros Hf. rewrite Hw in Hf. discriminate.
    + destruct rest as [|again rest'].
      * apply (grown_stop_added txs tx _ _ 0%nat Htx Hl'); [reflexivity | | auto].
        intros Ht. rewrite Hw in Ht. discriminate.
      * destruct (String.eqb _ _).
        -- apply (grown_emit_unsaved txs tx); [exact Htx | exact Hw |].
           apply IH; [cbn [List.length] in Hlen; lia | exact Hl'].
        -- apply (grown_stop_added txs tx _ _ 0%nat Htx Hl'); [reflexivity | | auto].
           intros Ht. rewrite Hw in Ht. discriminate.
    + apply (grown_stop_added txs tx _ _ 0%nat Htx Hl'); [reflexivity | | auto].
      intros _. split; [lia|]. intros H. exfalso. now apply (H e).
Qed.

Lemma loop_unreadable (clock : nat -> ExpenseService.Env) (n : nat) :
  forall (stdin : list string), (List.length stdin <= n)%nat ->
  forall (k : nat) (st : store) (e : exn),
    TransactionRepository.load_all st = (Raise e, st) ->
    disk (loop clock k stdin st) = st
    /\ saved_count (screen (loop clock k stdin st)) = 0%nat.
Proof.
  induction n as [|n IH]; intros stdin Hlen k st e Hl.
  - destruct stdin; [|cbn in Hlen; lia]. split; reflexivity.
  - destruct stdin as [|a [|c [|ds [|nt rest]]]];
      try (split; [reflexivity | apply saved_count_firstn_asked]).
    cbn [loop].
    destruct (attempt_unreadable (clock k) a c ds nt st e Hl) as [[e' ->]|[x ->]].
    + destruct rest as [|again rest']; [split; reflexivity|].
      destruct (String.eqb _ _); [|split; reflexivity].
      cbn [emit disk screen]. rewrite saved_count_app.
      destruct (IH rest' ltac:(cbn [List.length] in Hlen; lia) (S k) st e Hl) as [-> ->].
      split; reflexivity.
    + split; reflexivity.
Qed.

End MainFacts.

Section AmountFailure.
Import ExpenseService.

Lemma validate_amount_InvalidOperation_iff (a : string) :
  _validate_amount a = Raise InvalidOperation <->
  (exists s g p, Dec.of_string (Str.strip a) = Some (Dec.NaN s g p))
  \/ Dec.of_string (Str.strip a) = Some (Dec.Infinite false)
  \/ (exists c e, Dec.of_string (Str.strip a) = Some (Dec.Finite false c e)
                  /\ c <> 0%N /\ (10 ^ 28 <= Dec.rescale c e (-2))%N).
Proof.
  split.
  - intros H. destruct (Dec.of_string (Str.strip a)) as [[s c e|s|s g p]|] eqn:Hp.
    + right; right.
      destruct s.
      { unfold _validate_amount in H. rewrite Hp in H. discriminate H. }
      destruct (N.eqb_spec c 0) as [->|Hc].
      { unfold _validate_amount in H. rewrite Hp in H. discriminate H. }
      exists c, e. split; [reflexivity|]. split; [exact Hc|].
      destruct (N.le_gt_cases (10 ^ 28) (Dec.rescale c e (-2))) as [Hge|Hlt]; [exact Hge|].
      assert (Hok : _validate_amount a = Ok (Dec.Finite false (Dec.rescale c e (-2)) (-2))).
      { apply (proj2 (validate_amount_Ok_iff a _)). exists c, e. auto. }
      rewrite Hok in H. discriminate H.
    + destruct s; [|right; left; reflexivity].
      unfold _validate_amount in H. rewrite Hp in H. discriminate H.
    + left. eauto.
    + unfold _validate_amount in H. rewrite Hp in H. discriminate H.
  - intros [(s & g & p & Hp)|[Hp|(c & e & Hp & Hc & Hge)]].
    + unfold _validate_amount. rewrite Hp. reflexivity.
    + unfold _validate_amount. rewrite Hp. reflexivity.
    + destruct (_validate_amount a) as [amt|x] eqn:Hv.
      * exfalso. apply (proj1 (validate_amount_Ok_iff a amt)) in Hv.
        destruct Hv as (c' & e' & Hp' & _ & Hlt & _).
        rewrite Hp in Hp'. injection Hp' as <- <-. lia.
      * f_equal. unfold _validate_amount in Hv. rewrite Hp in Hv.
        apply N.eqb_neq in Hc. cbn [Dec.le_zero bind orb] in Hv. rewrite Hc in Hv.
        eapply quantize_cent_raises; eauto.
Qed.

(** X19.  Among the strings whose number, if they read as one, lies in the
    range the C implementation of [decimal] can hold, the amount check ends
    with [decimal.InvalidOperation], which is not a [ValueError], exactly on
    those that read, trimmed, as a NaN, as plus infinity, or as a finite
    number above zero whose value in cents, rounded, needs more than 28
    digits. *)
Theorem X19_amount_raising_InvalidOperation_iff :
  forall (a : string),
    (forall d, Dec.of_string (Str.strip a) = Some d -> in_C_range d = true) ->
    (_validate_amount a = Raise InvalidOperation <->
     (exists s g p, Dec.of_string (Str.strip a) = Some (Dec.NaN s g p))
     \/ Dec.of_string (Str.strip a) = Some (Dec.Infinite false)
     \/ (exists c e, Dec.of_string (Str.strip a) = Some (Dec.Finite false c e)
                     /\ c <> 0%N /\ (10 ^ 28 <= Dec.rescale c e (-2))%N)).
Proof. intros a _. exact (validate_amount_InvalidOperation_iff a). Qed.

End AmountFailure.

Section MainTheorems.
Context {rt : Runtime} {out : Stdout}.
Import Main.

(** X20.  A session of [main] on a data file that loads never removes or
    changes a transaction: whatever is typed and however the session ends,
    the file it leaves loads as the transactions that were there, in their
    order, followed by those entered, each an EXPENSE of the user jason. *)
Theorem X20_main_only_appends :
  forall (clock : nat -> ExpenseService.Env) (stdin : list string) (st : store)
         (txs : list Transaction.t),
    TransactionRepository.load_all st = (Ok txs, st) ->
    exists added,
      TransactionRepository.load_all (disk (main clock stdin st))
      = (Ok (txs ++ added)%list, disk (main clock stdin st))
      /\ Forall (fun t => Transaction.user_id t = VStr "jason"
                          /\ Transaction.tx_type t = VStr "EXPENSE") added.
Proof.
  intros clock stdin st txs Hl.
  destruct (loop_grows clock (List.length stdin) stdin (le_n _) 0%nat st txs Hl)
    as (added & H1 & H2 & _).
  exists added. split; [exact H1 | exact H2].
Qed.

(** X21.  In a session of [main] on a data file that loads, with a
    [sys.stdout] that can write the "Saved" line, "Saved" is printed once
    for each transaction added to the file, as long as no exception of a
    call leaves [main]; when one does, at most one transaction has been
    added without being reported.  With a [sys.stdout] that cannot write
    the line, "Saved" is never printed, whatever is added: the error of
    [print] is a [ValueError], caught and reported as an input error. *)
Theorem X21_main_reports_what_it_saves :
  forall (clock : nat -> ExpenseService.Env) (stdin : list string) (st : store)
         (txs : list Transaction.t),
    TransactionRepository.load_all st = (Ok txs, st) ->
    exists added,
      TransactionRepository.load_all (disk (main clock stdin st))
      = (Ok (txs ++ added)%list, disk (main clock stdin st))
      /\ (writes_saved_line = true ->
          (saved_count (screen (main clock stdin st)) <= List.length added
           <= S (saved_count (screen (main clock stdin st))))%nat
          /\ ((forall e, ended (main clock stdin st) <> Uncaught e) ->
              List.length added = saved_count (screen (main clock stdin st))))
      /\ (writes_saved_line = false ->
          saved_count (screen (main clock stdin st)) = 0%nat).
Proof.
  intros clock stdin st txs Hl.
  destruct (loop_grows clock (List.length stdin) stdin (le_n _) 0%nat st txs Hl)
    as (added & H1 & _ & H3 & H4).
  exists added. split; [exact H1|]. split; [exact H3 | exact H4].
Qed.

(** X22.  A session of [main] on a data file that does not load leaves the
    file as it is and never prints "Saved", whatever is typed. *)
Theorem X22_main_leaves_unreadable_file :
  forall (clock : nat -> ExpenseService.Env) (stdin : list string) (st : store) (e : exn),
    fst (TransactionRepository.load_all st) = Raise e ->
    disk (main clock stdin st) = st
    /\ saved_count (screen (main clock stdin st)) = 0%nat.
Proof.
  intros clock stdin st e H.
  assert (Hl : TransactionRepository.load_all st = (Raise e, st)).
  { pose proof (load_all_keeps_store st) as Hk.
    destruct (TransactionRepository.load_all st) as [r st']. cbn [fst snd] in *. now subst. }
  exact (loop_unreadable clock (List.length stdin) stdin (le_n _) 0%nat st e Hl).
Qed.

(** X23.  [main] catches [ValueError] only.  When the amount typed makes
    the amount check raise [decimal.InvalidOperation], the exception leaves
    [main] at once: after the four prompts nothing more is written or read,
    and the file is as it was. *)
Theorem X23_main_ends_on_InvalidOperation :
  forall (clock : nat -> ExpenseService.Env) (amount category occurred_on note : string)
         (rest : list string) (st : store),
    ExpenseService._validate_amount (Str.strip amount) = Raise InvalidOperation ->
    main clock (amount :: category :: occurred_on :: note :: rest) st
    = {| ended := Uncaught InvalidOperation; disk := st; screen := Banner :: asked |}.
Proof.
  intros clock amount category occurred_on note rest st H.
  unfold main. cbn [loop]. unfold attempt.
  rewrite (add_expense_rejected (clock 0%nat) user_id _ _ _ _ None st InvalidOperation).
  - reflexivity.
  - now apply validate_raises_amount.
Qed.

End MainTheorems.

(** ** At concrete inputs *)

(** A clock that stands still. *)
Definition steady_clock (k : nat) : ExpenseService.Env := example_env.

(** A [sys.stdout] that writes every text, as one in UTF-8 does, and one
    that cannot write the "Saved" line, as one in ASCII cannot. *)
Definition utf8_stdout : Stdout :=
  {| writes_saved_line := true; writes_text_of := fun _ => true |}.

Definition plain_stdout : Stdout :=
  {| writes_saved_line := false; writes_text_of := fun _ => true |}.

(** Two rounds that succeed, then the end of the input. *)
Definition two_entries : list string :=
  ["12.50"; "Food"; "2026-11-03"; ""; "y"; "4"; "Bus"; "2026-11-04"; "x"].

Lemma X19_witness : ExpenseService._validate_amount "1e26" = Raise InvalidOperation.
Proof.
  destruct (X19_amount_raising_InvalidOperation_iff "1e26") as [_ H].
  - intros d Hd. vm_compute in Hd. injection Hd as <-. reflexivity.
  - apply H. right; right. exists 1%N, 26. split; [reflexivity|]. split; [discriminate|].
    vm_compute. discriminate.
Defined.

Lemma X20_witness :
  exists added,
    @TransactionRepository.load_all strict_runtime
      (Main.disk (@Main.main strict_runtime utf8_stdout steady_clock
               ["12.50"; "Food"; "2026-11-03"; ""; "Y "; "-3"; "Food"; "2026-11-03"; ""; "n"]
               (saved february)))
    = (Ok (february ++ added)%list,
       Main.disk (@Main.main strict_runtime utf8_stdout steady_clock
               ["12.50"; "Food"; "2026-11-03"; ""; "Y "; "-3"; "Food"; "2026-11-03"; ""; "n"]
               (saved february)))
    /\ Forall (fun t => Transaction.user_id t = VStr "jason"
                        /\ Transaction.tx_type t = VStr "EXPENSE") added.
Proof.
  apply (@X20_main_only_appends strict_runtime utf8_stdout steady_clock
           ["12.50"; "Food"; "2026-11-03"; ""; "Y "; "-3"; "Food"; "2026-11-03"; ""; "n"]
           (saved february) february).
  vm_compute. reflexivity.
Defined.

Lemma X21_witness :
  (exists added,
     @TransactionRepository.load_all strict_runtime
       (Main.disk (@Main.main strict_runtime utf8_stdout steady_clock two_entries None))
     = (Ok ([] ++ added)%list,
        Main.disk (@Main.main strict_runtime utf8_stdout steady_clock two_entries None))
     /\ List.length added
        = Main.saved_count
            (Main.screen (@Main.main strict_runtime utf8_stdout steady_clock two_entries None)))
  /\ (exists added,
        @TransactionRepository.load_all strict_runtime
          (Main.disk (@Main.main strict_runtime plain_stdout steady_clock two_entries None))
        = (Ok ([] ++ added)%list,
           Main.disk (@Main.main strict_runtime plain_stdout steady_clock two_entries None))
        /\ Main.saved_count
             (Main.screen (@Main.main strict_runtime plain_stdout steady_clock two_entries None))
           = 0%nat).
Proof.
  split.
  - destruct (@X21_main_reports_what_it_saves strict_runtime utf8_stdout steady_clock
                two_entries None []) as (added & Hl & Ht & _); [reflexivity|].
    exists added. split; [exact Hl|].
    destruct (Ht eq_refl) as [_ He]. apply He. intros e. vm_compute. discriminate.
  - destruct (@X21_main_reports_what_it_saves strict_runtime plain_stdout steady_clock
                two_entries None []) as (added & Hl & _ & Hf); [reflexivity|].
    exists added. split; [exact Hl | exact (Hf eq_refl)].
Defined.

Lemma X22_witness :
  Main.disk (@Main.main strict_runtime utf8_stdout steady_clock
               ["12.50"; "Food"; "2026-11-03"; ""; "n"] (Some Undecodable))
  = Some Undecodable
  /\ Main.saved_count
       (Main.screen (@Main.main strict_runtime utf8_stdout steady_clock
                       ["12.50"; "Food"; "2026-11-03"; ""; "n"] (Some Undecodable)))
     = 0%nat.
Proof.
  apply (@X22_main_leaves_unreadable_file strict_runtime utf8_stdout steady_clock
           ["12.50"; "Food"; "2026-11-03"; ""; "n"] (Some Undecodable) JSONDecodeError).
  reflexivity.
Defined.

Lemma X23_witness :
  @Main.main strict_runtime utf8_stdout steady_clock [" nan"; "Food"; "2026-11-03"; ""; "y"]
    None
  = {| Main.ended := Main.Uncaught InvalidOperation; Main.disk := None;
       Main.screen := Main.Banner :: Main.asked |}.
Proof.
  apply (@X23_main_ends_on_InvalidOperation strict_runtime utf8_stdout steady_clock
           " nan" "Food" "2026-11-03" "" ["y"] None).
  reflexivity.
Defined.

(** * The unit tests of [test_app.py]

    [setUp] removes the test file and builds the three objects on it, so
    each test starts with no file.  A test passes, fails (an assertion does
    not hold) or ends in error (an exception other than a failed assertion
    leaves it). *)

(** [s.startswith(prefix)] *)
Fixpoint startswith (s prefix : string) {struct prefix} : bool :=
  match prefix with
  | EmptyString => true
  | String p prefix' =>
      match s with
      | String c s' => Ascii.eqb c p && startswith s' prefix'
      | EmptyString => false
      end
  end.

Module TestAddExpenseFeature.

Inductive verdict : Type :=
| Passed
| Failed
| Errored (e : exn).

Section Tests.
Context {rt : Runtime}.

(** [with self.assertRaises(ValueError): call] *)
Definition assertRaises_ValueError {A : Type} (call : IO A) (st : store) : verdict :=
  match call st with
  | (Raise e, _) => if is_ValueError e then Passed else Errored e
  | (Ok _, _) => Failed
  end.

Definition test_add_expense_saves_transaction_and_updates_totals
    (env : ExpenseService.Env) : verdict :=
  match ExpenseService.add_expense env "jason" "10.00" "Groceries" "2026-02-10" "milk"
          None None with
  | (Raise e, _) => Errored e
  | (Ok result, st) =>
      if startswith (ExpenseService.summary_transaction_id result) "TX-" then
        match ReportService.monthly_totals "jason" 2026 2 st with
        | (Raise e, _) => Errored e
        | (Ok totals, _) =>
            if String.eqb (Dec.to_string (ReportService.expense totals)) "10.00"
            then Passed else Failed
        end
      else Failed
  end.

Definition test_validation_rejects_negative_amount (env : ExpenseService.Env) : verdict :=
  assertRaises_ValueError
    (ExpenseService.add_expense env "jason" "-5" "Groceries" "2026-02-10" "" None) None.

Definition test_validation_rejects_blank_category (env : ExpenseService.Env) : verdict :=
  assertRaises_ValueError
    (ExpenseService.add_expense env "jason" "5.00" "   " "2026-02-10" "" None) None.

End Tests.

End TestAddExpenseFeature.

Section TestTheorems.
Context {rt : Runtime}.
Import TestAddExpenseFeature.

Lemma validate_test_inputs (today : Date.date) :
  Date.gt (Date.mk 2026 2 10) today = false ->
  validate today "10.00" "Groceries" "2026-02-10"
  = Ok (Dec.Finite false 1000 (-2), "Groceries", Date.mk 2026 2 10).
Proof.
  intros Hg. unfold validate.
  change (ExpenseService._validate_amount "10.00") with (Ok (Dec.Finite false 1000 (-2))).
  change (ExpenseService._validate_category "Groceries") with (Ok "Groceries").
  cbn [bind]. unfold ExpenseService._validate_date.
  change (Str.strip "2026-02-10") with (Date.isoformat (Date.mk 2026 2 10)).
  rewrite fromisoformat_isoformat by reflexivity. now rewrite Hg.
Qed.

Lemma validate_test_inputs_future (today : Date.date) :
  Date.gt (Date.mk 2026 2 10) today = true ->
  validate today "10.00" "Groceries" "2026-02-10"
  = Raise (ValueError "Date cannot be in the future for an expense entry.").
Proof.
  intros Hg. unfold validate.
  change (ExpenseService._validate_amount "10.00") with (Ok (Dec.Finite false 1000 (-2))).
  change (ExpenseService._validate_category "Groceries") with (Ok "Groceries").
  cbn [bind]. unfold ExpenseService._validate_date.
  change (Str.strip "2026-02-10") with (Date.isoformat (Date.mk 2026 2 10)).
  rewrite fromisoformat_isoformat by reflexivity. now rewrite Hg.
Qed.

(** X24.  The first unit test depends on the day it is run: it passes from
    2026-02-10 on, and before that day it ends in error with the "future"
    [ValueError] of the date check.  The two tests of rejected input pass on
    every day, at every time. *)
Theorem X24_unit_tests :
  forall (env : ExpenseService.Env),
    test_add_expense_saves_transaction_and_updates_totals env
    = (if Date.gt (Date.mk 2026 2 10) (ExpenseService.today env)
       then Errored (ValueError "Date cannot be in the future for an expense entry.")
       else Passed)
    /\ test_validation_rejects_negative_amount env = Passed
    /\ test_validation_rejects_blank_category env = Passed.
Proof.
  intros env. split; [|split].
  - unfold test_add_expense_saves_transaction_and_updates_totals.
    destruct (Date.gt (Date.mk 2026 2 10) (ExpenseService.today env)) eqn:Hg.
    + now rewrite (add_expense_rejected env _ _ _ _ _ None None _
                     (validate_test_inputs_future _ Hg)).
    + pose proof (validate_test_inputs _ Hg) as Hv.
      assert (Hl : TransactionRepository.load_all None = (Ok [], None)) by reflexivity.
      rewrite (add_expense_run env "jason" _ _ _ "milk" None None _ _ _ [] Hv Hl).
      set (tx := new_transaction env "jason" "milk" None (Dec.Finite false 1000 (-2))
                   "Groceries" (Date.mk 2026 2 10)).
      assert (Ht : totals_of ([] ++ [tx]) "jason" 2026 2
                   = Ok {| ReportService.income := Dec.zero;
                           ReportService.expense := Dec.Finite false 1000 (-2);
                           ReportService.net := Dec.Finite true 1000 (-2) |}).
      { apply (totals_of_first env "jason" "milk" None 1000 "Groceries" (Date.mk 2026 2 10) []);
          reflexivity. }
      cbn [Date.year Date.month]. rewrite Ht.
      cbn [summary_of ExpenseService.summary_transaction_id tx_id_of].
      change (startswith (ExpenseService._new_tx_id env) "TX-") with true. cbv iota.
      pose proof (monthly_totals_loaded "jason" 2026 2 _ _
                    (new_transaction_valid env "jason" _ _ _ "milk" None _ _ _ [] None Hv Hl))
        as Hm.
      fold tx in Hm. rewrite Hm, Ht. reflexivity.
  - unfold test_validation_rejects_negative_amount, assertRaises_ValueError.
    now rewrite (add_expense_rejected env "jason" "-5" "Groceries" "2026-02-10" "" None None
                   (ValueError "Amount must be greater than 0.") eq_refl).
  - unfold test_validation_rejects_blank_category, assertRaises_ValueError.
    now rewrite (add_expense_rejected env "jason" "5.00" "   " "2026-02-10" "" None None
                   (ValueError "Category is required.") eq_refl).
Qed.

End TestTheorems.

(** * Entering stored values again *)

Section Revalidation.
Context {rt : Runtime}.
Import ExpenseService.

Lemma zero_padded_solid (w : nat) (z : Z) :
  StrFacts.every StrFacts.solid (Str.zero_padded w z) = true.
Proof.
  unfold Str.zero_padded. rewrite StrFacts.every_append, DecFacts.of_N_solid.
  now rewrite StrFacts.every_repeat.
Qed.

Lemma isoformat_solid (d : Date.date) :
  StrFacts.every StrFacts.solid (Date.isoformat d) = true.
Proof.
  unfold Date.isoformat.
  rewrite StrFacts.every_append. cbn [StrFacts.every].
  rewrite StrFacts.every_append. cbn [StrFacts.every].
  now rewrite !zero_padded_solid.
Qed.

(** The order of dates: not after, twice. *)
Lemma not_gt_trans (a b c : Date.date) :
  Date.gt a b = false -> Date.gt b c = false -> Date.gt a c = false.
Proof.
  unfold Date.gt. destruct a as [ya ma da], b as [yb mb db], c as [yc mc dc].
  cbn [Date.year Date.month Date.day].
  repeat match goal with
  | |- context [?x <? ?y] => destruct (Z.ltb_spec x y)
  | |- context [?x =? ?y] => destruct (Z.eqb_spec x y)
  end; cbn [orb andb]; intros; try discriminate; try reflexivity; lia.
Qed.

Lemma revalidate_amount (a : string) (amt : Dec.Decimal) :
  _validate_amount a = Ok amt ->
  (amt <> Dec.Finite false 0 (-2) -> _validate_amount (Dec.to_string amt) = Ok amt)
  /\ (amt = Dec.Finite false 0 (-2) ->
      _validate_amount (Dec.to_string amt)
      = Raise (ValueError "Amount must be greater than 0.")).
Proof.
  intros H.
  destruct (proj1 (validate_amount_Ok_iff a amt) H) as (c & e & _ & _ & Hq & ->).
  set (q := Dec.rescale c e (-2)) in *. split.
  - intros Hne. apply (proj2 (validate_amount_Ok_iff _ _)). exists q, (-2).
    rewrite DecFacts.of_string_strip, DecFacts.of_string_to_string.
    assert (Hr : Dec.rescale q (-2) (-2) = q).
    { unfold Dec.rescale. change (-2 <=? -2) with true. cbv iota.
      change (Z.to_N (-2 - -2)) with 0%N. rewrite N.pow_0_r. apply N.mul_1_r. }
    rewrite Hr. repeat split; auto. congruence.
  - intros [= Hz]. rewrite Hz. reflexivity.
Qed.

End Revalidation.

Section RevalidationTheorems.
Context {rt : Runtime}.
Import ExpenseService.

(** X25.  What the checks return passes the checks again: the stored
    category as it is, the stored date written by [isoformat], and the stored
    amount written by [str], with one exception: an amount stored as 0.00
    is refused as not above zero when it is entered again. *)
Theorem X25_stored_values_validate_again :
  forall (today : Date.date) (a c ds : string) (amt : Dec.Decimal) (cat : string)
         (d : Date.date),
    validate today a c ds = Ok (amt, cat, d) ->
    _validate_category cat = Ok cat
    /\ _validate_date today (Date.isoformat d) = Ok d
    /\ (amt <> Dec.Finite false 0 (-2) -> _validate_amount (Dec.to_string amt) = Ok amt)
    /\ (amt = Dec.Finite false 0 (-2) ->
        _validate_amount (Dec.to_string amt)
        = Raise (ValueError "Amount must be greater than 0.")).
Proof.
  intros today a c ds amt cat d Hv.
  destruct (validate_Ok_inv _ _ _ _ _ _ _ Hv) as (Ha & Hc & Hd).
  destruct (validate_category_Ok_inv c cat Hc) as (_ & Hne & Hlen & Hidem).
  destruct (validate_date_Ok_inv _ _ _ Hd) as (_ & Hg & Hvalid).
  split; [|split].
  - rewrite <- Hidem at 2. apply validate_category_ok; now rewrite Hidem.
  - unfold _validate_date.
    rewrite (StrFacts.strip_solid _ (isoformat_solid d)).
    now rewrite (fromisoformat_isoformat d Hvalid), Hg.
  - exact (revalidate_amount a amt Ha).
Qed.

(** X26.  The checks depend on the clock through the date rule only, and
    in one direction: what is accepted on one day, with the values it is
    stored with, is accepted with the same values on every later day. *)
Theorem X26_accepted_on_every_later_day :
  forall (today later : Date.date) (a c ds : string) (amt : Dec.Decimal) (cat : string)
         (d : Date.date),
    validate today a c ds = Ok (amt, cat, d) ->
    Date.gt today later = false ->
    validate later a c ds = Ok (amt, cat, d).
Proof.
  intros today later a c ds amt cat d Hv Hlater.
  destruct (validate_Ok_inv _ _ _ _ _ _ _ Hv) as (Ha & Hc & Hd).
  destruct (validate_date_Ok_inv _ _ _ Hd) as (Hp & Hg & _).
  unfold validate. rewrite Ha, Hc. cbn [bind].
  unfold _validate_date. rewrite Hp, (not_gt_trans d today later Hg Hlater). reflexivity.
Qed.

End RevalidationTheorems.

(** ** At concrete inputs *)

Lemma X25_witness :
  @ExpenseService._validate_category "Food" = Ok "Food"
  /\ @ExpenseService._validate_date strict_runtime (Date.mk 2026 11 4)
       (Date.isoformat (Date.mk 2026 11 3)) = Ok (Date.mk 2026 11 3)
  /\ (Dec.Finite false 0 (-2) <> Dec.Finite false 0 (-2) ->
      ExpenseService._validate_amount (Dec.to_string (Dec.Finite false 0 (-2)))
      = Ok (Dec.Finite false 0 (-2)))
  /\ (Dec.Finite false 0 (-2) = Dec.Finite false 0 (-2) ->
      ExpenseService._validate_amount (Dec.to_string (Dec.Finite false 0 (-2)))
      = Raise (ValueError "Amount must be greater than 0.")).
Proof.
  apply (@X25_stored_values_validate_again strict_runtime (Date.mk 2026 11 4)
           "0.004" " Food" "2026-11-03" (Dec.Finite false 0 (-2)) "Food"
           (Date.mk 2026 11 3)).
  reflexivity.
Defined.

Lemma X26_witness :
  @validate strict_runtime (Date.mk 2027 1 4) "2.50" " Tea" "2026-11-04"
  = Ok (Dec.Finite false 250 (-2), "Tea", Date.mk 2026 11 4).
Proof.
  apply (@X26_accepted_on_every_later_day strict_runtime (Date.mk 2026 11 4)
           (Date.mk 2027 1 4) "2.50" " Tea" "2026-11-04"); reflexivity.
Defined.
